(** * The trend-to-content pipeline: stages, statuses and the retrying caller

    A shallow embedding of the Python pipeline (trend extraction,
    categorization, approval gate, content generation, publishing) and
    the properties of its status handling, its retry loop and its
    per-stage contracts.

    Python dictionaries are finite maps ([gmap string _]), batches are
    lists of such maps, the language-model service and the wall clock are
    explicit state, and a Python exception is a value of type [exn]
    carried by the [Raised] outcome. *)

From Stdlib Require Import ZArith Ascii String.
From stdpp Require Import base option list gmap strings fin_maps pretty.

Local Open Scope string_scope.

(** ** Python text helpers (ASCII text) *)

Module Py.

Definition is_upper (c : ascii) : bool :=
  let n := nat_of_ascii c in (65 <=? n)%nat && (n <=? 90)%nat.

Definition is_lower (c : ascii) : bool :=
  let n := nat_of_ascii c in (97 <=? n)%nat && (n <=? 122)%nat.

Definition to_lower (c : ascii) : ascii :=
  if is_upper c then ascii_of_nat (nat_of_ascii c + 32) else c.

Definition to_upper (c : ascii) : ascii :=
  if is_lower c then ascii_of_nat (nat_of_ascii c - 32) else c.

(** [str.lower()] *)
Fixpoint lower (s : string) : string :=
  match s with
  | EmptyString => EmptyString
  | String c r => String (to_lower c) (lower r)
  end.

(** [str.capitalize()]: first character upper-cased, the rest lower-cased. *)
Definition capitalize (s : string) : string :=
  match s with
  | EmptyString => EmptyString
  | String c r => String (to_upper c) (lower r)
  end.

(** [needle in hay] on strings. *)
Fixpoint contains (hay needle : string) : bool :=
  String.prefix needle hay ||
  match hay with
  | EmptyString => false
  | String _ r => contains r needle
  end.

(** [str.replace(a, b)] for one-character [a] and [b]. *)
Fixpoint replace_char (a b : ascii) (s : string) : string :=
  match s with
  | EmptyString => EmptyString
  | String c r => String (if Ascii.eqb c a then b else c) (replace_char a b r)
  end.

(** [sep.join(parts)] *)
Fixpoint join (sep : string) (parts : list string) : string :=
  match parts with
  | [] => ""
  | [p] => p
  | p :: rest => p ++ sep ++ join sep rest
  end.

End Py.

(** ** config/settings.py *)

Module Settings.

Definition STATUS_PENDING : string := "Pending".
Definition STATUS_RUN_GPT : string := "Run GPT".
Definition STATUS_POST_LIVE : string := "Post Live".
Definition STATUS_PUBLISHED : string := "Published".

Definition CATEGORY_ADMIT_CARD : string := "Admit Card".
Definition CATEGORY_RESULT : string := "Result".
Definition CATEGORY_JOB_NOTIFICATION : string := "Job Notification".
Definition CATEGORY_NOT_RELEVANT : string := "Not Relevant".

Definition VALID_CATEGORIES : list string :=
  [CATEGORY_ADMIT_CARD; CATEGORY_RESULT; CATEGORY_JOB_NOTIFICATION;
   CATEGORY_NOT_RELEVANT].

Definition SHEET_HEADERS : list string :=
  ["Keyword"; "Interest Score"; "Category"; "Status"; "Approval";
   "AI Confidence"; "AI Reasoning"; "Web Search Summary";
   "Instagram Link"; "Blog Link"; "YouTube Reel Link"; "YouTube Thumbnail Link";
   "Published Timestamp"; "Date Extracted"; "Categorized At"; "Related Queries";
   "Top Regions"].

End Settings.

(** ** auto_approve.py *)

Module Approve.

(** A row of [csv.DictReader]: every cell is text. *)
Abbreviation row := (gmap string string).

Definition confidence_order : gmap string nat :=
  <["Low" := 0]> (<["Medium" := 1]> (<["High" := 2]> ∅)).

(** [confidence_order.get(conf, 0)] *)
Definition cell_rank (conf : string) : nat :=
  default 0 (confidence_order !! conf).

(** [confidence_order.get(min_confidence, 1)] *)
Definition threshold_rank (min_confidence : string) : nat :=
  default 1 (confidence_order !! min_confidence).

(** The condition of the [if] inside the loop. *)
Definition approves (min_confidence : string) (r : row) : bool :=
  let conf := Py.capitalize (default "Low" (r !! "ai_confidence")) in
  let cat := default "" (r !! "category") in
  (threshold_rank min_confidence <=? cell_rank conf)%nat
  && negb (String.eqb cat "Not Relevant").

(** One iteration of the loop: the row handed to [writer.writerow]. *)
Definition auto_approve_row (min_confidence : string) (r : row) : row :=
  if approves min_confidence r then <["status" := "Run GPT"]> r else r.



(** The three confidence levels, their spelling and their rank. *)
Inductive confidence := Low | Medium | High.



End Approve.


(** ** Python values, exceptions and the outside world *)

(** The values that travel through the pipeline: what [json.loads],
    [pandas] records and spreadsheet cells hold.  Numbers are integers; an
    object lists the items of the decoded dictionary. *)
#[local] Unset Elimination Schemes.
Inductive json :=
| JNull
| JBool (b : bool)
| JNum (n : Z)
| JStr (s : string)
| JArr (items : list json)
| JObj (fields : list (string * json)).
#[local] Set Elimination Schemes.

Inductive exn :=
| KeyError (key : string)
| IndexError (msg : string)
| AttributeError (msg : string)
| TypeError (msg : string)
| ValueError (msg : string)
| JSONDecodeError (msg : string)
| RequestException (msg : string)
| HTTPError (status : nat).

(** A computation either returns or raises. *)
Inductive outcome (A : Type) :=
| Normal (a : A)
| Raised (e : exn).
Arguments Normal {A} a.
Arguments Raised {A} e.

(** What one [requests.post] gives back: no response at all, or a status
    code with a body that is JSON or is not. *)
Inductive reply :=
| NoResponse (msg : string)
| Response (status : nat) (body : option json).

(** What the process does to the outside: requests sent, time slept and
    the lines printed by the three mock publishers. *)
Inductive event :=
| Request (call : nat)
| Sleep (seconds : Z)
| MockInstagram (caption_preview : string) (doc_link : option json)
| MockBlog (title : option json) (links : list string)
| MockYoutube (script_preview : string) (thumbnail : option json).

(** A record of a batch or a row of the spreadsheet: a Python dictionary
    from column name to value. *)
Abbreviation entry := (gmap string json).

(** The outside world: the number of requests sent so far, what happened
    so far, and the data rows of the worksheet 'AI Automation Data'
    (sheet row 2 is the first of them). *)
Record world := World {
  calls : nat;
  trace : list event;
  sheet : list entry
}.

(** Stateful, fallible code. *)
Definition M (A : Type) : Type := world → outcome A * world.

#[global] Instance M_ret : MRet M := λ A a w, (Normal a, w).

#[global] Instance M_bind : MBind M := λ A B f m w,
  match m w with
  | (Normal a, w') => f a w'
  | (Raised e, w') => (Raised e, w')
  end.

Module Rt.

Definition raise {A} (e : exn) : M A := λ w, (Raised e, w).

Definition lift {A} (o : outcome A) : M A := λ w, (o, w).

(** [try: body except Exception as e: handler(e)] *)
Definition try_except {A} (body : M A) (handler : exn → M A) : M A := λ w,
  match body w with
  | (Normal a, w') => (Normal a, w')
  | (Raised e, w') => handler e w'
  end.

(** Something happens outside. *)
Definition emit (ev : event) : M unit := λ w,
  (Normal tt, World (calls w) (trace w ++ [ev]) (sheet w)).

(** [time.sleep(d)]; a negative length is a [ValueError]. *)
Definition sleep (d : Z) : M unit :=
  if (d <? 0)%Z then raise (ValueError "sleep length must be non-negative")
  else emit (Sleep d).

(** Sequencing of code that may raise and touches nothing outside. *)
Definition bind_o {A B} (o : outcome A) (f : A → outcome B) : outcome B :=
  match o with
  | Normal a => f a
  | Raised e => Raised e
  end.

(** [add_delay] of scripts/utils.py; every delay type used by the stages
    ('openai') sleeps one second. *)
Definition add_delay : M unit := sleep 1.

(** [str(e)] *)
Definition str_exn (e : exn) : string :=
  match e with
  | KeyError k => "'" ++ k ++ "'"
  | IndexError m | AttributeError m | TypeError m | ValueError m
  | JSONDecodeError m | RequestException m => m
  | HTTPError _ => "HTTP error"
  end.

(** Truth value of a Python value. *)
Definition truthy (v : json) : bool :=
  match v with
  | JNull => false
  | JBool b => b
  | JNum n => negb (n =? 0)%Z
  | JStr s => negb (String.eqb s "")
  | JArr l => match l with [] => false | _ => true end
  | JObj l => match l with [] => false | _ => true end
  end.

Fixpoint assoc (k : string) (fields : list (string * json)) : option json :=
  match fields with
  | [] => None
  | (k', v) :: rest => if String.eqb k k' then Some v else assoc k rest
  end.

(** [v.get(k, d)]: only a dictionary has [get]. *)
Definition get (v : json) (k : string) (d : json) : outcome json :=
  match v with
  | JObj fields => Normal (default d (assoc k fields))
  | _ => Raised (AttributeError "object has no attribute 'get'")
  end.

(** [v[0]] *)
Definition item0 (v : json) : outcome json :=
  match v with
  | JArr (x :: _) => Normal x
  | JArr [] => Raised (IndexError "list index out of range")
  | JStr (String c _) => Normal (JStr (String c ""))
  | JStr EmptyString => Raised (IndexError "string index out of range")
  | JObj fields => Raised (KeyError "0")
  | _ => Raised (TypeError "object is not subscriptable")
  end.

(** [v == s] for a string literal [s]. *)
Definition eq_str (v : json) (s : string) : bool :=
  match v with
  | JStr t => String.eqb t s
  | _ => false
  end.

(** [d.get(k) == s], where a missing key gives [None]. *)
Definition field_is (d : gmap string json) (k s : string) : bool :=
  match d !! k with
  | Some v => eq_str v s
  | None => false
  end.

(** [v in names] for a list of string literals. *)
Definition in_strs (v : json) (names : list string) : bool :=
  existsb (eq_str v) names.

(** [a == b] on the scalars a table cell can hold. *)
Definition eq_cell (a b : json) : bool :=
  match a, b with
  | JNull, JNull => true
  | JBool x, JBool y => Bool.eqb x y
  | JNum x, JNum y => (x =? y)%Z
  | JBool x, JNum y | JNum y, JBool x => (y =? (if x then 1 else 0))%Z
  | JStr x, JStr y => String.eqb x y
  | _, _ => false
  end.

End Rt.

(** ** The HTTP round trip and [json.loads] *)

Module Api.

Section Service.

(** [json.loads] on text: [None] when the text is not JSON. *)
Variable loads : string → option json.
(** The language-model service: the reply to the n-th request of the run.
    The service is asked by request number; the text of the prompt plays
    no part in what the stages do with the reply. *)
Variable service : nat → reply.

(** What [requests.post(...)], [raise_for_status()] and [response.json()]
    make of a reply. *)
Definition response_json (r : reply) : outcome json :=
  match r with
  | NoResponse msg => Raised (RequestException msg)
  | Response status body =>
      if (400 <=? status)%nat && (status <? 600)%nat
      then Raised (HTTPError status)
      else match body with
           | Some j => Normal j
           | None => Raised (JSONDecodeError "response body is not JSON")
           end
  end.

(** One request: it is sent, counted, and answered by the service. *)
Definition post : M json := λ w,
  (response_json (service (calls w)),
   World (S (calls w)) (trace w ++ [Request (calls w)]) (sheet w)).

(** [json.loads(v)] *)
Definition json_loads (v : json) : outcome json :=
  match v with
  | JStr s =>
      match loads s with
      | Some j => Normal j
      | None => Raised (JSONDecodeError "Expecting value")
      end
  | _ => Raised (TypeError "the JSON object must be str, bytes or bytearray")
  end.

End Service.

End Api.

(** ** scripts/phase2_gpt1_categorization.py *)

Module Categorize.

Section Agent.

(** [json.loads] on text: [None] when the text is not JSON. *)
Variable loads : string → option json.
(** The language-model service: the reply to the n-th request of the run. *)
Variable service : nat → reply.
(** [get_current_timestamp()] *)
Variable now : string.

(** ApiPipeClient.generate_text *)
Definition generate_text : M json := Api.post service.

(** [json.loads] *)
Definition json_loads : json → outcome json := Api.json_loads loads.

(** The lines between [generate_text] and [break]: from the response to
    the decoded [result]. *)
Definition decode_result (response : json) : outcome json :=
  Rt.bind_o (Rt.get response "choices" (JArr [JObj []])) (λ choices,
  Rt.bind_o (Rt.item0 choices) (λ first,
  Rt.bind_o (Rt.get first "message" (JObj [])) (λ message,
  Rt.bind_o (Rt.get message "content" (JStr "")) (λ text_response,
  if negb (Rt.truthy text_response) then
    Rt.bind_o (Rt.get response "text" JNull) (λ t,
    if Rt.truthy t then json_loads t else
    Rt.bind_o (Rt.get response "message" JNull) (λ m,
    if Rt.truthy m then json_loads m else json_loads (JStr "")))
  else json_loads text_response)))).

(** The body of the inner [try] for one attempt. *)
Definition attempt : M json :=
  response ← generate_text; Rt.lift (decode_result response).

(** What one attempt makes of the service's reply. *)
Definition attempt_result (r : reply) : outcome json :=
  Rt.bind_o (Api.response_json r) decode_result.

(** The attempt that sends request number [c] fails. *)
Definition attempt_fails (c : nat) : Prop :=
  ∃ x, attempt_result (service c) = Raised x.

(** [for attempt in range(retries): ... else: ...]; [Some result] after a
    [break], [None] when the loop runs out and the [else] branch is taken. *)
Fixpoint retry_loop (retries : nat) (backoff : Z) : M (option json) :=
  match retries with
  | O => mret None
  | S n =>
      Rt.try_except (result ← attempt; mret (Some result))
        (λ _, _ ← Rt.sleep backoff; retry_loop n (backoff * 2)%Z)
  end.

(** perform_web_search *)
Definition perform_web_search (keyword : string) : string :=
  let keyword_lower := Py.lower keyword in
  let any := existsb (Py.contains keyword_lower) in
  let search_context :=
    ((if any ["admit card"; "hall ticket"; "call letter"; "download"]
     then ["Found admit card indicator in keyword"] else []) ++
    (if any ["result"; "merit list"; "cut off"; "declared"; "scorecard"]
     then ["Found result indicator in keyword"] else []) ++
    (if any ["job"; "recruitment"; "notification"; "vacancy"; "hiring"]
     then ["Found job notification indicator in keyword"] else []) ++
    (if any ["ssc"; "upsc"; "bank"; "railway"; "neet"; "jee"; "government"]
     then ["Found government/education context"] else []))%list in
  match search_context with
  | [] => "No specific job-related context found"
  | _ => Py.join "; " search_context
  end.

(** [self.perform_web_search(entry['keyword'])]: the key must exist and be
    text ([lower] is a string method). *)
Definition web_search_of (e : entry) : outcome string :=
  match e !! "keyword" with
  | None => Raised (KeyError "keyword")
  | Some (JStr k) => Normal (perform_web_search k)
  | Some _ => Raised (AttributeError "object has no attribute 'lower'")
  end.

(** The dictionary [categorize_keyword] returns. *)
Record ai_result := AiResult {
  category : json;
  confidence : json;
  reasoning : json;
  web_search_summary : string
}.

(** The three fallback dictionaries. *)
Definition retries_exhausted (web_context : string) : ai_result :=
  AiResult (JStr Settings.CATEGORY_NOT_RELEVANT) (JStr "Low")
    (JStr "ApiPipe quota exceeded or errors") web_context.

Definition on_exception (e : exn) (web_context : string) : ai_result :=
  match e with
  | JSONDecodeError msg =>
      AiResult (JStr Settings.CATEGORY_NOT_RELEVANT) (JStr "Low")
        (JStr ("JSON error: " ++ msg)) web_context
  | _ =>
      AiResult (JStr Settings.CATEGORY_NOT_RELEVANT) (JStr "Low")
        (JStr ("Error: " ++ Rt.str_exn e)) web_context
  end.

(** The lines after the loop: validation of the decoded [result]. *)
Definition validate (result : json) (web_context : string) : outcome ai_result :=
  Rt.bind_o (Rt.get result "category" (JStr Settings.CATEGORY_NOT_RELEVANT)) (λ cat,
  let cat := if negb (Rt.in_strs cat Settings.VALID_CATEGORIES)
             then JStr Settings.CATEGORY_NOT_RELEVANT else cat in
  Rt.bind_o (Rt.get result "confidence" (JStr "Low")) (λ conf,
  Rt.bind_o (Rt.get result "reasoning" (JStr "No reasoning provided")) (λ reas,
  Normal (AiResult cat conf reas web_context)))).

(** categorize_keyword(entry, retries, backoff) *)
Definition categorize_keyword (e : entry) (retries : nat) (backoff : Z)
  : M ai_result :=
  match web_search_of e with
  | Raised x => mret (on_exception x "")
  | Normal web_context =>
      Rt.try_except
        (r ← retry_loop retries backoff;
         match r with
         | None => mret (retries_exhausted web_context)
         | Some result => Rt.lift (validate result web_context)
         end)
        (λ x, mret (on_exception x web_context))
  end.

(** The defaults of the keyword arguments. *)
Definition default_retries : nat := 3.
Definition default_backoff : Z := 5.

(** [entry.update({...})] with the six fields of [process_batch]. *)
Definition update_entry (e : entry) (r : ai_result) : entry :=
  <["status" := JStr Settings.STATUS_PENDING]>
  (<["categorized_at" := JStr now]>
  (<["web_search_summary" := JStr (web_search_summary r)]>
  (<["ai_reasoning" := reasoning r]>
  (<["ai_confidence" := confidence r]>
  (<["category" := category r]> e))))).

(** process_batch: the list [categorized_data]. *)
Fixpoint process_batch (data : list entry) : M (list entry) :=
  match data with
  | [] => mret []
  | e :: rest =>
      (* the log line reads entry['keyword'] *)
      _ ← (match e !! "keyword" with
           | None => Rt.raise (KeyError "keyword")
           | Some _ => mret tt
           end);
      ai ← categorize_keyword e default_retries default_backoff;
      let e' := update_entry e ai in
      _ ← Rt.add_delay;
      done ← process_batch rest;
      mret (e' :: done)
  end.

(** GPT1CategorizationAgent.run: [file] is what 'phase1_trends_data.csv'
    holds, [None] when the file does not exist.  The result is the
    returned flag and the rows saved to 'phase2_categorized_data.csv'. *)
Definition run (file : option (list entry)) : M (bool * option (list entry)) :=
  Rt.try_except
    (match file with
     | None => mret (false, None)
     | Some [] => mret (false, None)
     | Some data =>
         categorized_data ← process_batch data;
         match categorized_data with
         | [] => mret (false, None)
         | _ => mret (true, Some categorized_data)
         end
     end)
    (λ _, mret (false, None)).

End Agent.

(** A category of the taxonomy. *)
Definition valid_category (c : json) : Prop :=
  ∃ s, c = JStr s ∧ s ∈ Settings.VALID_CATEGORIES.

(** [category] after the check against [VALID_CATEGORIES]. *)
Definition checked_category (fields : list (string * json)) : json :=
  match Rt.assoc "category" fields with
  | Some c =>
      if Rt.in_strs c Settings.VALID_CATEGORIES then c
      else JStr Settings.CATEGORY_NOT_RELEVANT
  | None => JStr Settings.CATEGORY_NOT_RELEVANT
  end.

End Categorize.

(** ** scripts/phase3_gpt2_content_generation.py *)

Module Content.

(** A slot that holds an error marker: a dictionary with the key 'error'. *)
Definition is_error_marker (v : json) : bool :=
  match v with
  | JObj fields => bool_decide (is_Some (Rt.assoc "error" fields))
  | _ => false
  end.

Section Agent.

Variable loads : string → option json.
Variable service : nat → reply.
Variable now : string.

(** The keys of [get_content_prompts()], in the order of the dictionary. *)
Definition content_types : list string :=
  ["instagram_post"; "blog_article"; "youtube_reel"; "youtube_thumbnail"].

(** From [response.json()] to [parsed_content]. *)
Definition decode_content (content_json : json) : outcome json :=
  Rt.bind_o (Rt.get content_json "choices" (JArr [JObj []])) (λ choices,
  Rt.bind_o (Rt.item0 choices) (λ first,
  Rt.bind_o (Rt.get first "message" (JObj [])) (λ message,
  Rt.bind_o (Rt.get message "content" (JStr "")) (λ content_str,
  Api.json_loads loads content_str)))).

(** One artifact call: the statements of the [try] up to [parsed_content]. *)
Definition artifact_call : M json :=
  content_json ← Api.post service; Rt.lift (decode_content content_json).

(** What one artifact call makes of the service's reply. *)
Definition artifact_result (r : reply) : outcome json :=
  Rt.bind_o (Api.response_json r) decode_content.

(** [{"error": str(e)}] *)
Definition error_marker (e : exn) : json := JObj [("error", JStr (Rt.str_exn e))].

(** The loop over the four prompts. *)
Fixpoint generate_slots (types : list string) (generated_content : entry)
  : M entry :=
  match types with
  | [] => mret generated_content
  | content_type :: rest =>
      slot ← Rt.try_except
                (parsed_content ← artifact_call;
                 _ ← Rt.add_delay;
                 mret parsed_content)
                (λ e, mret (error_marker e));
      generate_slots rest (<[content_type := slot]> generated_content)
  end.

(** What the loop stores in a slot for a reply, and what it does to the
    outside on the way: one request, and the one-second delay after a
    success. *)
Definition slot_value (r : reply) : json :=
  match artifact_result r with
  | Normal parsed_content => parsed_content
  | Raised e => error_marker e
  end.

Definition slot_events (c : nat) (r : reply) : list event :=
  Request c ::
  match artifact_result r with
  | Normal _ => [Sleep 1]
  | Raised _ => []
  end.

(** The slots filled from request number [c] on, and the trace of that. *)
Fixpoint fill_slots (types : list string) (c : nat) (generated_content : entry)
  : entry :=
  match types with
  | [] => generated_content
  | content_type :: rest =>
      fill_slots rest (S c)
        (<[content_type := slot_value (service c)]> generated_content)
  end.

Fixpoint slots_trace (c n : nat) : list event :=
  match n with
  | O => []
  | S n' => (slot_events c (service c) ++ slots_trace (S c) n')%list
  end.

(** A reply that makes the call fail, and one that yields an artifact. *)
Definition fails (r : reply) : Prop := ∃ e, artifact_result r = Raised e.

Definition yields_artifact (r : reply) : Prop :=
  ∃ parsed_content,
    artifact_result r = Normal parsed_content
    ∧ is_error_marker parsed_content = false.

(** An entry the stage generates content for. *)
Definition eligible (e : entry) : bool :=
  Rt.field_is e "status" Settings.STATUS_RUN_GPT
  && negb (Rt.field_is e "category" Settings.CATEGORY_NOT_RELEVANT).

(** generate_content_for_keyword; [None] for a skipped entry. *)
Definition generate_content_for_keyword (e : entry) : M (option entry) :=
  if negb (Rt.field_is e "status" Settings.STATUS_RUN_GPT) then mret None
  else if Rt.field_is e "category" Settings.CATEGORY_NOT_RELEVANT then mret None
  else
    match e !! "keyword" with
    | None => Rt.raise (KeyError "keyword")
    | Some keyword =>
        let generated_content : entry :=
          <["generated_at" := JStr now]>
          (<["interest_score" := default JNull (e !! "interest_score")]>
          (<["category" := default JNull (e !! "category")]>
          (<["keyword" := keyword]> ∅))) in
        generated_content ← generate_slots content_types generated_content;
        mret (Some generated_content)
    end.

(** The loop of [process_approved_entries] over the approved entries. *)
Fixpoint generate_all (approved : list entry) : M (list entry) :=
  match approved with
  | [] => mret []
  | e :: rest =>
      content ← generate_content_for_keyword e;
      results ← generate_all rest;
      mret (match content with
            | Some c => c :: results
            | None => results
            end)
  end.

(** process_approved_entries *)
Definition process_approved_entries (data : list entry) : M (list entry) :=
  match List.filter (λ e, Rt.field_is e "status" Settings.STATUS_RUN_GPT) data with
  | [] => mret []
  | approved => generate_all approved
  end.

(** A dictionary key must be hashable. *)
Definition hashable (v : json) : bool :=
  match v with
  | JArr _ | JObj _ => false
  | _ => true
  end.

(** The keys of [content_map]. *)
Fixpoint content_map_keys (generated_content : list entry) : outcome (list json) :=
  match generated_content with
  | [] => Normal []
  | item :: rest =>
      match item !! "keyword" with
      | None => Raised (KeyError "keyword")
      | Some k =>
          if hashable k
          then Rt.bind_o (content_map_keys rest) (λ ks, Normal (k :: ks))
          else Raised (TypeError "unhashable type")
      end
  end.

Definition base_url : string := "https://your-public-host.com/ai-content".

(** The body of the loop of [update_original_data_with_content_links]. *)
Definition link_entry (keys : list json) (e : entry) : outcome entry :=
  match e !! "keyword" with
  | None => Raised (KeyError "keyword")
  | Some key =>
      if negb (hashable key) then Raised (TypeError "unhashable type")
      else if existsb (Rt.eq_cell key) keys then
        let e1 : entry :=
          if Rt.field_is e "category" Settings.CATEGORY_NOT_RELEVANT
          then <["status" := JStr "Not Relevant"]> e
          else <["status" := JStr "Content Generated"]> e in
        let e2 : entry := <["content_generated_at" := JStr now]> e1 in
        match key with
        | JStr k =>
            let slug := Py.replace_char " " "_" k in
            Normal
              (<["youtube_thumbnail_link" := JStr (base_url ++ "/thumbnail_" ++ slug ++ ".png")]>
              (<["youtube_reel_link" := JStr (base_url ++ "/reel_" ++ slug ++ ".txt")]>
              (<["blog_link" := JStr (base_url ++ "/blog_" ++ slug ++ ".html")]>
              (<["instagram_link" := JStr (base_url ++ "/instagram_" ++ slug ++ ".txt")]>
               e2))))
        | _ => Raised (AttributeError "object has no attribute 'replace'")
        end
      else Normal e
  end.

Fixpoint link_entries (keys : list json) (original_data : list entry)
  : outcome (list entry) :=
  match original_data with
  | [] => Normal []
  | e :: rest =>
      Rt.bind_o (link_entry keys e) (λ e',
      Rt.bind_o (link_entries keys rest) (λ updated, Normal (e' :: updated)))
  end.

(** update_original_data_with_content_links *)
Definition update_original_data_with_content_links
    (original_data generated_content : list entry) : outcome (list entry) :=
  Rt.bind_o (content_map_keys generated_content) (λ keys,
  link_entries keys original_data).

(** A row of 'content_summary.csv'. *)
Record summary_row := SummaryRow {
  summary_keyword : json;
  summary_category : json;
  instagram_caption_preview : string;
  blog_title : json;
  summary_generated_at : json;
  content_status : string
}.

(** [item[k]] *)
Definition item (d : entry) (k : string) : outcome json :=
  match d !! k with
  | Some v => Normal v
  | None => Raised (KeyError k)
  end.

(** [instagram.get('caption', '')[:100] + '...' if instagram.get('caption')
    else '']: only text can be sliced and joined with text. *)
Definition caption_preview (instagram : json) : outcome string :=
  Rt.bind_o (Rt.get instagram "caption" JNull) (λ caption,
  if Rt.truthy caption then
    match caption with
    | JStr c => Normal (String.substring 0 100 c ++ "...")
    | _ => Raised (TypeError "caption cannot be sliced and joined with text")
    end
  else Normal "").

(** The dictionary appended to [summary] in the loop of [run]. *)
Definition summarize (generated : entry) : outcome summary_row :=
  let instagram := default (JObj []) (generated !! "instagram_post") in
  let blog := default (JObj []) (generated !! "blog_article") in
  Rt.bind_o (item generated "keyword") (λ keyword,
  Rt.bind_o (item generated "category") (λ category,
  Rt.bind_o (caption_preview instagram) (λ preview,
  Rt.bind_o (Rt.get blog "title" (JStr "")) (λ title,
  Normal (SummaryRow keyword category preview title
            (default (JStr "") (generated !! "generated_at")) "Generated"))))).

Fixpoint summarize_all (generated_content : list entry)
  : outcome (list summary_row) :=
  match generated_content with
  | [] => Normal []
  | g :: rest =>
      Rt.bind_o (summarize g) (λ row,
      Rt.bind_o (summarize_all rest) (λ rows, Normal (row :: rows)))
  end.

(** What a run leaves behind: the returned flag and the three files
    'generated_content.json', 'content_summary.csv' and
    'updated_trends_data.csv', each written or not. *)
Record run_result := RunResult {
  success : bool;
  generated_content_json : option (list entry);
  content_summary_csv : option (list summary_row);
  updated_trends_data_csv : option (list entry)
}.

(** GPT2ContentGenerationAgent.run: [file] is what 'phase2_approved.csv'
    holds, [None] when the file does not exist. *)
Definition run (file : option (list entry)) : M run_result := λ w,
  match file with
  | None => (Normal (RunResult false None None None), w)
  | Some data =>
      match process_approved_entries data w with
      | (Raised _, w') => (Normal (RunResult false None None None), w')
      | (Normal [], w') => (Normal (RunResult false None None None), w')
      | (Normal generated_content, w') =>
          match summarize_all generated_content with
          | Raised _ =>
              (Normal (RunResult false (Some generated_content) None None), w')
          | Normal summary =>
              match update_original_data_with_content_links
                      data generated_content with
              | Raised _ =>
                  (Normal (RunResult false (Some generated_content)
                             (Some summary) None), w')
              | Normal updated_data =>
                  (Normal (RunResult true (Some generated_content)
                             (Some summary) (Some updated_data)), w')
              end
          end
      end
  end.

End Agent.

(** The number of error markers among the four slots of a content map. *)
Definition error_markers (generated_content : entry) : nat :=
  length (List.filter
            (λ t, match generated_content !! t with
                  | Some v => is_error_marker v
                  | None => false
                  end)
            content_types).

End Content.

(** ** scripts/publish_content.py *)

Module Publish.

(** [caption[:30]] *)
Definition preview (s : string) : string := String.substring 0 30 s.

Definition mock_publish_instagram (caption hashtags : string)
    (doc_link : option json) : M unit :=
  Rt.emit (MockInstagram (preview caption) doc_link).

(** [', '.join(links)] accepts text items only. *)
Fixpoint text_items (links : list (option json)) : outcome (list string) :=
  match links with
  | [] => Normal []
  | Some (JStr s) :: rest => Rt.bind_o (text_items rest) (λ l, Normal (s :: l))
  | _ :: _ => Raised (TypeError "sequence item: expected str instance")
  end.

Definition mock_publish_blog (title : option json) (content : string)
    (links : list (option json)) : M unit :=
  items ← Rt.lift (text_items links); Rt.emit (MockBlog title items).

Definition mock_publish_youtube (script : string) (thumbnail : option json)
  : M unit :=
  Rt.emit (MockYoutube (preview script) thumbnail).

(** Publisher.update_status: cell D of sheet row [row_num], the Status
    column of the sheet's header. *)
Definition update_status (row_num : nat) (status : string) : M unit := λ w,
  (Normal tt,
   World (calls w) (trace w)
     (alter (<["Status" := JStr status]>) (row_num - 2) (sheet w))).

(** The loop of [Publisher.run] over the records read at its start;
    [idx] is the sheet row of the first of [rows]. *)
Fixpoint publish_rows (idx : nat) (rows : list entry) : M unit :=
  match rows with
  | [] => mret tt
  | row :: rest =>
      if negb (Rt.field_is row "Approval" "Approved")
         || Rt.field_is row "Status" "Not Relevant"
      then publish_rows (S idx) rest
      else if Rt.field_is row "Status" "Published"
      then publish_rows (S idx) rest
      else
        _ ← mock_publish_instagram "Sample caption with #hashtag" "#hashtag"
              (row !! "Instagram Link");
        _ ← mock_publish_blog (row !! "Keyword") "Sample content with links"
              [row !! "Blog Link"];
        _ ← mock_publish_youtube "Sample reel script"
              (row !! "Youtube Thumbnail Link");
        _ ← update_status idx "Published";
        publish_rows (S idx) rest
  end.

(** Publisher.run on a worksheet that could be opened. *)
Definition run : M bool := λ w,
  (_ ← publish_rows 2 (sheet w); mret true) w.

(** A row the loop does not skip: approved, and neither published nor
    'Not Relevant'. *)
Definition due (row : entry) : bool :=
  Rt.field_is row "Approval" "Approved"
  && negb (Rt.field_is row "Status" "Published")
  && negb (Rt.field_is row "Status" "Not Relevant").

(** The row after [update_status]. *)
Definition mark_published (row : entry) : entry :=
  <["Status" := JStr "Published"]> row.

(** The sheet follows the header: the 'Blog Link' cell of a row holds text. *)
Definition has_blog_link (row : entry) : Prop :=
  ∃ link, row !! "Blog Link" = Some (JStr link).

(** What the three mock publishers print for a row. *)
Definition publish_events (row : entry) : list event :=
  match row !! "Blog Link" with
  | Some (JStr link) =>
      [MockInstagram (preview "Sample caption with #hashtag")
         (row !! "Instagram Link");
       MockBlog (row !! "Keyword") [link];
       MockYoutube (preview "Sample reel script")
         (row !! "Youtube Thumbnail Link")]
  | _ => []
  end.

End Publish.

(** ** scripts/phase1_google_trends.py *)

Module Trends.

(** The dictionary built by the two extraction loops. *)
Record trend_entry := TrendEntry {
  keyword : string;
  interest : Z;
  related_topics : string;
  timestamp : string;
  geo : string;
  category : string
}.

(** [df.drop_duplicates(subset=['keyword'], keep='first')]: a row is kept
    when its keyword has not been seen in an earlier row. *)
Fixpoint drop_duplicates_first (seen : gset string) (rows : list trend_entry)
  : list trend_entry :=
  match rows with
  | [] => []
  | r :: rest =>
      if bool_decide (keyword r ∈ seen) then drop_duplicates_first seen rest
      else r :: drop_duplicates_first ({[keyword r]} ∪ seen) rest
  end.

(** save_to_csv: the returned flag and the rows written to the file. *)
Definition save_to_csv (data : list trend_entry) : bool * option (list trend_entry) :=
  match data with
  | [] => (false, None)
  | _ => (true, Some (drop_duplicates_first ∅ data))
  end.

(** [self.job_keywords] *)
Definition job_keywords : list string :=
  ["admit card 2025"; "hall ticket download"; "ssc admit card";
   "bank po admit card"; "upsc admit card"; "railway admit card";
   "police admit card"; "teacher admit card";
   "result 2025"; "merit list"; "cut off marks"; "ssc result";
   "bank po result"; "upsc result"; "neet result"; "jee result";
   "railway result"; "police result";
   "job notification 2025"; "recruitment notification"; "government job";
   "sarkari job"; "bank recruitment"; "railway job"; "police recruitment";
   "teacher recruitment"; "clerk recruitment"; "officer recruitment";
   "exam notification"; "application form"].

(** generate_related_topics *)
Definition generate_related_topics (kw : string) : string :=
  let keyword_lower := Py.lower kw in
  if Py.contains keyword_lower "admit card"
  then "exam hall ticket, download admit card, exam date"
  else if Py.contains keyword_lower "result"
  then "merit list, cut off marks, scorecard"
  else if Py.contains keyword_lower "job"
          || Py.contains keyword_lower "recruitment"
  then "vacancy notification, application form, eligibility"
  else "trending topics related to " ++ kw.

(** ImprovedGoogleTrendsExtractor.categorize_keyword *)
Definition categorize_keyword (kw : string) : string :=
  let keyword_lower := Py.lower kw in
  if Py.contains keyword_lower "admit card"
     || Py.contains keyword_lower "hall ticket"
  then "Admit Card"
  else if Py.contains keyword_lower "result"
  then "Result"
  else if Py.contains keyword_lower "job"
          || Py.contains keyword_lower "recruitment"
          || Py.contains keyword_lower "notification"
  then "Job Notification"
  else "Jobs & Education".

(** The dictionary [trend_entry] both extraction loops build for a
    keyword, given the interest score drawn and the time read. *)
Definition build_entry (kw : string) (interest_score : Z) (time : string)
  : trend_entry :=
  TrendEntry kw interest_score (generate_related_topics kw) time "IN"
    (categorize_keyword kw).

(** The list [trends_data] of an extraction loop in which no keyword
    fails: [draw i] and [clock i] are the score drawn and the time read
    for the i-th keyword. *)
Definition extraction (draw : nat → Z) (clock : nat → string)
  : list trend_entry :=
  imap (λ i kw, build_entry kw (draw i) (clock i)) job_keywords.

End Trends.

(** ** scripts/phase4_sheets_integration.py *)

Module Sheets.

(** [header.lower().replace(' ', '_')] *)
Definition header_key (header : string) : string :=
  Py.replace_char " " "_" (Py.lower header).

Section Upload.

(** [str(v)]; on text it is the text itself. *)
Variable str : json → string.

(** The list [row] built for an entry. *)
Definition upload_row (e : entry) : list string :=
  map (λ header, str (default (JStr "") (e !! header_key header)))
    Settings.SHEET_HEADERS.

(** Whether the worksheet takes the rows: [batch_clear] and [update]
    return rather than raise. *)
Variable accepts : list (list string) → bool.

(** upload_data_to_sheet: [file] is what 'updated_trends_data.csv' holds,
    [None] when the file does not exist or cannot be read.  The result is
    the returned flag and the rows written below the header. *)
Definition upload_data_to_sheet (file : option (list entry))
  : bool * option (list (list string)) :=
  match file with
  | None => (false, None)
  | Some [] => (false, None)
  | Some data =>
      let upload_data := map upload_row data in
      if accepts upload_data then (true, Some upload_data) else (false, None)
  end.

End Upload.

(** [worksheet.get_all_records()] on a worksheet whose first row is the
    header and whose other rows are [rows]: one dictionary per row, from
    the header of a column to the cell below it; [numericise] is the
    value read from the text of a cell. *)
Definition record_of (numericise : string → json) (cells : list string)
  : entry :=
  list_to_map (zip Settings.SHEET_HEADERS (numericise <$> cells)).

Definition get_all_records (numericise : string → json)
    (rows : list (list string)) : list entry :=
  record_of numericise <$> rows.

End Sheets.

(** ** main.py *)

Module Orchestrator.

Section Phases.

(** The four phases, the prerequisite check and the sample-data fallback
    act on the files and services of the run and report a flag; the
    phase runners catch every exception themselves. *)
Context {S : Type}.
Variables check_prerequisites run_phase1 run_phase2 run_phase3 run_phase4
  create_sample_data_if_needed : S → bool * S.

(** run_all_phases *)
Definition run_all_phases (s : S) : bool * S :=
  let (ready, s) := check_prerequisites s in
  if negb ready then (false, s) else
  let completed_phases := 0 in
  let (ok1, s) := run_phase1 s in
  let (completed_phases, s) :=
    if ok1 then (completed_phases + 1, s)
    else (completed_phases, snd (create_sample_data_if_needed s)) in
  let (ok2, s) := run_phase2 s in
  if negb ok2 then (false, s) else
  let completed_phases := completed_phases + 1 in
  let (ok3, s) := run_phase3 s in
  let completed_phases :=
    if ok3 then completed_phases + 1 else completed_phases in
  let (ok4, s) := run_phase4 s in
  let completed_phases :=
    if ok4 then completed_phases + 1 else completed_phases in
  ((2 <=? completed_phases)%nat, s).

End Phases.

End Orchestrator.

(** ** utils.py: the sample data *)

Module Utils.

(** create_sample_data; [clock] gives the four readings of
    [get_current_timestamp], in the order they are taken. *)
Definition create_sample_data (clock : nat → string) : list entry :=
  [ <["keyword" := JStr "ssc cgl admit card 2024"]>
    (<["interest_score" := JNum 85]>
    (<["category" := JStr "Admit Card"]>
    (<["status" := JStr "Pending"]>
    (<["approval" := JStr "Pending"]>
    (<["ai_confidence" := JStr "High"]>
    (<["ai_reasoning" := JStr "Contains admit card related terms"]>
    (<["web_search_summary" := JStr "SSC CGL admit card trending"]>
    (<["related_queries" := JStr "ssc.nic.in, admit card download"]>
    (<["top_regions" := JStr "Delhi, Maharashtra, UP"]>
    (<["date_extracted" := JStr (clock 0)]>
    (<["categorized_at" := JStr (clock 1)]>
    (<["instagram_link" := JStr ""]>
    (<["blog_link" := JStr ""]>
    (<["youtube_reel_link" := JStr ""]>
    (<["youtube_thumbnail_link" := JStr ""]>
    (<["published_timestamp" := JStr ""]> ∅))))))))))))))));
    <["keyword" := JStr "neet result 2024"]>
    (<["interest_score" := JNum 92]>
    (<["category" := JStr "Result"]>
    (<["status" := JStr "Run GPT"]>
    (<["approval" := JStr "Approved"]>
    (<["ai_confidence" := JStr "High"]>
    (<["ai_reasoning" := JStr "Clear result announcement pattern"]>
    (<["web_search_summary" := JStr "NEET UG result declared with merit list"]>
    (<["related_queries" := JStr "nta.ac.in, neet scorecard, merit list"]>
    (<["top_regions" := JStr "Tamil Nadu, Karnataka, AP"]>
    (<["date_extracted" := JStr (clock 2)]>
    (<["categorized_at" := JStr (clock 3)]>
    (<["instagram_link" := JStr ""]>
    (<["blog_link" := JStr ""]>
    (<["youtube_reel_link" := JStr ""]>
    (<["youtube_thumbnail_link" := JStr ""]>
    (<["published_timestamp" := JStr ""]> ∅)))))))))))))))) ].

End Utils.

(** ** The files between the stages *)

Module Pipeline.

(** The files the stages hand to one another, in the 'data' and 'output'
    directories of the directory the run is started in; [None] is a file
    that does not exist.  Each field holds the rows as they were
    written; writing a file does not fail. *)
Record files := Files {
  phase1_trends_data : option (list entry);
  sample_trends_data : option (list entry);
  phase2_categorized_data : option (list entry);
  phase2_approved : option (list entry);
  generated_content : option (list entry);
  content_summary : option (list Content.summary_row);
  updated_trends_data : option (list entry)
}.

(** The files, and the requests and waits of phases 2 and 3. *)
Definition state : Type := files * world.

(** The row [to_csv] writes for a record of phase 1. *)
Definition csv_row (r : Trends.trend_entry) : entry :=
  <["keyword" := JStr (Trends.keyword r)]>
  (<["interest" := JNum (Trends.interest r)]>
  (<["related_topics" := JStr (Trends.related_topics r)]>
  (<["timestamp" := JStr (Trends.timestamp r)]>
  (<["geo" := JStr (Trends.geo r)]>
  (<["category" := JStr (Trends.category r)]> ∅))))).

Section Run.

Context (loads : string → option json) (service : nat → reply) (now : string).

(** [load_data_from_csv] on the rows of a file: [read_csv] decides the
    type of every column afresh and [fillna] fills the gaps. *)
Variable reload : list entry → list entry.

(** Whether [validate_config] finds nothing to report. *)
Variable configured : bool.

(** The list [extract_trending_data] returns, [None] when the extractor
    cannot be built. *)
Variable extracted : option (list Trends.trend_entry).

(** The readings of the clock for the sample data. *)
Variable clock : nat → string.

(** Phase 4: [str], the worksheet taking the rows, and whether the
    client, the spreadsheet and the worksheet could be had. *)
Variable str : json → string.
Variable accepts : list (list string) → bool.
Variable connected : bool.

Definition check_prerequisites (st : state) : bool * state := (configured, st).

(** run_phase1: the extraction and [save_to_csv]. *)
Definition run_phase1 (st : state) : bool * state :=
  match extracted with
  | None => (false, st)
  | Some data =>
      match Trends.save_to_csv data with
      | (success, Some saved) =>
          let f := st.1 in
          (success,
           (Files (Some (csv_row <$> saved)) (sample_trends_data f)
              (phase2_categorized_data f) (phase2_approved f)
              (generated_content f) (content_summary f)
              (updated_trends_data f), st.2))
      | (success, None) => (success, st)
      end
  end.

(** create_sample_data_if_needed writes 'sample_trends_data.csv'. *)
Definition create_sample_data_if_needed (st : state) : bool * state :=
  let f := st.1 in
  (true,
   (Files (phase1_trends_data f) (Some (Utils.create_sample_data clock))
      (phase2_categorized_data f) (phase2_approved f)
      (generated_content f) (content_summary f)
      (updated_trends_data f), st.2)).

(** run_phase2: the agent reads 'phase1_trends_data.csv' and saves
    'phase2_categorized_data.csv'. *)
Definition run_phase2 (st : state) : bool * state :=
  let f := st.1 in
  match Categorize.run loads service now
          (reload <$> phase1_trends_data f) st.2 with
  | (Normal (success, Some categorized), w) =>
      (success,
       (Files (phase1_trends_data f) (sample_trends_data f)
          (Some categorized) (phase2_approved f)
          (generated_content f) (content_summary f)
          (updated_trends_data f), w))
  | (Normal (success, None), w) => (success, (f, w))
  | (Raised _, w) => (false, (f, w))
  end.

(** The files of phase 3 that a run has written replace the old ones. *)
Definition written {A} (new old : option A) : option A :=
  match new with
  | Some _ => new
  | None => old
  end.

(** run_phase3: the agent reads 'phase2_approved.csv' and saves
    'generated_content.json', 'content_summary.csv' and
    'updated_trends_data.csv'. *)
Definition run_phase3 (st : state) : bool * state :=
  let f := st.1 in
  match Content.run loads service now (reload <$> phase2_approved f) st.2 with
  | (Normal r, w) =>
      (Content.success r,
       (Files (phase1_trends_data f) (sample_trends_data f)
          (phase2_categorized_data f) (phase2_approved f)
          (written (Content.generated_content_json r) (generated_content f))
          (written (Content.content_summary_csv r) (content_summary f))
          (written (Content.updated_trends_data_csv r) (updated_trends_data f)),
        w))
  | (Raised _, w) => (false, (f, w))
  end.

(** run_phase4: the integration reads 'updated_trends_data.csv'. *)
Definition run_phase4 (st : state) : bool * state :=
  if negb connected then (false, st)
  else
    ((Sheets.upload_data_to_sheet str accepts
        (reload <$> updated_trends_data st.1)).1, st).

(** run_all_phases on these files. *)
Definition run_all_phases : state → bool * state :=
  Orchestrator.run_all_phases check_prerequisites run_phase1 run_phase2
    run_phase3 run_phase4 create_sample_data_if_needed.

End Run.

End Pipeline.

(** ** The order of the statuses *)

Module Status.



(** The same on cells that may be missing or hold something else than text. *)
Definition text_of (v : option json) : option string :=
  match v with
  | Some (JStr s) => Some s
  | _ => None
  end.


End Status.

(** ** Reading a trace *)

Module Trace.

(** The lengths of the sleeps of a trace, in order. *)
Fixpoint waits (tr : list event) : list Z :=
  match tr with
  | [] => []
  | Sleep d :: rest => d :: waits rest
  | _ :: rest => waits rest
  end.

(** The time a trace spends asleep. *)
Definition total_wait (tr : list event) : Z := foldr Z.add 0%Z (waits tr).

(** The number of requests of a trace. *)
Fixpoint requests (tr : list event) : nat :=
  match tr with
  | [] => 0
  | Request _ :: rest => S (requests rest)
  | _ :: rest => requests rest
  end.

(** [n] failed attempts of the retrying caller from request number [c]
    and delay [d]: each request is followed by a sleep, the delay doubles. *)
Fixpoint failed_attempts (c : nat) (d : Z) (n : nat) : list event :=
  match n with
  | O => []
  | S n' => Request c :: Sleep d :: failed_attempts (S c) (d * 2)%Z n'
  end.

(** What a retry loop of [n] attempts and first delay [d] may do to the
    world, whatever the service answers: requests and sleeps are added to
    the trace, at most [n] requests, at most d * (2^n - 1) seconds. *)
Definition loop_footprint (n : nat) (d : Z) (w w' : world) : Prop :=
  sheet w' = sheet w
  ∧ ∃ new,
      trace w' = (trace w ++ new)%list
      ∧ calls w' = (calls w + requests new)%nat
      ∧ (requests new ≤ n)%nat
      ∧ ((0 ≤ d)%Z → (0 ≤ total_wait new ≤ d * (2 ^ Z.of_nat n - 1))%Z).

End Trace.

(** ** Sample inputs *)

Module Samples.

Definition sample_row : Approve.row :=
  <["keyword" := "neet result 2024"]>
  (<["category" := "Result"]>
  (<["ai_confidence" := "High"]>
  (<["status" := "Pending"]> ∅))).


(** The double quote. *)
Definition dq : string := String (ascii_of_nat 34) EmptyString.

(** A completion whose confidence is none of High, Medium, Low:
    {"category": "Result", "confidence": "Banana"} *)
Definition banana_text : string :=
  "{" ++ dq ++ "category" ++ dq ++ ": " ++ dq ++ "Result" ++ dq ++ ", "
      ++ dq ++ "confidence" ++ dq ++ ": " ++ dq ++ "Banana" ++ dq ++ "}".

Definition banana_object : json :=
  JObj [("category", JStr "Result"); ("confidence", JStr "Banana")].

(** A well-formed instagram artifact: {"caption": "Result out"} *)
Definition caption_text : string :=
  "{" ++ dq ++ "caption" ++ dq ++ ": " ++ dq ++ "Result out" ++ dq ++ "}".

Definition caption_object : json := JObj [("caption", JStr "Result out")].

(** [json.loads] on the sample completions. *)
Definition sample_loads (s : string) : option json :=
  if String.eqb s banana_text then Some banana_object
  else if String.eqb s caption_text then Some caption_object
  else None.

(** The chat-completion response that carries [text]. *)
Definition completion (text : string) : reply :=
  Response 200
    (Some (JObj [("choices",
                  JArr [JObj [("message", JObj [("content", JStr text)])]])])).

(** A service that is down, and one that always answers the banana. *)
Definition service_down : nat → reply := λ _, NoResponse "connection refused".
Definition service_banana : nat → reply := λ _, completion banana_text.

Definition start : world := World 0 [] [].

(** A reading of the clock. *)
Definition noon : string := "2025-01-01 12:00:00".

(** An entry as phase 1 hands it over, and the same after a full run. *)
Definition neet : entry :=
  <["keyword" := JStr "neet result 2024"]> (<["interest_score" := JNum 92]> ∅).


(** The same entry after the gate has approved it. *)
Definition neet_approved : entry :=
  <["status" := JStr "Run GPT"]>
  (<["ai_reasoning" := JStr "Clear result announcement pattern"]>
  (<["category" := JStr "Result"]> neet)).


(** Two rows of the spreadsheet: one approved and waiting, one published. *)
Definition sheet_row (keyword status approval : string) : entry :=
  <["Keyword" := JStr keyword]>
  (<["Status" := JStr status]>
  (<["Approval" := JStr approval]>
  (<["Instagram Link" := JStr "https://your-public-host.com/ai-content/instagram.txt"]>
  (<["Blog Link" := JStr "https://your-public-host.com/ai-content/blog.html"]>
  (<["YouTube Thumbnail Link" := JStr ""]> ∅))))).

Definition sample_sheet : list entry :=
  [sheet_row "neet result 2024" "Content Generated" "Approved";
   sheet_row "ssc cgl admit card 2024" "Published" "Approved";
   sheet_row "cricket score" "Not Relevant" "Approved";
   sheet_row "upsc vacancy" "Pending" "Pending"].

Definition sheet_world : world := World 0 [] sample_sheet.

(** [str] on the values a table cell holds. *)
Definition str_cell (v : json) : string :=
  match v with
  | JNull => "None"
  | JBool true => "True"
  | JBool false => "False"
  | JNum n => pretty n
  | JStr s => s
  | JArr _ | JObj _ => ""
  end.

(** The value read from a cell: a whole number where the text is one,
    the text itself otherwise. *)
Definition digit (c : ascii) : option Z :=
  let n := Z.of_nat (nat_of_ascii c) in
  if ((48 <=? n) && (n <=? 57))%Z then Some (n - 48)%Z else None.

Fixpoint whole_number (acc : Z) (s : string) : option Z :=
  match s with
  | EmptyString => Some acc
  | String c rest =>
      match digit c with
      | Some d => whole_number (10 * acc + d)%Z rest
      | None => None
      end
  end.

Definition numericise (s : string) : json :=
  match s with
  | EmptyString => JStr s
  | _ => match whole_number 0 s with
         | Some n => JNum n
         | None => JStr s
         end
  end.

(** No file yet. *)
Definition no_files : Pipeline.files :=
  Pipeline.Files None None None None None None None.

(** A sheet whose second row is approved but has no 'Blog Link' cell. *)
Definition linkless_row : entry :=
  <["Keyword" := JStr "upsc result"]>
  (<["Status" := JStr "Content Generated"]>
  (<["Approval" := JStr "Approved"]> ∅)).

Definition broken_world : world :=
  World 0 []
    [sheet_row "neet result 2024" "Content Generated" "Approved";
     linkless_row;
     sheet_row "ssc result" "Content Generated" "Approved"].

(** The service that answers the instagram request and fails the others. *)
Definition service_first_only : nat → reply := λ n,
  match n with
  | 0 => completion caption_text
  | _ => NoResponse "connection refused"
  end.

(** The service that fails the blog request and answers the others. *)
Definition service_blog_down : nat → reply := λ n,
  match n with
  | 1 => Response 503 None
  | _ => completion caption_text
  end.

(** Two trend records with the keyword 'ssc result'. *)
Definition ssc_first : Trends.trend_entry :=
  Trends.TrendEntry "ssc result" 50 "merit list, cut off marks, scorecard"
    "2025-01-01 10:00:00" "IN" "Result".

Definition ssc_second : Trends.trend_entry :=
  Trends.TrendEntry "ssc result" 60 "merit list, cut off marks, scorecard"
    "2025-01-01 10:00:05" "IN" "Result".

End Samples.

(** * Properties *)

Local Open Scope list_scope.
Local Open Scope nat_scope.

(** ** The approval gate *)

Section ApprovalGate.

Import Approve Samples.

Lemma confidence_order_lookup (k : string) :
  confidence_order !! k =
    if decide (k = "Low") then Some 0
    else if decide (k = "Medium") then Some 1
    else if decide (k = "High") then Some 2
    else None.
Proof.
  unfold confidence_order.
  repeat (rewrite lookup_insert; case_decide; subst; simpl; try done).
  repeat (case_decide; try congruence).
  apply lookup_empty.
Qed.





Lemma category_relevant (r : row) :
  negb (String.eqb (default "" (r !! "category")) "Not Relevant") = true
  ↔ r !! "category" ≠ Some "Not Relevant".
Proof.
  rewrite negb_true_iff. destruct (r !! "category") as [cat|]; simpl.
  - destruct (String.eqb_spec cat "Not Relevant"); split; congruence.
  - split; [congruence | done].
Qed.

Lemma approves_spec (t : string) (r : row) :
  approves t r = true ↔
    (threshold_rank t ≤
      cell_rank (Py.capitalize (default "Low" (r !! "ai_confidence"))))%nat
    ∧ r !! "category" ≠ Some "Not Relevant".
Proof.
  unfold approves. cbv zeta.
  rewrite andb_true_iff, Nat.leb_le, category_relevant. done.
Qed.





End ApprovalGate.

(** ** Deduplication of the trend records *)

Section Deduplication.

Import Trends Samples.

Implicit Types (k : string) (seen : gset string) (rows : list trend_entry).

(** Nothing with an already seen keyword survives. *)
Lemma drop_duplicates_seen k seen rows :
  k ∈ seen →
  filter (λ r, keyword r = k) (drop_duplicates_first seen rows) = [].
Proof.
  revert seen. induction rows as [|r rows IH]; intros seen Hin; simpl; [done|].
  case_bool_decide as Hr.
  - by apply IH.
  - rewrite filter_cons. case_decide as Hk.
    + subst k. done.
    + apply IH. set_solver.
Qed.

(** The first row with a fresh keyword is the one survivor of that keyword. *)
Lemma drop_duplicates_keeps_first seen (pre : list trend_entry) a post :
  keyword a ∉ seen →
  Forall (λ r, keyword r ≠ keyword a) pre →
  filter (λ r, keyword r = keyword a)
    (drop_duplicates_first seen (pre ++ a :: post)) = [a].
Proof.
  revert seen. induction pre as [|r pre IH]; intros seen Hfresh Hpre; simpl.
  - rewrite bool_decide_eq_false_2 by done.
    rewrite filter_cons_True by done.
    f_equal. apply drop_duplicates_seen. set_solver.
  - apply Forall_cons in Hpre as [Hr Hpre].
    case_bool_decide.
    + by apply IH.
    + rewrite filter_cons_False by done.
      apply IH; [|done].
      apply not_elem_of_union. split; [|done].
      apply not_elem_of_singleton. congruence.
Qed.

(** C8, as the code has it: of the records sharing a keyword exactly one
    reaches the saved file, and it is the first of them in the order of
    the trend source ([keep='first']). *)
Theorem save_to_csv_keeps_first (pre : list trend_entry) a post
    (Hfirst : Forall (λ r, keyword r ≠ keyword a) pre) :
  ∃ saved,
    save_to_csv (pre ++ a :: post) = (true, Some saved)
    ∧ filter (λ r, keyword r = keyword a) saved = [a].
Proof.
  exists (drop_duplicates_first ∅ (pre ++ a :: post)). split.
  - unfold save_to_csv. by destruct pre.
  - apply drop_duplicates_keeps_first; [set_solver | done].
Qed.

Lemma save_to_csv_keeps_first_witness :
  ∃ saved,
    save_to_csv [ssc_first; ssc_second] = (true, Some saved)
    ∧ filter (λ r, keyword r = "ssc result") saved = [ssc_first].
Proof.
  apply (save_to_csv_keeps_first [] ssc_first [ssc_second]).
  apply Forall_nil_2.
Defined.

(** C8 as stated fails: of two 'ssc result' records with interest 50 and
    60 the saved file holds the earlier one, not the later. *)
Lemma save_to_csv_drops_later :
  save_to_csv [ssc_first; ssc_second] = (true, Some [ssc_first])
  ∧ interest ssc_first ≠ interest ssc_second
  ∧ save_to_csv [ssc_first; ssc_second] ≠ (true, Some [ssc_second]).
Proof. split; [by vm_compute|]. split; by vm_compute. Qed.

End Deduplication.

(** ** The retry loop of the categorization agent *)

Section RetryLoop.

Import Categorize Trace.

Context (loads : string → option json) (service : nat → reply).

Lemma attempt_run (w : world) :
  attempt loads service w =
    (attempt_result loads (service (calls w)),
     World (S (calls w)) (trace w ++ [Request (calls w)]) (sheet w)).
Proof.
  unfold attempt, generate_text, attempt_result, mbind, M_bind, Api.post, Rt.lift.
  by destruct (Api.response_json (service (calls w))).
Qed.

Lemma sleep_run (d : Z) (w : world) :
  (0 ≤ d)%Z →
  Rt.sleep d w = (Normal tt, World (calls w) (trace w ++ [Sleep d]) (sheet w)).
Proof.
  intros Hd. unfold Rt.sleep.
  by rewrite (proj2 (Z.ltb_ge d 0) Hd).
Qed.

(** One turn of the loop after a failed attempt. *)
Lemma retry_loop_failed (n : nat) (d : Z) (w : world) :
  (0 ≤ d)%Z → attempt_fails loads service (calls w) →
  retry_loop loads service (S n) d w =
    retry_loop loads service n (d * 2)
      (World (S (calls w)) (trace w ++ [Request (calls w); Sleep d]) (sheet w)).
Proof.
  intros Hd [x Hx]. simpl. unfold Rt.try_except, mbind, M_bind.
  rewrite attempt_run, Hx, sleep_run by done. simpl.
  by rewrite <- app_assoc.
Qed.

(** One turn of the loop with a successful attempt: the [break]. *)
Lemma retry_loop_break (n : nat) (d : Z) (w : world) (result : json) :
  attempt_result loads (service (calls w)) = Normal result →
  retry_loop loads service (S n) d w =
    (Normal (Some result),
     World (S (calls w)) (trace w ++ [Request (calls w)]) (sheet w)).
Proof.
  intros Hr. simpl. unfold Rt.try_except, mbind, M_bind.
  by rewrite attempt_run, Hr.
Qed.

(** [m] failed attempts, then whatever the rest of the loop does. *)
Lemma retry_loop_skip (m n : nat) (d : Z) (w : world) :
  (0 ≤ d)%Z →
  (∀ i, i < m → attempt_fails loads service (calls w + i)) →
  retry_loop loads service (m + n) d w =
    retry_loop loads service n (d * 2 ^ Z.of_nat m)
      (World (calls w + m) (trace w ++ failed_attempts (calls w) d m) (sheet w)).
Proof.
  revert d w. induction m as [|m IH]; intros d w Hd Hfail.
  - simpl. rewrite Z.mul_1_r, Nat.add_0_r, app_nil_r. by destruct w.
  - change (S m + n) with (S (m + n)).
    rewrite retry_loop_failed; [|done|].
    2:{ specialize (Hfail 0 ltac:(lia)). by rewrite Nat.add_0_r in Hfail. }
    rewrite IH; [|lia|].
    2:{ intros i Hi. simpl. specialize (Hfail (S i) ltac:(lia)).
        replace (S (calls w + i)) with (calls w + S i) by lia. exact Hfail. }
    simpl calls. simpl trace. simpl sheet.
    replace (d * 2 * 2 ^ Z.of_nat m)%Z with (d * 2 ^ Z.of_nat (S m))%Z
      by (rewrite Nat2Z.inj_succ, Z.pow_succ_r; lia).
    replace (S (calls w) + m) with (calls w + S m) by lia.
    simpl failed_attempts. by rewrite <- app_assoc.
Qed.

(** Every attempt fails: the loop runs out after [n] requests and [n]
    sleeps, and the [else] branch is taken. *)
Lemma retry_loop_exhausted (n : nat) (d : Z) (w : world) :
  (0 ≤ d)%Z →
  (∀ i, i < n → attempt_fails loads service (calls w + i)) →
  retry_loop loads service n d w =
    (Normal None,
     World (calls w + n) (trace w ++ failed_attempts (calls w) d n) (sheet w)).
Proof.
  intros Hd Hfail.
  rewrite <- (Nat.add_0_r n) at 1. by rewrite retry_loop_skip.
Qed.

(** The first success after [m] failures ends the loop. *)
Lemma retry_loop_succeeds (m n : nat) (d : Z) (w : world) (result : json) :
  (0 ≤ d)%Z →
  (∀ i, i < m → attempt_fails loads service (calls w + i)) →
  attempt_result loads (service (calls w + m)) = Normal result →
  retry_loop loads service (m + S n) d w =
    (Normal (Some result),
     World (S (calls w + m))
       (trace w ++ failed_attempts (calls w) d m ++ [Request (calls w + m)])
       (sheet w)).
Proof.
  intros Hd Hfail Hok.
  rewrite retry_loop_skip by done.
  rewrite (retry_loop_break _ _ _ result) by done.
  simpl. by rewrite <- app_assoc.
Qed.

Lemma waits_failed_attempts (c : nat) (d : Z) (n : nat) :
  waits (failed_attempts c d n) =
    map (λ i, d * 2 ^ Z.of_nat i)%Z (seq 0 n).
Proof.
  revert c d. induction n as [|n IH]; intros c d; [done|].
  cbn [failed_attempts waits seq map]. rewrite IH.
  rewrite <- seq_shift, map_map.
  f_equal; [lia|].
  apply map_ext. intros i. rewrite Nat2Z.inj_succ, Z.pow_succ_r by lia. lia.
Qed.

(** The waits add up to d * (2^n - 1). *)
Lemma total_wait_failed_attempts (c : nat) (d : Z) (n : nat) :
  total_wait (failed_attempts c d n) = (d * (2 ^ Z.of_nat n - 1))%Z.
Proof.
  unfold total_wait. revert c d. induction n as [|n IH]; intros c d.
  - simpl. lia.
  - simpl failed_attempts. simpl waits. simpl foldr. rewrite IH.
    rewrite Nat2Z.inj_succ, Z.pow_succ_r by lia. lia.
Qed.

End RetryLoop.

(** ** The categorization of one keyword *)

Section CategorizeKeyword.

Import Categorize Trace.

Context (loads : string → option json) (service : nat → reply).

Lemma in_strs_valid (v : json) (names : list string) :
  Rt.in_strs v names = true → ∃ s, v = JStr s ∧ s ∈ names.
Proof.
  unfold Rt.in_strs. rewrite existsb_exists. intros (s & Hin & Heq).
  destruct v; simpl in Heq; try discriminate.
  apply String.eqb_eq in Heq. subst. eexists. split; [done|].
  by apply list_elem_of_In.
Qed.

Lemma not_relevant_valid : valid_category (JStr Settings.CATEGORY_NOT_RELEVANT).
Proof. eexists. split; [done|]. unfold Settings.VALID_CATEGORIES. set_solver. Qed.

Lemma checked_category_valid (fields : list (string * json)) :
  valid_category (checked_category fields).
Proof.
  unfold checked_category.
  destruct (Rt.assoc "category" fields) as [c|]; [|apply not_relevant_valid].
  destruct (Rt.in_strs c Settings.VALID_CATEGORIES) eqn:Hin.
  - by apply in_strs_valid.
  - apply not_relevant_valid.
Qed.

Lemma on_exception_fallback (x : exn) (wc : string) :
  category (on_exception x wc) = JStr "Not Relevant"
  ∧ confidence (on_exception x wc) = JStr "Low".
Proof. by destruct x. Qed.

(** What the validation makes of a decoded object. *)
Lemma validate_object (fields : list (string * json)) (wc : string) :
  validate (JObj fields) wc =
    Normal (AiResult (checked_category fields)
              (default (JStr "Low") (Rt.assoc "confidence" fields))
              (default (JStr "No reasoning provided") (Rt.assoc "reasoning" fields))
              wc).
Proof.
  unfold validate, checked_category, Rt.get, Rt.bind_o.
  destruct (Rt.assoc "category" fields) as [c|]; cbn [default]; [|done].
  unfold id. by destruct (Rt.in_strs c Settings.VALID_CATEGORIES).
Qed.

(** Whatever happens inside, the categorization returns a result. *)
Lemma categorize_keyword_returns (e : entry) (retries : nat) (backoff : Z)
    (w : world) :
  ∃ r w', categorize_keyword loads service e retries backoff w = (Normal r, w').
Proof.
  unfold categorize_keyword.
  destruct (web_search_of e) as [wc|x]; [|by eexists _, _].
  unfold Rt.try_except, mbind, M_bind.
  destruct (retry_loop loads service retries backoff w) as [[[result|]|x] w1].
  - unfold Rt.lift. destruct (validate result wc); by eexists _, _.
  - by eexists _, _.
  - by eexists _, _.
Qed.

(** C3: with the defaults (3 attempts, delay 5), when every attempt of a
    categorization fails the agent sleeps 5, 10 and 20 seconds, 35 =
    5 * (2^3 - 1) in all, and then returns the 'Not Relevant' / 'Low'
    fallback. *)
Theorem categorize_backoff_is_geometric (e : entry) (k : string) (w : world)
    (Hkey : e !! "keyword" = Some (JStr k))
    (Hfail : ∀ i, i < 3 →
       ∃ x, attempt_result loads (service (calls w + i)) = Raised x) :
  default_retries = 3 ∧ default_backoff = 5%Z
  ∧ ∃ r new,
      categorize_keyword loads service e default_retries default_backoff w
        = (Normal r, World (calls w + 3) (trace w ++ new) (sheet w))
      ∧ r = retries_exhausted (perform_web_search k)
      ∧ category r = JStr "Not Relevant" ∧ confidence r = JStr "Low"
      ∧ waits new = [5; 10; 20]%Z
      ∧ total_wait new = 35%Z
      ∧ total_wait new = (default_backoff * (2 ^ Z.of_nat default_retries - 1))%Z.
Proof.
  split; [done|]. split; [done|].
  exists (retries_exhausted (perform_web_search k)),
         (failed_attempts (calls w) 5 3).
  split.
  - unfold categorize_keyword, web_search_of. rewrite Hkey.
    unfold Rt.try_except, mbind, M_bind.
    unfold default_retries, default_backoff.
    by rewrite (retry_loop_exhausted loads service 3 5 w) by (lia || done).
  - repeat split; try done.
Qed.

(** C7, as the code has it: a categorization always returns a result and
    never raises; its category is always one of the taxonomy; when the
    attempts run out, or the decoded reply is not an object, or the entry
    has no text keyword, the result is 'Not Relevant' / 'Low'; when the
    reply is an object, a missing or foreign category becomes
    'Not Relevant', a missing confidence becomes 'Low', and a confidence
    that is present is handed on as it is. *)
Theorem categorize_keyword_total (e : entry) (retries : nat) (backoff : Z)
    (w : world) :
  ∃ r w',
    categorize_keyword loads service e retries backoff w = (Normal r, w')
    ∧ valid_category (category r)
    ∧ (∀ k, e !! "keyword" = Some (JStr k) →
         match retry_loop loads service retries backoff w with
         | (Normal None, _) => r = retries_exhausted (perform_web_search k)
         | (Normal (Some (JObj fields)), _) =>
             category r = checked_category fields
             ∧ confidence r = default (JStr "Low") (Rt.assoc "confidence" fields)
         | _ => category r = JStr "Not Relevant" ∧ confidence r = JStr "Low"
         end)
    ∧ ((∀ k, e !! "keyword" ≠ Some (JStr k)) →
         category r = JStr "Not Relevant" ∧ confidence r = JStr "Low").
Proof.
  unfold categorize_keyword, web_search_of.
  destruct (e !! "keyword") as [[| | |k| |]|] eqn:Hkey;
    try (eexists _, _; split; [reflexivity|];
         split; [apply not_relevant_valid|];
         split; [by intros ? [=] | done]).
  unfold Rt.try_except, mbind, M_bind.
  destruct (retry_loop loads service retries backoff w)
    as [[[result|]|x] w1] eqn:Hloop.
  - destruct result as [| | | | |fields];
      try (eexists _, _; split; [reflexivity|];
           split; [apply not_relevant_valid|];
           split; [by intros ? [= <-] | intros Hno; by destruct (Hno k)]).
    unfold Rt.lift. rewrite validate_object.
    eexists _, _. split; [reflexivity|]. simpl.
    split; [apply checked_category_valid|].
    split; [by intros ? [= <-] | intros Hno; by destruct (Hno k)].
  - eexists _, _. split; [reflexivity|].
    split; [apply not_relevant_valid|].
    split; [by intros ? [= <-] | intros Hno; by destruct (Hno k)].
  - eexists _, _. split; [reflexivity|].
    destruct (on_exception_fallback x (perform_web_search k)) as [Hc Hl].
    split; [rewrite Hc; apply not_relevant_valid|].
    split; [by intros ? [= <-] | intros Hno; by destruct (Hno k)].
Qed.

End CategorizeKeyword.

(** ** The four artifact calls of the content agent *)

Section ArtifactCalls.

Import Content Trace.

Context (loads : string → option json) (service : nat → reply) (now : string).

Lemma artifact_call_run (w : world) :
  artifact_call loads service w =
    (artifact_result loads (service (calls w)),
     World (S (calls w)) (trace w ++ [Request (calls w)]) (sheet w)).
Proof.
  unfold artifact_call, artifact_result, mbind, M_bind, Api.post, Rt.lift.
  by destruct (Api.response_json (service (calls w))).
Qed.

(** One turn of the loop: one request, never a second one. *)
Lemma slot_run (w : world) :
  Rt.try_except
    (parsed_content ← artifact_call loads service;
     _ ← Rt.add_delay; mret parsed_content)
    (λ e, mret (error_marker e)) w =
  (Normal (slot_value loads (service (calls w))),
   World (S (calls w))
     (trace w ++ slot_events loads (calls w) (service (calls w))) (sheet w)).
Proof.
  unfold Rt.try_except, mbind, M_bind, slot_value, slot_events.
  rewrite artifact_call_run.
  destruct (artifact_result loads (service (calls w))) as [p|x]; [|done].
  unfold Rt.add_delay, Rt.sleep, Rt.emit. simpl.
  by rewrite <- app_assoc.
Qed.

Lemma generate_slots_run (types : list string) (gc : entry) (w : world) :
  generate_slots loads service types gc w =
    (Normal (fill_slots loads service types (calls w) gc),
     World (calls w + length types)
       (trace w ++ slots_trace loads service (calls w) (length types))
       (sheet w)).
Proof.
  revert gc w. induction types as [|t types IH]; intros gc w.
  - simpl. rewrite Nat.add_0_r, app_nil_r. by destruct w.
  - cbn [generate_slots]. unfold mbind at 1, M_bind at 1.
    rewrite slot_run, IH. simpl.
    rewrite <- app_assoc. do 3 f_equal. lia.
Qed.

(** A slot written later does not touch the other keys. *)
Lemma fill_slots_other (types : list string) (c : nat) (gc : entry) (k : string) :
  k ∉ types → fill_slots loads service types c gc !! k = gc !! k.
Proof.
  revert c gc. induction types as [|t types IH]; intros c gc Hk; [done|].
  apply not_elem_of_cons in Hk as [Hne Hk]. simpl.
  rewrite IH by done. by rewrite lookup_insert_ne.
Qed.

(** The slot of the i-th content type holds what the i-th request gave. *)
Lemma fill_slots_lookup (types : list string) (c : nat) (gc : entry)
    (i : nat) (t : string) :
  NoDup types → types !! i = Some t →
  fill_slots loads service types c gc !! t =
    Some (slot_value loads (service (c + i))).
Proof.
  revert c gc i. induction types as [|t0 types IH]; intros c gc i Hnd Hi; [done|].
  apply NoDup_cons in Hnd as [Hnotin Hnd].
  destruct i as [|i]; simpl in *.
  - injection Hi as ->. rewrite fill_slots_other by done.
    by rewrite lookup_insert_eq, Nat.add_0_r.
  - rewrite (IH _ _ i) by done. do 3 f_equal. lia.
Qed.

Lemma content_types_NoDup : NoDup content_types.
Proof using Type.
  unfold content_types.
  repeat (apply NoDup_cons; split;
          [intros H; repeat (apply elem_of_cons in H as [H|H]; [discriminate|]);
           by apply elem_of_nil in H|]).
  apply NoDup_nil_2.
Qed.

(** What the agent does for an eligible entry. *)
Lemma generate_content_eligible (e : entry) (keyword : json) (w : world) :
  eligible e = true → e !! "keyword" = Some keyword →
  generate_content_for_keyword loads service now e w =
    (Normal (Some (fill_slots loads service content_types (calls w)
       (<["generated_at" := JStr now]>
       (<["interest_score" := default JNull (e !! "interest_score")]>
       (<["category" := default JNull (e !! "category")]>
       (<["keyword" := keyword]> ∅)))))),
     World (calls w + 4) (trace w ++ slots_trace loads service (calls w) 4)
       (sheet w)).
Proof.
  unfold eligible. rewrite andb_true_iff, negb_true_iff. intros [Hs Hc] Hk.
  unfold generate_content_for_keyword. rewrite Hs, Hc, Hk. cbn [negb].
  unfold mbind, M_bind. by rewrite generate_slots_run.
Qed.

(** A skipped entry costs nothing. *)
Lemma generate_content_skipped (e : entry) (w : world) :
  eligible e = false →
  generate_content_for_keyword loads service now e w = (Normal None, w).
Proof.
  unfold eligible, generate_content_for_keyword. intros He.
  destruct (Rt.field_is e "status" Settings.STATUS_RUN_GPT); [|done].
  destruct (Rt.field_is e "category" Settings.CATEGORY_NOT_RELEVANT); done.
Qed.

(** A batch of one eligible entry yields one content map. *)
Lemma process_approved_single (e : entry) (keyword : json) (w : world) :
  eligible e = true → e !! "keyword" = Some keyword →
  ∃ gc,
    process_approved_entries loads service now [e] w =
      (Normal [gc],
       World (calls w + 4) (trace w ++ slots_trace loads service (calls w) 4)
         (sheet w))
    ∧ gc !! "keyword" = Some keyword
    ∧ ∀ i t, content_types !! i = Some t →
        gc !! t = Some (slot_value loads (service (calls w + i))).
Proof.
  intros Hel Hk. eexists. split; [|split].
  - unfold process_approved_entries. cbn [List.filter].
    unfold eligible in Hel. apply andb_true_iff in Hel as Hel'.
    destruct Hel' as [Hs _]. rewrite Hs.
    cbn [generate_all]. unfold mbind, M_bind.
    by rewrite (generate_content_eligible e keyword w Hel Hk).
  - rewrite fill_slots_other.
    + do 3 (rewrite lookup_insert_ne by done). apply lookup_insert_eq.
    + unfold content_types. intros H.
      repeat (apply elem_of_cons in H as [H|H]; [discriminate|]).
      by apply elem_of_nil in H.
  - intros i t Ht. by apply fill_slots_lookup; [apply content_types_NoDup|].
Qed.

End ArtifactCalls.

(** ** Merging the generated content into the batch *)

Section Linking.

Import Content.

Context (now : string).

Implicit Types (keys : list json) (data generated : list entry) (e : entry).

(** The status an entry whose keyword has content is given. *)
Lemma link_entry_hit keys e (k : string) :
  e !! "keyword" = Some (JStr k) →
  existsb (Rt.eq_cell (JStr k)) keys = true →
  ∃ e', link_entry now keys e = Normal e'
    ∧ e' !! "status" =
        Some (JStr (if Rt.field_is e "category" Settings.CATEGORY_NOT_RELEVANT
                    then "Not Relevant" else "Content Generated")).
Proof.
  intros Hk Hin. unfold link_entry. rewrite Hk. cbn [hashable negb]. rewrite Hin.
  eexists. split; [reflexivity|].
  do 5 (rewrite lookup_insert_ne by done).
  destruct (Rt.field_is e "category" Settings.CATEGORY_NOT_RELEVANT);
    by rewrite lookup_insert_eq.
Qed.

(** An entry whose keyword has no content is handed on as it is. *)
Lemma link_entry_miss keys e e' (key : json) :
  e !! "keyword" = Some key →
  existsb (Rt.eq_cell key) keys = false →
  link_entry now keys e = Normal e' → e' = e.
Proof.
  intros Hk Hin. unfold link_entry. rewrite Hk, Hin.
  destruct (negb (hashable key)); [done|]. by intros [= <-].
Qed.

(** The merge works row by row and keeps the rows in place. *)
Lemma link_entries_lookup keys data updated (i : nat) e :
  link_entries now keys data = Normal updated →
  data !! i = Some e →
  ∃ e', updated !! i = Some e' ∧ link_entry now keys e = Normal e'.
Proof.
  revert updated i. induction data as [|e0 data IH]; intros updated i Hl Hi; [done|].
  simpl in Hl.
  destruct (link_entry now keys e0) as [e0'|] eqn:H0; [|done]. simpl in Hl.
  destruct (link_entries now keys data) as [rest|] eqn:Hrest; [|done].
  simpl in Hl. injection Hl as <-.
  destruct i as [|i]; simpl in *.
  - injection Hi as <-. eauto.
  - by apply IH.
Qed.

Lemma link_entries_length keys data updated :
  link_entries now keys data = Normal updated → length updated = length data.
Proof.
  revert updated. induction data as [|e0 data IH]; intros updated Hl; simpl in *.
  - by injection Hl as <-.
  - destruct (link_entry now keys e0) as [e0'|]; [|done]. simpl in Hl.
    destruct (link_entries now keys data) as [rest|]; [|done].
    simpl in Hl. injection Hl as <-. simpl. f_equal. by apply IH.
Qed.

(** The keys of the content map are the keywords of the generated items. *)
Lemma content_map_keys_elem generated keys (gc : entry) (key : json) :
  content_map_keys generated = Normal keys →
  gc ∈ generated → gc !! "keyword" = Some key → key ∈ keys.
Proof.
  revert keys. induction generated as [|g generated IH]; intros keys Hk Hin Hkey.
  - by apply elem_of_nil in Hin.
  - simpl in Hk. destruct (g !! "keyword") as [k0|] eqn:Hg; [|done].
    destruct (hashable k0); [|done].
    destruct (content_map_keys generated) as [ks|]; [|done].
    simpl in Hk. injection Hk as <-.
    apply elem_of_cons in Hin as [->|Hin].
    + rewrite Hg in Hkey. injection Hkey as ->. apply elem_of_cons. by left.
    + apply elem_of_cons. right. by apply IH.
Qed.

Lemma content_map_keys_inv generated keys (key : json) :
  content_map_keys generated = Normal keys → key ∈ keys →
  ∃ gc, gc ∈ generated ∧ gc !! "keyword" = Some key.
Proof.
  revert keys. induction generated as [|g generated IH]; intros keys Hk Hin; simpl in Hk.
  - injection Hk as <-. by apply elem_of_nil in Hin.
  - destruct (g !! "keyword") as [k0|] eqn:Hg; [|done].
    destruct (hashable k0); [|done].
    destruct (content_map_keys generated) as [ks|] eqn:Hks; [|done].
    simpl in Hk. injection Hk as <-.
    apply elem_of_cons in Hin as [->|Hin].
    + exists g. split; [apply elem_of_cons; by left | done].
    + destruct (IH ks eq_refl Hin) as (gc & Hgc & Hkey).
      exists gc. split; [apply elem_of_cons; by right | done].
Qed.

Lemma existsb_eq_cell_text keys (k : string) :
  existsb (Rt.eq_cell (JStr k)) keys = true ↔ JStr k ∈ keys.
Proof.
  rewrite existsb_exists. split.
  - intros (v & Hin & Heq). destruct v; simpl in Heq; try discriminate.
    apply String.eqb_eq in Heq. subst. by apply list_elem_of_In.
  - intros Hin. exists (JStr k). split; [by apply list_elem_of_In|].
    simpl. apply String.eqb_refl.
Qed.

(** An entry whose keyword has generated content is marked by the merge. *)
Lemma update_marks_generated data generated updated (i : nat) e (gc : entry)
    (k : string) :
  update_original_data_with_content_links now data generated = Normal updated →
  data !! i = Some e → e !! "keyword" = Some (JStr k) →
  gc ∈ generated → gc !! "keyword" = Some (JStr k) →
  ∃ e', updated !! i = Some e'
    ∧ e' !! "status" =
        Some (JStr (if Rt.field_is e "category" Settings.CATEGORY_NOT_RELEVANT
                    then "Not Relevant" else "Content Generated")).
Proof.
  unfold update_original_data_with_content_links. intros Hu Hi Hk Hgc Hgk.
  destruct (content_map_keys generated) as [keys|] eqn:Hkeys; [|done].
  simpl in Hu.
  destruct (link_entries_lookup _ _ _ _ _ Hu Hi) as (e' & He' & Hlink).
  exists e'. split; [done|].
  assert (Hin : existsb (Rt.eq_cell (JStr k)) keys = true).
  { apply existsb_eq_cell_text. by eapply content_map_keys_elem. }
  destruct (link_entry_hit keys e k Hk Hin) as (e'' & Hl & Hst).
  rewrite Hl in Hlink. by injection Hlink as <-.
Qed.

(** The merge of a batch of one entry with its own content map. *)
Lemma update_single e (gc : entry) (k : string) :
  e !! "keyword" = Some (JStr k) → gc !! "keyword" = Some (JStr k) →
  ∃ e', update_original_data_with_content_links now [e] [gc] = Normal [e']
    ∧ e' !! "status" =
        Some (JStr (if Rt.field_is e "category" Settings.CATEGORY_NOT_RELEVANT
                    then "Not Relevant" else "Content Generated")).
Proof.
  intros Hk Hgk.
  assert (Hin : existsb (Rt.eq_cell (JStr k)) [JStr k] = true).
  { simpl. by rewrite String.eqb_refl. }
  destruct (link_entry_hit [JStr k] e k Hk Hin) as (e' & Hl & Hst).
  exists e'. split; [|done].
  unfold update_original_data_with_content_links. cbn [content_map_keys].
  rewrite Hgk. cbn [hashable Rt.bind_o link_entries]. by rewrite Hl.
Qed.

End Linking.

(** ** Content generation with one failing call *)

Section ContentGeneration.

Import Content.

Context (loads : string → option json) (service : nat → reply) (now : string).

Lemma error_marker_is_marker (x : exn) : is_error_marker (error_marker x) = true.
Proof. done. Qed.

(** The number of error markers, read off the four slots. *)
Lemma error_markers_slots (gc : entry) (v0 v1 v2 v3 : json) :
  gc !! "instagram_post" = Some v0 → gc !! "blog_article" = Some v1 →
  gc !! "youtube_reel" = Some v2 → gc !! "youtube_thumbnail" = Some v3 →
  error_markers gc =
    length (List.filter is_error_marker [v0; v1; v2; v3]).
Proof.
  intros H0 H1 H2 H3. unfold error_markers, content_types.
  cbn [List.filter]. rewrite H0, H1, H2, H3.
  by destruct (is_error_marker v0), (is_error_marker v1),
       (is_error_marker v2), (is_error_marker v3).
Qed.

(** C5: for an entry at 'Run GPT' with a relevant category, when one of
    the four artifact calls fails and the other three yield an artifact,
    the three artifacts are stored in their slots, the failing slot holds
    the error marker, the content map has exactly one error marker, and
    the merge sets the entry to 'Content Generated'. *)
Theorem one_failed_artifact (e : entry) (k : string) (w : world) (j : nat)
    (x : exn)
    (Hstatus : Rt.field_is e "status" "Run GPT" = true)
    (Hcat : Rt.field_is e "category" "Not Relevant" = false)
    (Hkey : e !! "keyword" = Some (JStr k))
    (Hj : j < 4)
    (Hfail : artifact_result loads (service (calls w + j)) = Raised x)
    (Hok : ∀ i, i < 4 → i ≠ j → yields_artifact loads (service (calls w + i))) :
  ∃ gc w',
    generate_content_for_keyword loads service now e w = (Normal (Some gc), w')
    ∧ (∀ i t, i ≠ j → content_types !! i = Some t →
         ∃ p, artifact_result loads (service (calls w + i)) = Normal p
              ∧ gc !! t = Some p)
    ∧ (∀ t, content_types !! j = Some t → gc !! t = Some (error_marker x))
    ∧ error_markers gc = 1
    ∧ process_approved_entries loads service now [e] w = (Normal [gc], w')
    ∧ (∀ data generated updated i,
         data !! i = Some e → gc ∈ generated →
         update_original_data_with_content_links now data generated
           = Normal updated →
         ∃ e', updated !! i = Some e'
               ∧ e' !! "status" = Some (JStr "Content Generated"))
    ∧ (∃ e', update_original_data_with_content_links now [e] [gc] = Normal [e']
             ∧ e' !! "status" = Some (JStr "Content Generated")).
Proof.
  assert (Hel : eligible e = true).
  { unfold eligible. change Settings.STATUS_RUN_GPT with "Run GPT".
    change Settings.CATEGORY_NOT_RELEVANT with "Not Relevant".
    by rewrite Hstatus, Hcat. }
  pose proof (generate_content_eligible loads service now e (JStr k) w Hel Hkey)
    as Hgen.
  set (gc := fill_slots loads service content_types (calls w) _) in Hgen.
  set (w' := World _ _ _) in Hgen.
  assert (Hslot : ∀ i t, content_types !! i = Some t →
            gc !! t = Some (slot_value loads (service (calls w + i)))).
  { intros i t Ht. by apply fill_slots_lookup; [apply content_types_NoDup|]. }
  assert (Hgood : ∀ i t, i ≠ j → content_types !! i = Some t →
            ∃ p, artifact_result loads (service (calls w + i)) = Normal p
                 ∧ is_error_marker p = false ∧ gc !! t = Some p).
  { intros i t Hne Ht.
    assert (Hi : i < 4) by (apply lookup_lt_Some in Ht; exact Ht).
    destruct (Hok i Hi Hne) as (p & Hp & Hm). exists p.
    split; [done|]. split; [done|].
    rewrite (Hslot i t Ht). unfold slot_value. by rewrite Hp. }
  assert (Hbad : ∀ t, content_types !! j = Some t →
            gc !! t = Some (error_marker x)).
  { intros t Ht. rewrite (Hslot j t Ht). unfold slot_value. by rewrite Hfail. }
  assert (Hgk : gc !! "keyword" = Some (JStr k)).
  { subst gc. rewrite fill_slots_other.
    - do 3 (rewrite lookup_insert_ne by done). apply lookup_insert_eq.
    - unfold content_types. intros H.
      repeat (apply elem_of_cons in H as [H|H]; [discriminate|]).
      by apply elem_of_nil in H. }
  exists gc, w'. split; [exact Hgen|].
  split. { intros i t Hne Ht. destruct (Hgood i t Hne Ht) as (p & ? & _ & ?). eauto. }
  split; [exact Hbad|].
  split.
  { destruct j as [|[|[|[|j]]]]; [| | | |lia].
    - destruct (Hgood 1 _ ltac:(lia) eq_refl) as (p1 & _ & M1 & G1).
      destruct (Hgood 2 _ ltac:(lia) eq_refl) as (p2 & _ & M2 & G2).
      destruct (Hgood 3 _ ltac:(lia) eq_refl) as (p3 & _ & M3 & G3).
      rewrite (error_markers_slots gc _ _ _ _ (Hbad _ eq_refl) G1 G2 G3).
      cbn [List.filter]. by rewrite error_marker_is_marker, M1, M2, M3.
    - destruct (Hgood 0 _ ltac:(lia) eq_refl) as (p0 & _ & M0 & G0).
      destruct (Hgood 2 _ ltac:(lia) eq_refl) as (p2 & _ & M2 & G2).
      destruct (Hgood 3 _ ltac:(lia) eq_refl) as (p3 & _ & M3 & G3).
      rewrite (error_markers_slots gc _ _ _ _ G0 (Hbad _ eq_refl) G2 G3).
      cbn [List.filter]. by rewrite error_marker_is_marker, M0, M2, M3.
    - destruct (Hgood 0 _ ltac:(lia) eq_refl) as (p0 & _ & M0 & G0).
      destruct (Hgood 1 _ ltac:(lia) eq_refl) as (p1 & _ & M1 & G1).
      destruct (Hgood 3 _ ltac:(lia) eq_refl) as (p3 & _ & M3 & G3).
      rewrite (error_markers_slots gc _ _ _ _ G0 G1 (Hbad _ eq_refl) G3).
      cbn [List.filter]. by rewrite error_marker_is_marker, M0, M1, M3.
    - destruct (Hgood 0 _ ltac:(lia) eq_refl) as (p0 & _ & M0 & G0).
      destruct (Hgood 1 _ ltac:(lia) eq_refl) as (p1 & _ & M1 & G1).
      destruct (Hgood 2 _ ltac:(lia) eq_refl) as (p2 & _ & M2 & G2).
      rewrite (error_markers_slots gc _ _ _ _ G0 G1 G2 (Hbad _ eq_refl)).
      cbn [List.filter]. by rewrite error_marker_is_marker, M0, M1, M2. }
  split.
  { unfold process_approved_entries. cbn [List.filter].
    change Settings.STATUS_RUN_GPT with "Run GPT". rewrite Hstatus.
    cbn [generate_all]. unfold mbind, M_bind. by rewrite Hgen. }
  assert (Hmark : ∀ data generated updated i,
         data !! i = Some e → gc ∈ generated →
         update_original_data_with_content_links now data generated
           = Normal updated →
         ∃ e', updated !! i = Some e'
               ∧ e' !! "status" = Some (JStr "Content Generated")).
  { intros data generated updated i Hi Hin Hu.
    destruct (update_marks_generated now data generated updated i e gc k
                Hu Hi Hkey Hin Hgk) as (e' & He' & Hst).
    exists e'. split; [done|].
    change Settings.CATEGORY_NOT_RELEVANT with "Not Relevant" in Hst.
    by rewrite Hcat in Hst. }
  split; [exact Hmark|].
  assert (Hin : existsb (Rt.eq_cell (JStr k)) [JStr k] = true).
  { simpl. by rewrite String.eqb_refl. }
  destruct (link_entry_hit now [JStr k] e k Hkey Hin) as (e' & Hl & Hst).
  exists e'. split.
  - unfold update_original_data_with_content_links. cbn [content_map_keys].
    rewrite Hgk. cbn [hashable Rt.bind_o link_entries]. by rewrite Hl.
  - change Settings.CATEGORY_NOT_RELEVANT with "Not Relevant" in Hst.
    by rewrite Hcat in Hst.
Qed.

End ContentGeneration.

(** ** Where the retry loop is used *)

Section Retrying.

Import Categorize Content Trace.

Context (loads : string → option json) (service : nat → reply) (now : string).

Lemma requests_slots_trace (c n : nat) :
  requests (slots_trace loads service c n) = n.
Proof.
  revert c. induction n as [|n IH]; intros c; [done|].
  cbn [slots_trace]. unfold slot_events.
  destruct (artifact_result loads (service c)); simpl; by rewrite IH.
Qed.

Lemma waits_slots_trace (c n : nat) :
  Forall (λ d, d = 1%Z) (waits (slots_trace loads service c n)).
Proof.
  revert c. induction n as [|n IH]; intros c; [by apply Forall_nil|].
  cbn [slots_trace]. unfold slot_events.
  destruct (artifact_result loads (service c)); simpl.
  - apply Forall_cons. split; [done | apply IH].
  - apply IH.
Qed.

(** After the loop has broken out with a result, the categorization ends
    without a further request or sleep. *)
Lemma categorize_after_loop (e : entry) (k : string) (retries : nat) (d : Z)
    (w w1 : world) (result : json) :
  e !! "keyword" = Some (JStr k) →
  retry_loop loads service retries d w = (Normal (Some result), w1) →
  ∃ r, categorize_keyword loads service e retries d w = (Normal r, w1).
Proof.
  intros Hkey Hloop. unfold categorize_keyword, web_search_of. rewrite Hkey.
  unfold Rt.try_except, mbind, M_bind. rewrite Hloop. unfold Rt.lift.
  destruct (validate result (perform_web_search k)); eauto.
Qed.

(** C2, as the code has it: the retry loop is the categorization's.  A
    categorization sends a request, and after each failure sleeps the
    current delay, doubles it and tries again, [retries] attempts at
    most; it stops at the first success.  Content generation sends each
    of its four requests once: a failure is stored as an error marker
    at once, with no sleep and no second attempt. *)
Theorem retry_loop_serves_categorization_only (retries : nat) (d : Z)
    (w : world) (Hd : (0 ≤ d)%Z) :
  (∀ e k, e !! "keyword" = Some (JStr k) →
     (∀ m result, m < retries →
        (∀ i, i < m → ∃ x, attempt_result loads (service (calls w + i)) = Raised x) →
        attempt_result loads (service (calls w + m)) = Normal result →
        ∃ r, categorize_keyword loads service e retries d w =
               (Normal r,
                World (S (calls w + m))
                  (trace w ++ failed_attempts (calls w) d m
                     ++ [Request (calls w + m)])
                  (sheet w)))
     ∧ ((∀ i, i < retries →
           ∃ x, attempt_result loads (service (calls w + i)) = Raised x) →
        categorize_keyword loads service e retries d w =
          (Normal (retries_exhausted (perform_web_search k)),
           World (calls w + retries)
             (trace w ++ failed_attempts (calls w) d retries) (sheet w))))
  ∧ (∀ e keyword, eligible e = true → e !! "keyword" = Some keyword →
       ∃ gc,
         generate_content_for_keyword loads service now e w =
           (Normal (Some gc),
            World (calls w + 4)
              (trace w ++ slots_trace loads service (calls w) 4) (sheet w))
         ∧ requests (slots_trace loads service (calls w) 4) = 4
         ∧ Forall (λ s, s = 1%Z) (waits (slots_trace loads service (calls w) 4))
         ∧ (∀ i t x, content_types !! i = Some t →
              artifact_result loads (service (calls w + i)) = Raised x →
              gc !! t = Some (error_marker x)
              ∧ slot_events loads (calls w + i) (service (calls w + i))
                  = [Request (calls w + i)])).
Proof.
  split.
  - intros e k Hkey. split.
    + intros m result Hm Hfail Hok.
      apply (categorize_after_loop e k retries d w _ result Hkey).
      replace retries with (m + S (retries - S m)) by lia.
      by apply retry_loop_succeeds.
    + intros Hfail. unfold categorize_keyword, web_search_of. rewrite Hkey.
      unfold Rt.try_except, mbind, M_bind.
      by rewrite retry_loop_exhausted.
  - intros e keyword Hel Hkey. eexists. split.
    { by apply generate_content_eligible. }
    split; [apply requests_slots_trace|].
    split; [apply waits_slots_trace|].
    intros i t x Ht Hx. split.
    + rewrite (fill_slots_lookup loads service content_types _ _ i t
                 content_types_NoDup Ht).
      unfold slot_value. by rewrite Hx.
    + unfold slot_events. by rewrite Hx.
Qed.

End Retrying.

(** ** The publish stage *)

Section PublishStage.

Import Publish.

Implicit Types (row : entry) (rows : list entry) (w : world).

Lemma due_spec row :
  due row = true ↔
    Rt.field_is row "Approval" "Approved" = true
    ∧ Rt.field_is row "Status" "Published" = false
    ∧ Rt.field_is row "Status" "Not Relevant" = false.
Proof.
  unfold due. rewrite !andb_true_iff, !negb_true_iff. tauto.
Qed.

Lemma due_mark_published row : due (mark_published row) = false.
Proof.
  unfold due, mark_published, Rt.field_is.
  rewrite lookup_insert_eq. simpl. by rewrite andb_false_r.
Qed.

(** A row is no longer due after the stage has seen it. *)
Lemma due_settled row :
  due (if due row then mark_published row else row) = false.
Proof. destruct (due row) eqn:Hd; [apply due_mark_published | done]. Qed.

(** The loop, row by row: [before] are the rows above the current one. *)
Lemma publish_rows_run rows (before : list entry) w :
  sheet w = (before ++ rows)%list →
  Forall (λ row, due row = true → has_blog_link row) rows →
  publish_rows (2 + length before) rows w =
    (Normal tt,
     World (calls w)
       (trace w ++ flat_map publish_events (List.filter due rows))
       (before ++ map (λ row, if due row then mark_published row else row) rows)%list).
Proof.
  revert before w. induction rows as [|row rows IH]; intros before w Hsheet Hlinks.
  - simpl. rewrite app_nil_r. rewrite <- Hsheet. by destruct w.
  - apply Forall_cons in Hlinks as [Hlink Hlinks].
    cbn [publish_rows List.filter map].
    destruct (due row) eqn:Hdue.
    + apply due_spec in Hdue as Hd. destruct Hd as (Ha & Hp & Hn).
      rewrite Ha, Hn, Hp. cbn [negb orb].
      destruct (Hlink eq_refl) as [link Hl].
      unfold mock_publish_instagram, mock_publish_blog,
        mock_publish_youtube, update_status, Rt.emit, Rt.lift.
      cbn [text_items]. rewrite Hl. cbn [Rt.bind_o].
      unfold mbind, M_bind. cbn [calls trace sheet].
      replace (2 + length before - 2) with (length before + 0) by lia.
      rewrite Hsheet, alter_app_r. cbn [alter list_alter].
      replace (S (2 + length before))
        with (2 + length (before ++ [mark_published row])%list)
        by (rewrite length_app; simpl; lia).
      rewrite IH; [| cbn [sheet]; by rewrite <- app_assoc | done].
      cbn [calls trace sheet flat_map]. unfold publish_events at 2. rewrite Hl.
      f_equal. f_equal.
      * by rewrite <- !app_assoc.
      * by rewrite <- app_assoc.
    + assert (Hnext : publish_rows (S (2 + length before)) rows w =
        (Normal tt,
         World (calls w)
           (trace w ++ flat_map publish_events (List.filter due rows))
           (before ++ row ::
              map (λ row, if due row then mark_published row else row) rows)%list)).
      { replace (S (2 + length before)) with (2 + length (before ++ [row])%list)
          by (rewrite length_app; simpl; lia).
        rewrite IH; [| by rewrite <- app_assoc | done].
        by rewrite <- app_assoc. }
      unfold due in Hdue.
      destruct (Rt.field_is row "Approval" "Approved"),
        (Rt.field_is row "Status" "Not Relevant"),
        (Rt.field_is row "Status" "Published");
        simpl in Hdue; try discriminate; exact Hnext.
Qed.

Lemma run_once w :
  Forall (λ row, due row = true → has_blog_link row) (sheet w) →
  run w =
    (Normal true,
     World (calls w)
       (trace w ++ flat_map publish_events (List.filter due (sheet w)))
       (map (λ row, if due row then mark_published row else row) (sheet w))).
Proof.
  intros Hlinks. unfold run, mbind, M_bind.
  pose proof (publish_rows_run (sheet w) [] w eq_refl Hlinks) as Hrun.
  cbn [length Nat.add app] in Hrun. by rewrite Hrun.
Qed.

Lemma filter_due_settled rows :
  List.filter due
    (map (λ row, if due row then mark_published row else row) rows) = [].
Proof.
  induction rows as [|row rows IH]; [done|].
  cbn [map List.filter]. by rewrite due_settled.
Qed.

Lemma map_settled rows :
  map (λ row, if due row then mark_published row else row)
    (map (λ row, if due row then mark_published row else row) rows)
  = map (λ row, if due row then mark_published row else row) rows.
Proof.
  rewrite map_map. apply map_ext. intros row.
  by rewrite due_settled.
Qed.

(** C6: the stage publishes, and writes 'Published' into, exactly the
    rows that are approved and neither 'Published' nor 'Not Relevant';
    every other row is left as it is; a second run on the resulting
    sheet publishes nothing and changes nothing. *)
Theorem publish_is_idempotent w
    (Hlinks : Forall (λ row, due row = true → has_blog_link row) (sheet w)) :
  (∀ row, due row = true ↔
      Rt.field_is row "Approval" "Approved" = true
      ∧ Rt.field_is row "Status" "Published" = false
      ∧ Rt.field_is row "Status" "Not Relevant" = false)
  ∧ ∃ w1,
      run w = (Normal true, w1)
      ∧ trace w1 = trace w ++ flat_map publish_events (List.filter due (sheet w))
      ∧ sheet w1 =
          map (λ row, if due row then <["Status" := JStr "Published"]> row
                      else row) (sheet w)
      ∧ run w1 = (Normal true, w1).
Proof.
  split; [apply due_spec|].
  eexists. split; [by apply run_once|].
  split; [done|]. split; [done|].
  rewrite run_once.
  - cbn [calls trace sheet]. rewrite filter_due_settled, map_settled.
    cbn [flat_map]. by rewrite app_nil_r.
  - cbn [sheet]. apply Forall_forall. intros row Hin Hdue.
    apply list_elem_of_fmap in Hin as (r0 & -> & _).
    by rewrite due_settled in Hdue.
Qed.

End PublishStage.

(** ** The status of an entry across the stages *)

Section StatusOrder.

Import Status.






End StatusOrder.

(** ** The categorization batch *)

Section Batch.

Import Categorize.

Context (loads : string → option json) (service : nat → reply) (now : string).

Lemma add_delay_run (w : world) :
  Rt.add_delay w = (Normal tt, World (calls w) (trace w ++ [Sleep 1]) (sheet w)).
Proof. done. Qed.


(** The batch goes through: every entry with a keyword is categorized. *)
Lemma process_batch_returns (data : list entry) (w : world) :
  Forall (λ e, is_Some (e !! "keyword")) data →
  ∃ out w', process_batch loads service now data w = (Normal out, w').
Proof.
  revert w. induction data as [|e data IH]; intros w Hkeys.
  - by eexists _, _.
  - apply Forall_cons in Hkeys as [[kw Hk] Hkeys].
    cbn [process_batch]. rewrite Hk. unfold mbind, M_bind. cbn [mret M_ret].
    destruct (categorize_keyword_returns loads service e default_retries
                default_backoff w) as (r & w1 & Hr).
    rewrite Hr, add_delay_run.
    destruct (IH (World (calls w1) (trace w1 ++ [Sleep 1]) (sheet w1)) Hkeys)
      as (out & w2 & Hout).
    rewrite Hout. by eexists _, _.
Qed.


Lemma process_batch_length (data out : list entry) (w w' : world) :
  process_batch loads service now data w = (Normal out, w') →
  length out = length data.
Proof.
  revert out w. induction data as [|e0 data IH]; intros out w Hrun.
  - by injection Hrun as <- <-.
  - cbn [process_batch] in Hrun. unfold mbind, M_bind in Hrun.
    destruct (e0 !! "keyword"); [|done]. cbn [mret M_ret] in Hrun.
    destruct (categorize_keyword loads service e0 default_retries default_backoff w)
      as [[r|] w1]; [|done].
    rewrite add_delay_run in Hrun.
    destruct (process_batch loads service now data _) as [[rest|] w2] eqn:Hrest;
      [|done].
    injection Hrun as <- <-. simpl. f_equal. by eapply IH.
Qed.

End Batch.

(** ** Which entries get content *)

Section Generated.

Import Content.

Context (loads : string → option json) (service : nat → reply) (now : string).




End Generated.

(** ** The order of the statuses, stage by stage *)



(** ** The properties at work on sample inputs *)

Section Examples.

Import Samples Trace.

Lemma service_down_fails (c i : nat) :
  ∃ x, Categorize.attempt_result sample_loads (service_down (c + i)) = Raised x.
Proof. by eexists. Qed.

Lemma categorize_backoff_is_geometric_witness :
  ∃ r new,
    Categorize.categorize_keyword sample_loads service_down neet 3 5 start
      = (Normal r, World 3 new [])
    ∧ Categorize.category r = JStr "Not Relevant"
    ∧ Categorize.confidence r = JStr "Low"
    ∧ waits new = [5; 10; 20]%Z
    ∧ total_wait new = 35%Z.
Proof.
  destruct (categorize_backoff_is_geometric sample_loads service_down neet
              "neet result 2024" start eq_refl
              (λ i _, service_down_fails 0 i))
    as (_ & _ & r & new & Hrun & _ & Hc & Hl & Hw & Ht & _).
  exists r, new. repeat split; try assumption.
Defined.

(** C7 as stated fails: the reply {"category": "Result", "confidence":
    "Banana"} decodes, and its confidence is handed on as 'Banana', not
    coerced to 'Low'. *)
Lemma invalid_confidence_passes_through :
  ∃ r w',
    Categorize.categorize_keyword sample_loads service_banana neet 3 5 start
      = (Normal r, w')
    ∧ Categorize.confidence r = JStr "Banana"
    ∧ Categorize.confidence r ≠ JStr "Low"
    ∧ Approve.confidence_order !! "Banana" = None.
Proof.
  eexists _, _. split; [vm_compute; reflexivity|].
  split; [reflexivity|]. split; [discriminate|].
  vm_compute. reflexivity.
Qed.

Lemma categorize_keyword_total_witness :
  ∃ r w',
    Categorize.categorize_keyword sample_loads service_banana neet 3 5 start
      = (Normal r, w')
    ∧ Categorize.valid_category (Categorize.category r)
    ∧ Categorize.category r = JStr "Result"
    ∧ Categorize.confidence r = JStr "Banana".
Proof.
  destruct (categorize_keyword_total sample_loads service_banana neet 3 5 start)
    as (r & w' & Hrun & Hvalid & Hk & _).
  specialize (Hk "neet result 2024" eq_refl).
  vm_compute in Hk. destruct Hk as [Hc Hconf].
  exists r, w'. by repeat split.
Defined.

Lemma neet_approved_eligible : Content.eligible neet_approved = true.
Proof. vm_compute. reflexivity. Qed.

Lemma neet_approved_keyword :
  neet_approved !! "keyword" = Some (JStr "neet result 2024").
Proof. vm_compute. reflexivity. Qed.

(** C2 as stated fails: with the service down, content generation sends
    each of its four requests once and never sleeps, where the retrying
    caller would have sent twelve requests and slept 4 * 35 seconds. *)
Lemma content_generation_never_retries :
  ∃ gc w',
    Content.generate_content_for_keyword sample_loads service_down noon
      neet_approved start = (Normal (Some gc), w')
    ∧ trace w' = [Request 0; Request 1; Request 2; Request 3]
    ∧ total_wait (trace w') = 0%Z
    ∧ requests (trace w') = 4
    ∧ trace w' ≠ flat_map (λ i, failed_attempts (3 * i) 5 3) [0; 1; 2; 3]
    ∧ requests (flat_map (λ i, failed_attempts (3 * i) 5 3) [0; 1; 2; 3]) = 12
    ∧ total_wait (flat_map (λ i, failed_attempts (3 * i) 5 3) [0; 1; 2; 3])
        = 140%Z.
Proof.
  eexists _, _. split.
  { apply (generate_content_eligible sample_loads service_down noon
             neet_approved _ start neet_approved_eligible
             neet_approved_keyword). }
  cbn [trace].
  split; [vm_compute; reflexivity|].
  split; [vm_compute; reflexivity|].
  split; [vm_compute; reflexivity|].
  split; [vm_compute; discriminate|].
  split; vm_compute; reflexivity.
Qed.

Lemma retry_loop_serves_categorization_only_witness :
  Categorize.categorize_keyword sample_loads service_down neet 3 5 start
    = (Normal (Categorize.retries_exhausted
                 (Categorize.perform_web_search "neet result 2024")),
       World 3 (failed_attempts 0 5 3) [])
  ∧ ∃ gc,
      Content.generate_content_for_keyword sample_loads service_down noon
        neet_approved start
        = (Normal (Some gc),
           World 4 (Content.slots_trace sample_loads service_down 0 4) [])
      ∧ gc !! "blog_article"
          = Some (Content.error_marker (RequestException "connection refused")).
Proof.
  destruct (retry_loop_serves_categorization_only sample_loads service_down
              noon 3 5 start ltac:(done)) as [Hcat Hgen].
  split.
  - destruct (Hcat neet "neet result 2024" eq_refl) as [_ Hall].
    apply Hall. intros i _. apply service_down_fails.
  - destruct (Hgen neet_approved (JStr "neet result 2024")
                neet_approved_eligible neet_approved_keyword)
      as (gc & Hrun & _ & _ & Hslot).
    exists gc. split; [exact Hrun|].
    apply (Hslot 1 "blog_article" (RequestException "connection refused")
             eq_refl eq_refl).
Defined.

Lemma blog_down_others_yield (i : nat) :
  i < 4 → i ≠ 1 →
  Content.yields_artifact sample_loads (service_blog_down (0 + i)).
Proof.
  intros Hi Hne. exists caption_object.
  destruct i as [|[|[|[|i]]]]; try lia; split; vm_compute; reflexivity.
Qed.

Lemma one_failed_artifact_witness :
  ∃ gc w' e',
    Content.generate_content_for_keyword sample_loads service_blog_down noon
      neet_approved start = (Normal (Some gc), w')
    ∧ gc !! "instagram_post" = Some caption_object
    ∧ gc !! "blog_article" = Some (Content.error_marker (HTTPError 503))
    ∧ gc !! "youtube_reel" = Some caption_object
    ∧ gc !! "youtube_thumbnail" = Some caption_object
    ∧ Content.error_markers gc = 1
    ∧ Content.update_original_data_with_content_links noon
        [neet_approved] [gc] = Normal [e']
    ∧ e' !! "status" = Some (JStr "Content Generated").
Proof.
  destruct (one_failed_artifact sample_loads service_blog_down noon
              neet_approved "neet result 2024" start 1 (HTTPError 503)
              eq_refl eq_refl neet_approved_keyword ltac:(lia) eq_refl
              blog_down_others_yield)
    as (gc & w' & Hrun & Hgood & Hbad & Hone & _ & _ & e' & Hupd & Hst).
  exists gc, w', e'.
  split; [exact Hrun|].
  split. { destruct (Hgood 0 "instagram_post" ltac:(lia) eq_refl) as (p & [= <-] & Hp). exact Hp. }
  split; [by apply Hbad|].
  split. { destruct (Hgood 2 "youtube_reel" ltac:(lia) eq_refl) as (p & [= <-] & Hp). exact Hp. }
  split. { destruct (Hgood 3 "youtube_thumbnail" ltac:(lia) eq_refl) as (p & [= <-] & Hp). exact Hp. }
  by repeat split.
Defined.

Lemma sample_sheet_links :
  Forall (λ row, Publish.due row = true → Publish.has_blog_link row)
    (sheet sheet_world).
Proof.
  repeat (apply Forall_cons; split;
          [intros _; eexists; vm_compute; reflexivity|]).
  apply Forall_nil_2.
Qed.

Lemma publish_is_idempotent_witness :
  ∃ w1,
    Publish.run sheet_world = (Normal true, w1)
    ∧ length (trace w1) = 3
    ∧ map (λ row : entry, Status.text_of (row !! "Status")) (sheet w1) =
        [Some "Published"; Some "Published"; Some "Not Relevant"; Some "Pending"]
    ∧ Publish.run w1 = (Normal true, w1).
Proof.
  destruct (publish_is_idempotent sheet_world sample_sheet_links)
    as (_ & w1 & Hrun & Htrace & Hsheet & Hagain).
  exists w1. split; [exact Hrun|].
  split; [rewrite Htrace; vm_compute; reflexivity|].
  split; [rewrite Hsheet; vm_compute; reflexivity | exact Hagain].
Defined.




Lemma neet_has_keyword : Forall (λ e : entry, is_Some (e !! "keyword")) [neet].
Proof.
  apply Forall_cons. split; [|apply Forall_nil_2].
  exists (JStr "neet result 2024"). apply lookup_insert_eq.
Qed.



End Examples.

(** * Further properties of the stages *)

(** ** More on the approval gate *)

Section ApprovalGateMore.

Import Approve Samples.

Implicit Types (t : string) (r : row) (rows : list row).





Lemma threshold_rank_cases t :
  threshold_rank t =
    if decide (t = "Low") then 0
    else if decide (t = "High") then 2 else 1.
Proof.
  unfold threshold_rank. rewrite confidence_order_lookup.
  repeat (case_decide; subst; try done).
Qed.

(** X3: a lower threshold approves at least what a higher one approves,
    and a threshold that is none of 'Low', 'Medium', 'High' (the spelling
    'low' included: the threshold is not capitalized) acts as 'Medium'. *)
Theorem threshold_is_monotone r :
  (approves "High" r = true → approves "Medium" r = true)
  ∧ (approves "Medium" r = true → approves "Low" r = true)
  ∧ (∀ t, t ≠ "Low" → t ≠ "Medium" → t ≠ "High" →
       approves t r = approves "Medium" r
       ∧ auto_approve_row t r = auto_approve_row "Medium" r).
Proof.
  split; [|split].
  - rewrite !approves_spec. intros [Hr Hc]. split; [|done].
    change (threshold_rank "High") with 2 in Hr.
    change (threshold_rank "Medium") with 1. lia.
  - rewrite !approves_spec. intros [Hr Hc]. split; [|done].
    change (threshold_rank "Low") with 0. lia.
  - intros t H1 H2 H3.
    assert (Ha : approves t r = approves "Medium" r).
    { unfold approves. cbv zeta. rewrite (threshold_rank_cases t).
      repeat (case_decide; try congruence). done. }
    split; [exact Ha|]. unfold auto_approve_row. by rewrite Ha.
Qed.




End ApprovalGateMore.

Lemma threshold_is_monotone_witness :
  Approve.approves "Low" Samples.sample_row = true
  ∧ Approve.approves "low" Samples.sample_row
      = Approve.approves "Medium" Samples.sample_row.
Proof.
  destruct (threshold_is_monotone Samples.sample_row) as (_ & Hlow & Hother).
  split.
  - apply Hlow. vm_compute. reflexivity.
  - by apply (Hother "low").
Defined.


(** ** More on the categorization agent *)

Section CategorizeMore.

Import Categorize Trace.

Context (loads : string → option json) (service : nat → reply) (now : string).

Lemma waits_app (a b : list event) : waits (a ++ b) = waits a ++ waits b.
Proof.
  induction a as [|ev a IH]; [done|].
  destruct ev; simpl; by rewrite IH.
Qed.

Lemma total_wait_app (a b : list event) :
  total_wait (a ++ b) = (total_wait a + total_wait b)%Z.
Proof.
  unfold total_wait. rewrite waits_app.
  induction (waits a) as [|d l IH]; simpl; [done | lia].
Qed.

Lemma requests_app (a b : list event) :
  requests (a ++ b) = requests a + requests b.
Proof.
  induction a as [|ev a IH]; [done|].
  destruct ev; simpl; by rewrite IH.
Qed.

Lemma retry_loop_footprint (n : nat) (d : Z) (w : world) :
  loop_footprint n d w (retry_loop loads service n d w).2.
Proof.
  revert d w. induction n as [|n IH]; intros d w.
  - simpl. split; [done|]. exists []. rewrite app_nil_r.
    split; [done|]. split; [simpl; lia|]. split; [simpl; lia|].
    intros Hd. unfold total_wait. simpl. lia.
  - cbn [retry_loop]. unfold Rt.try_except, mbind, M_bind.
    rewrite attempt_run.
    destruct (attempt_result loads (service (calls w))) as [result|x].
    + simpl. split; [done|]. exists [Request (calls w)].
      split; [done|]. split; [simpl; lia|]. split; [simpl; lia|].
      intros Hd. unfold total_wait. simpl.
      assert (0 < 2 ^ Z.of_nat (S n))%Z by (apply Z.pow_pos_nonneg; lia).
      nia.
    + unfold Rt.sleep. destruct (d <? 0)%Z eqn:Hneg.
      * simpl. split; [done|]. exists [Request (calls w)].
        split; [done|]. split; [simpl; lia|]. split; [simpl; lia|].
        intros Hd. apply Z.ltb_lt in Hneg. lia.
      * unfold Rt.emit. cbn [calls trace sheet].
        destruct (IH (d * 2)%Z
                    (World (S (calls w))
                       ((trace w ++ [Request (calls w)]) ++ [Sleep d])
                       (sheet w)))
          as (Hsheet & new & Htrace & Hcalls & Hreq & Hwait).
        cbn [calls trace sheet] in *.
        split; [exact Hsheet|].
        exists (Request (calls w) :: Sleep d :: new).
        split. { rewrite Htrace, <- !app_assoc. done. }
        split. { rewrite Hcalls. simpl. lia. }
        split. { simpl. lia. }
        intros Hd. apply Z.ltb_ge in Hneg.
        change (Request (calls w) :: Sleep d :: new)
          with ([Request (calls w); Sleep d] ++ new).
        rewrite total_wait_app.
        change (total_wait [Request (calls w); Sleep d]) with (d + 0)%Z.
        specialize (Hwait ltac:(lia)).
        rewrite Nat2Z.inj_succ, Z.pow_succ_r by lia. lia.
Qed.

(** The categorization of a keyword changes the world as its loop does. *)
Lemma categorize_keyword_world (e : entry) (n : nat) (d : Z) (w : world) :
  (categorize_keyword loads service e n d w).2 = w
  ∨ (categorize_keyword loads service e n d w).2
      = (retry_loop loads service n d w).2.
Proof.
  unfold categorize_keyword.
  destruct (web_search_of e) as [wc|x]; [|by left].
  right. unfold Rt.try_except, mbind, M_bind.
  destruct (retry_loop loads service n d w) as [[[result|]|x] w1]; simpl; try done.
  unfold Rt.lift. by destruct (validate result wc).
Qed.

(** X5: whatever the service does, one categorization sends at most
    [retries] requests and, with a delay that is not negative, sleeps at
    most backoff * (2^retries - 1) seconds; it leaves the sheet alone. *)
Theorem categorize_keyword_is_bounded (e : entry) (retries : nat) (backoff : Z)
    (w : world) :
  let w' := (categorize_keyword loads service e retries backoff w).2 in
  sheet w' = sheet w
  ∧ ∃ new,
      trace w' = trace w ++ new
      ∧ calls w' = calls w + requests new
      ∧ requests new ≤ retries
      ∧ ((0 ≤ backoff)%Z →
         (0 ≤ total_wait new ≤ backoff * (2 ^ Z.of_nat retries - 1))%Z).
Proof.
  cbv zeta.
  destruct (categorize_keyword_world e retries backoff w) as [-> | ->].
  - split; [done|]. exists []. rewrite app_nil_r.
    split; [done|]. split; [simpl; lia|]. split; [simpl; lia|].
    intros Hd. unfold total_wait. simpl.
    assert (0 < 2 ^ Z.of_nat retries)%Z by (apply Z.pow_pos_nonneg; lia).
    nia.
  - apply retry_loop_footprint.
Qed.

(** X6: the two edges of the loop.  With no attempt allowed, nothing is
    sent and the 'Not Relevant' / 'Low' fallback comes back at once.  With
    a negative delay, the first failed attempt is the last: [time.sleep]
    refuses the delay, and its error is turned into the fallback. *)
Theorem categorize_keyword_edges (e : entry) (k : string) (backoff : Z)
    (w : world) (Hkey : e !! "keyword" = Some (JStr k)) :
  categorize_keyword loads service e 0 backoff w
    = (Normal (retries_exhausted (perform_web_search k)), w)
  ∧ (∀ n, (backoff < 0)%Z → attempt_fails loads service (calls w) →
       ∃ r,
         categorize_keyword loads service e (S n) backoff w
           = (Normal r,
              World (S (calls w)) (trace w ++ [Request (calls w)]) (sheet w))
         ∧ category r = JStr "Not Relevant"
         ∧ confidence r = JStr "Low"
         ∧ reasoning r = JStr "Error: sleep length must be non-negative").
Proof.
  split.
  - unfold categorize_keyword, web_search_of. rewrite Hkey. reflexivity.
  - intros n Hneg [x Hx].
    unfold categorize_keyword, web_search_of. rewrite Hkey.
    cbn [retry_loop]. unfold Rt.try_except, mbind, M_bind.
    rewrite attempt_run, Hx. unfold Rt.sleep.
    rewrite (proj2 (Z.ltb_lt backoff 0) Hneg).
    eexists. split; [reflexivity|]. done.
Qed.

End CategorizeMore.

Lemma categorize_keyword_is_bounded_witness :
  ∃ new,
    trace (Categorize.categorize_keyword Samples.sample_loads
             Samples.service_down Samples.neet 3 5 Samples.start).2 = new
    ∧ Trace.requests new ≤ 3
    ∧ (Trace.total_wait new ≤ 35)%Z.
Proof.
  destruct (categorize_keyword_is_bounded Samples.sample_loads
              Samples.service_down Samples.neet 3 5 Samples.start)
    as (_ & new & Htrace & _ & Hreq & Hwait).
  exists new. split; [exact Htrace|]. split; [exact Hreq|].
  apply Hwait. lia.
Defined.

Lemma categorize_keyword_edges_witness :
  Categorize.categorize_keyword Samples.sample_loads Samples.service_down
    Samples.neet 0 5 Samples.start
    = (Normal (Categorize.retries_exhausted
                 (Categorize.perform_web_search "neet result 2024")),
       Samples.start)
  ∧ ∃ r,
      Categorize.categorize_keyword Samples.sample_loads Samples.service_down
        Samples.neet 3 (-5) Samples.start
        = (Normal r, World 1 [Request 0] [])
      ∧ Categorize.reasoning r
          = JStr "Error: sleep length must be non-negative".
Proof.
  destruct (categorize_keyword_edges Samples.sample_loads Samples.service_down
              Samples.neet "neet result 2024" (-5) Samples.start eq_refl)
    as [_ Hneg].
  destruct (categorize_keyword_edges Samples.sample_loads Samples.service_down
              Samples.neet "neet result 2024" 5 Samples.start eq_refl)
    as [Hzero _].
  split; [exact Hzero|].
  destruct (Hneg 2 ltac:(lia) ltac:(by eexists)) as (r & Hrun & _ & _ & Hreason).
  exists r. split; [exact Hrun | exact Hreason].
Defined.

(** ** More on the categorization batch *)

Section BatchMore.

Import Categorize Trace.

Context (loads : string → option json) (service : nat → reply) (now : string).

(** The category of a returned result belongs to the taxonomy. *)
Lemma categorize_keyword_valid (e : entry) (n : nat) (d : Z) (w w' : world)
    (r : ai_result) :
  categorize_keyword loads service e n d w = (Normal r, w') →
  valid_category (category r).
Proof.
  unfold categorize_keyword.
  destruct (web_search_of e) as [wc|x].
  2:{ intros [= <- _]. destruct (on_exception_fallback x "") as [-> _].
      apply not_relevant_valid. }
  unfold Rt.try_except, mbind, M_bind.
  destruct (retry_loop loads service n d w) as [[[result|]|x] w1].
  - unfold Rt.lift. destruct result as [| | | | |fields];
      try (intros [= <- _]; apply not_relevant_valid).
    rewrite validate_object. intros [= <- _]. apply checked_category_valid.
  - intros [= <- _]. apply not_relevant_valid.
  - intros [= <- _]. destruct (on_exception_fallback x wc) as [-> _].
    apply not_relevant_valid.
Qed.

(** A batch either goes through or stops at the first entry that has no
    'keyword' key. *)
Lemma process_batch_outcome (data : list entry) (w : world) :
  (Forall (λ e : entry, is_Some (e !! "keyword")) data
   ∧ ∃ out w', process_batch loads service now data w = (Normal out, w'))
  ∨ (Exists (λ e : entry, e !! "keyword" = None) data
     ∧ ∃ w', process_batch loads service now data w
               = (Raised (KeyError "keyword"), w')).
Proof.
  revert w. induction data as [|e data IH]; intros w.
  - left. split; [apply Forall_nil_2 | by eexists _, _].
  - cbn [process_batch]. unfold mbind, M_bind.
    destruct (e !! "keyword") as [kw|] eqn:Hk.
    2:{ right. split; [by apply Exists_cons_hd | by eexists]. }
    cbn [mret M_ret].
    destruct (categorize_keyword_returns loads service e default_retries
                default_backoff w) as (r & w1 & Hr).
    rewrite Hr, add_delay_run.
    destruct (IH (World (calls w1) (trace w1 ++ [Sleep 1]) (sheet w1)))
      as [[Hall (out & w2 & Hrun)] | [Hex (w2 & Hrun)]]; rewrite Hrun.
    + left. split; [apply Forall_cons; by split; [eexists|] | by eexists _, _].
    + right. split; [by apply Exists_cons_tl | by eexists].
Qed.

(** X7: the categorization batch fails exactly when some entry has no
    'keyword' key, and then with the KeyError of that key; otherwise it
    returns the whole batch. *)
Theorem process_batch_needs_keywords (data : list entry) (w : world) :
  (Forall (λ e : entry, is_Some (e !! "keyword")) data
   ↔ ∃ out w', process_batch loads service now data w = (Normal out, w'))
  ∧ (Exists (λ e : entry, e !! "keyword" = None) data
     ↔ ∃ w', process_batch loads service now data w
               = (Raised (KeyError "keyword"), w')).
Proof.
  destruct (process_batch_outcome data w)
    as [[Hall (out & w' & Hrun)] | [Hex (w' & Hrun)]].
  - split; split; try done.
    + by eexists _, _.
    + intros Hex. exfalso. apply Exists_exists in Hex as (e & Hin & Hnone).
      rewrite Forall_forall in Hall. destruct (Hall e Hin) as [kw Hkw].
      congruence.
    + intros (w2 & Hrun2). congruence.
  - split; split; try done.
    + intros Hall. exfalso. apply Exists_exists in Hex as (e & Hin & Hnone).
      rewrite Forall_forall in Hall. destruct (Hall e Hin) as [kw Hkw].
      congruence.
    + intros (out & w2 & Hrun2). congruence.
    + by eexists.
Qed.

Lemma categorize_keyword_is_bounded_aux (e : entry) (w : world) :
  let w' := (categorize_keyword loads service e default_retries
               default_backoff w).2 in
  sheet w' = sheet w
  ∧ ∃ new, trace w' = trace w ++ new
      ∧ calls w' = calls w + requests new
      ∧ requests new ≤ 3.
Proof.
  cbv zeta.
  destruct (categorize_keyword_world loads service e default_retries
              default_backoff w) as [-> | ->].
  - split; [done|]. exists []. rewrite app_nil_r. simpl. split; [done|]. lia.
  - destruct (retry_loop_footprint loads service default_retries
                default_backoff w) as (Hs & new & Ht & Hc & Hr & _).
    split; [done|]. exists new. done.
Qed.

(** The footprint of a batch: three attempts at most and one pause of
    one second per entry. *)
Lemma process_batch_footprint (data : list entry) (w : world) :
  let w' := (process_batch loads service now data w).2 in
  sheet w' = sheet w
  ∧ ∃ new, trace w' = trace w ++ new
      ∧ calls w' = calls w + requests new
      ∧ requests new ≤ 3 * length data.
Proof.
  cbv zeta. revert w. induction data as [|e data IH]; intros w.
  - simpl. split; [done|]. exists []. rewrite app_nil_r. simpl. split; [done|]. lia.
  - cbn [process_batch]. unfold mbind, M_bind.
    destruct (e !! "keyword") as [kw|].
    2:{ simpl. split; [done|]. exists []. rewrite app_nil_r. simpl.
        split; [done|]. lia. }
    cbn [mret M_ret].
    pose proof (categorize_keyword_is_bounded_aux e w) as Hb.
    destruct (categorize_keyword_returns loads service e default_retries
                default_backoff w) as (r & w1 & Hr).
    rewrite Hr in Hb |- *. cbv zeta in Hb.
    rewrite add_delay_run.
    destruct Hb as (Hs1 & new1 & Ht1 & Hc1 & Hr1). cbn [snd] in *.
    destruct (IH (World (calls w1) (trace w1 ++ [Sleep 1]) (sheet w1)))
      as (Hs2 & new2 & Ht2 & Hc2 & Hr2).
    destruct (process_batch loads service now data _) as [[out|x] w2];
      cbn [snd calls trace sheet] in *.
    all: cbn [mret M_ret snd].
    all: split; [by rewrite Hs2|].
    all: exists (new1 ++ Sleep 1 :: new2).
    all: split; [rewrite Ht2, Ht1, <- !app_assoc; done|].
    all: rewrite requests_app; simpl; split; lia.
Qed.

(** The i-th output carries the result of a categorization of the i-th
    input. *)
Lemma process_batch_lookup_result (data out : list entry) (w w' : world)
    (i : nat) (e : entry) :
  process_batch loads service now data w = (Normal out, w') →
  data !! i = Some e →
  ∃ r w1 w2,
    categorize_keyword loads service e default_retries default_backoff w1
      = (Normal r, w2)
    ∧ out !! i = Some (update_entry now e r).
Proof.
  revert out w i. induction data as [|e0 data IH]; intros out w i Hrun Hi; [done|].
  cbn [process_batch] in Hrun. unfold mbind, M_bind in Hrun.
  destruct (e0 !! "keyword"); [|done]. cbn [mret M_ret] in Hrun.
  destruct (categorize_keyword loads service e0 default_retries default_backoff w)
    as [[r|] w1] eqn:Hcat; [|done].
  rewrite add_delay_run in Hrun.
  destruct (process_batch loads service now data _) as [[rest|] w2] eqn:Hrest;
    [|done].
  injection Hrun as <- <-.
  destruct i as [|i]; simpl in *.
  - injection Hi as <-. eauto.
  - by eapply IH.
Qed.

(** X8: a batch that goes through returns one entry per input entry, in
    order; it writes the six fields of the categorization and leaves
    every other column, the keyword included, as it was; the category it
    writes is one of the four of the taxonomy, whatever category the
    entry carried before; and it sends at most three requests per
    entry. *)
Theorem process_batch_keeps_columns (data out : list entry) (w w' : world)
    (Hrun : process_batch loads service now data w = (Normal out, w')) :
  length out = length data
  ∧ (∀ i e, data !! i = Some e →
       ∃ e', out !! i = Some e'
         ∧ (∀ col, col ∉ ["category"; "ai_confidence"; "ai_reasoning";
                          "web_search_summary"; "categorized_at"; "status"] →
              e' !! col = e !! col)
         ∧ ∃ c, e' !! "category" = Some c ∧ valid_category c)
  ∧ calls w ≤ calls w' ≤ calls w + 3 * length data.
Proof.
  split; [by eapply process_batch_length|]. split.
  - intros i e Hi.
    destruct (process_batch_lookup_result _ _ _ _ _ _ Hrun Hi)
      as (r & w1 & w2 & Hcat & Hout).
    eexists. split; [exact Hout|]. split.
    + intros col Hcol. unfold update_entry.
      rewrite !not_elem_of_cons in Hcol.
      destruct Hcol as (? & ? & ? & ? & ? & ? & _).
      by rewrite !lookup_insert_ne by done.
    + exists (category r). split.
      * unfold update_entry. rewrite !lookup_insert_ne by done.
        apply lookup_insert_eq.
      * by eapply categorize_keyword_valid.
  - pose proof (process_batch_footprint data w) as Hf. cbv zeta in Hf.
    rewrite Hrun in Hf. destruct Hf as (_ & new & _ & Hc & Hr).
    cbn [snd] in *. lia.
Qed.

(** The outcomes of a run of phase 2. *)
Lemma categorization_run_cases (file : option (list entry)) (w : world) :
  ∃ flag saved w',
    run loads service now file w = (Normal (flag, saved), w')
    ∧ (flag = true ↔
         ∃ data, file = Some data ∧ data ≠ []
                 ∧ Forall (λ e : entry, is_Some (e !! "keyword")) data)
    ∧ (flag = true →
         ∃ data out, file = Some data ∧ saved = Some out
                     ∧ length out = length data)
    ∧ (flag = false → saved = None).
Proof.
  unfold run, Rt.try_except.
  destruct file as [[|e data]|].
  - eexists _, _, _. split; [reflexivity|].
    split; [split; [done | by intros (d & [= <-] & Hne & _)]|]. by split.
  - unfold mbind, M_bind.
    destruct (process_batch_outcome (e :: data) w)
      as [[Hall (out & w' & Hrun)] | [Hex (w' & Hrun)]]; rewrite Hrun.
    + pose proof (process_batch_length _ _ _ _ _ _ _ Hrun) as Hlen.
      destruct out as [|o out]; [done|].
      eexists _, _, _. split; [reflexivity|].
      split; [split; [intros _; by exists (e :: data) | done]|].
      split; [intros _; by exists (e :: data), (o :: out) | done].
    + eexists _, _, _. split; [reflexivity|].
      split; [|by split].
      split; [done|]. intros (d & [= <-] & _ & Hall). exfalso.
      apply Exists_exists in Hex as (e1 & Hin & Hnone).
      rewrite Forall_forall in Hall. destruct (Hall e1 Hin). congruence.
  - eexists _, _, _. split; [reflexivity|].
    split; [split; [done | by intros (d & ? & _)]|]. by split.
Qed.

(** X9: phase 2 reports success exactly when the phase-1 file exists,
    has at least one row and every row has a keyword; it then saves one
    categorized row per input row.  In every other case it reports
    failure and saves nothing; it never raises. *)
Theorem categorization_run_succeeds_iff (file : option (list entry)) (w : world) :
  ∃ flag saved w',
    run loads service now file w = (Normal (flag, saved), w')
    ∧ (flag = true ↔
         ∃ data, file = Some data ∧ data ≠ []
                 ∧ Forall (λ e : entry, is_Some (e !! "keyword")) data)
    ∧ (flag = true →
         ∃ data out, file = Some data ∧ saved = Some out
                     ∧ length out = length data)
    ∧ (flag = false → saved = None).
Proof.
  exact (categorization_run_cases file w).
Qed.

End BatchMore.

Lemma process_batch_needs_keywords_witness :
  (∃ out w', Categorize.process_batch Samples.sample_loads
               Samples.service_banana Samples.noon [Samples.neet] Samples.start
             = (Normal out, w'))
  ∧ ∃ w', Categorize.process_batch Samples.sample_loads
            Samples.service_banana Samples.noon [Samples.neet; ∅] Samples.start
          = (Raised (KeyError "keyword"), w').
Proof.
  split.
  - apply (process_batch_needs_keywords Samples.sample_loads
             Samples.service_banana Samples.noon [Samples.neet] Samples.start).
    apply neet_has_keyword.
  - apply (process_batch_needs_keywords Samples.sample_loads
             Samples.service_banana Samples.noon [Samples.neet; ∅]
             Samples.start).
    apply Exists_cons_tl, Exists_cons_hd. apply lookup_empty.
Defined.

Lemma process_batch_keeps_columns_witness :
  ∃ out w' e',
    Categorize.process_batch Samples.sample_loads Samples.service_banana
      Samples.noon [Samples.neet] Samples.start = (Normal out, w')
    ∧ out !! 0 = Some e'
    ∧ e' !! "keyword" = Some (JStr "neet result 2024")
    ∧ e' !! "interest_score" = Some (JNum 92)
    ∧ calls w' ≤ 3.
Proof.
  destruct (process_batch_returns Samples.sample_loads Samples.service_banana
              Samples.noon [Samples.neet] Samples.start neet_has_keyword)
    as (out & w' & Hrun).
  destruct (process_batch_keeps_columns Samples.sample_loads
              Samples.service_banana Samples.noon _ _ _ _ Hrun)
    as (_ & Hcols & Hcalls).
  destruct (Hcols 0 Samples.neet eq_refl) as (e' & He' & Hkeep & _).
  exists out, w', e'. split; [exact Hrun|]. split; [exact He'|].
  split; [|split].
  - rewrite Hkeep; [apply lookup_insert_eq|].
    intros H. repeat (apply elem_of_cons in H as [H|H]; [discriminate|]).
    by apply elem_of_nil in H.
  - rewrite Hkeep; [vm_compute; reflexivity|].
    intros H. repeat (apply elem_of_cons in H as [H|H]; [discriminate|]).
    by apply elem_of_nil in H.
  - simpl in Hcalls. lia.
Defined.

Lemma categorization_run_succeeds_iff_witness :
  ∃ saved w',
    Categorize.run Samples.sample_loads Samples.service_banana Samples.noon
      (Some [Samples.neet]) Samples.start = (Normal (true, saved), w')
    ∧ ∃ out, saved = Some out ∧ length out = 1.
Proof.
  destruct (categorization_run_succeeds_iff Samples.sample_loads
              Samples.service_banana Samples.noon (Some [Samples.neet])
              Samples.start) as (flag & saved & w' & Hrun & Hiff & Hsaved & _).
  assert (flag = true) as ->.
  { apply Hiff. exists [Samples.neet]. split; [done|]. split; [done|].
    apply neet_has_keyword. }
  exists saved, w'. split; [exact Hrun|].
  destruct (Hsaved eq_refl) as (data & out & [= <-] & -> & Hlen).
  by exists out.
Defined.

(** ** More on content generation *)

Section ContentMore.

Import Content Trace.

Context (loads : string → option json) (service : nat → reply) (now : string).

Lemma eligible_has_status (e : entry) :
  eligible e = true → Rt.field_is e "status" Settings.STATUS_RUN_GPT = true.
Proof. unfold eligible. by intros [? _]%andb_true_iff. Qed.

(** How [generate_content_for_keyword] ends, case by case. *)
Lemma generate_content_cases (e : entry) (w : world) :
  (eligible e = false
   ∧ generate_content_for_keyword loads service now e w = (Normal None, w))
  ∨ (eligible e = true ∧ e !! "keyword" = None
     ∧ generate_content_for_keyword loads service now e w
         = (Raised (KeyError "keyword"), w))
  ∨ (eligible e = true
     ∧ ∃ gc, generate_content_for_keyword loads service now e w
               = (Normal (Some gc),
                  World (calls w + 4)
                    (trace w ++ slots_trace loads service (calls w) 4)
                    (sheet w))).
Proof.
  destruct (eligible e) eqn:Hel.
  - right. destruct (e !! "keyword") as [kw|] eqn:Hk.
    + right. split; [done|]. eexists.
      by apply generate_content_eligible.
    + left. split; [done|]. split; [done|].
      unfold generate_content_for_keyword.
      unfold eligible in Hel. apply andb_true_iff in Hel as [Hs Hc].
      apply negb_true_iff in Hc. by rewrite Hs, Hc, Hk.
  - left. split; [done|]. by apply generate_content_skipped.
Qed.

Lemma generate_all_count (approved generated : list entry) (w w' : world) :
  generate_all loads service now approved w = (Normal generated, w') →
  length generated = length (List.filter eligible approved)
  ∧ calls w' = calls w + 4 * length generated
  ∧ sheet w' = sheet w.
Proof.
  revert generated w. induction approved as [|e approved IH]; intros generated w Hrun.
  - injection Hrun as <- <-. simpl. split; [done|]. split; [lia | done].
  - cbn [generate_all] in Hrun. unfold mbind, M_bind in Hrun.
    cbn [List.filter].
    destruct (generate_content_cases e w)
      as [[Hel Hgen] | [(Hel & Hk & Hgen) | (Hel & gc & Hgen)]];
      rewrite Hgen in Hrun; rewrite Hel; [| done |].
    + destruct (generate_all loads service now approved w)
        as [[rest|] w2] eqn:Hrest; [|done].
      injection Hrun as <- <-. by apply IH.
    + destruct (generate_all loads service now approved _)
        as [[rest|] w2] eqn:Hrest; [|done].
      injection Hrun as <- <-.
      destruct (IH _ _ Hrest) as (Hlen & Hcalls & Hsheet).
      cbn [calls sheet length] in *. split; [lia|]. split; [lia | done].
Qed.

Lemma filter_eligible_approved (data : list entry) :
  List.filter eligible
    (List.filter (λ e, Rt.field_is e "status" Settings.STATUS_RUN_GPT) data)
  = List.filter eligible data.
Proof.
  induction data as [|e data IH]; [done|]. cbn [List.filter].
  destruct (Rt.field_is e "status" Settings.STATUS_RUN_GPT) eqn:Hs.
  - cbn [List.filter]. by rewrite IH.
  - rewrite IH. unfold eligible at 2. by rewrite Hs.
Qed.

(** An eligible entry without a keyword stops the loop. *)
Lemma generate_all_missing_keyword (approved : list entry) (w : world) :
  Exists (λ e : entry, eligible e = true ∧ e !! "keyword" = None) approved →
  ∃ w', generate_all loads service now approved w
          = (Raised (KeyError "keyword"), w').
Proof.
  revert w. induction approved as [|e approved IH]; intros w Hex.
  - by apply Exists_nil in Hex.
  - cbn [generate_all]. unfold mbind, M_bind.
    destruct (generate_content_cases e w)
      as [[Hel Hgen] | [(Hel & Hk & Hgen) | (Hel & gc & Hgen)]];
      rewrite Hgen; [| by eexists |].
    + apply Exists_cons in Hex as [[Hel' _] | Hex]; [congruence|].
      destruct (IH w Hex) as [w' ->]. by eexists.
    + apply Exists_cons in Hex as [[_ Hk] | Hex].
      * unfold generate_content_for_keyword in Hgen.
        unfold eligible in Hel. apply andb_true_iff in Hel as [Hs Hcat].
        apply negb_true_iff in Hcat. by rewrite Hs, Hcat, Hk in Hgen.
      * destruct (IH (World (calls w + 4)
                        (trace w ++ slots_trace loads service (calls w) 4)
                        (sheet w)) Hex) as [w' ->].
        by eexists.
Qed.

(** The count of requests, and the case of no approved entry. *)
Lemma content_requests_are_counted_aux (data : list entry) (w : world) :
  (∀ generated w',
     process_approved_entries loads service now data w = (Normal generated, w') →
     length generated = length (List.filter eligible data)
     ∧ calls w' = calls w + 4 * length generated
     ∧ sheet w' = sheet w)
  ∧ (Forall (λ e : entry, Rt.field_is e "status" "Run GPT" = false) data →
     process_approved_entries loads service now data w = (Normal [], w)).
Proof.
  split.
  - intros generated w' Hrun. unfold process_approved_entries in Hrun.
    rewrite <- filter_eligible_approved.
    destruct (List.filter _ data) as [|a approved] eqn:Hf.
    + injection Hrun as <- <-. simpl. split; [done|]. split; [lia | done].
    + by apply generate_all_count.
  - intros Hnone. unfold process_approved_entries.
    replace (List.filter _ data) with (@nil entry); [done|].
    symmetry. induction Hnone as [|e data He _ IH]; [done|].
    cbn [List.filter]. change Settings.STATUS_RUN_GPT with "Run GPT".
    by rewrite He.
Qed.

(** X10: content generation sends exactly four requests for every entry
    that is at 'Run GPT' with a category other than 'Not Relevant', and
    none for any other entry; it returns one content map per such entry.
    With no entry at 'Run GPT' it returns the empty list and does
    nothing.  An entry of that kind without a 'keyword' key makes it fail
    with a KeyError. *)
Theorem content_requests_are_counted (data : list entry) (w : world) :
  (∀ generated w',
     process_approved_entries loads service now data w = (Normal generated, w') →
     length generated = length (List.filter eligible data)
     ∧ calls w' = calls w + 4 * length generated
     ∧ sheet w' = sheet w)
  ∧ (Forall (λ e : entry, Rt.field_is e "status" "Run GPT" = false) data →
     process_approved_entries loads service now data w = (Normal [], w))
  ∧ (Exists (λ e : entry, eligible e = true ∧ e !! "keyword" = None) data →
     ∃ w', process_approved_entries loads service now data w
             = (Raised (KeyError "keyword"), w')).
Proof.
  destruct (content_requests_are_counted_aux data w) as [Hcount Hnone].
  split; [exact Hcount|]. split; [exact Hnone|]. clear Hcount Hnone.
  intros Hex. unfold process_approved_entries.
    assert (Hex' : Exists (λ e : entry, eligible e = true ∧ e !! "keyword" = None)
              (List.filter (λ e, Rt.field_is e "status" Settings.STATUS_RUN_GPT)
                 data)).
    { apply Exists_exists in Hex as (e & Hin & Hel & Hk).
      apply Exists_exists. exists e. split; [|done].
      apply list_elem_of_In, filter_In. split; [by apply list_elem_of_In|].
      by apply eligible_has_status. }
  destruct (List.filter (λ e, Rt.field_is e "status" Settings.STATUS_RUN_GPT)
              data) as [|a approved].
  - by apply Exists_nil in Hex'.
  - by apply generate_all_missing_keyword.
Qed.

End ContentMore.

Lemma content_requests_are_counted_witness :
  (∃ generated w',
     Content.process_approved_entries Samples.sample_loads
       Samples.service_blog_down Samples.noon
       [Samples.neet; Samples.neet_approved] Samples.start
       = (Normal generated, w')
     ∧ length generated = 1 ∧ calls w' = 4)
  ∧ Content.process_approved_entries Samples.sample_loads
      Samples.service_blog_down Samples.noon [Samples.neet] Samples.start
      = (Normal [], Samples.start)
  ∧ ∃ w', Content.process_approved_entries Samples.sample_loads
            Samples.service_blog_down Samples.noon
            [<["status" := JStr "Run GPT"]> ∅] Samples.start
          = (Raised (KeyError "keyword"), w').
Proof.
  split; [|split].
  - destruct (Content.process_approved_entries Samples.sample_loads
                Samples.service_blog_down Samples.noon
                [Samples.neet; Samples.neet_approved] Samples.start)
      as [[generated|x] w'] eqn:Hrun.
    + destruct (content_requests_are_counted Samples.sample_loads
                  Samples.service_blog_down Samples.noon
                  [Samples.neet; Samples.neet_approved] Samples.start)
        as (Hcount & _ & _).
      destruct (Hcount generated w' Hrun) as (Hlen & Hcalls & _).
      exists generated, w'. split; [done|].
      assert (length generated = 1) as Hone
        by (rewrite Hlen; vm_compute; reflexivity).
      split; [exact Hone|]. rewrite Hcalls, Hone. reflexivity.
    + exfalso. unfold Content.process_approved_entries in Hrun.
      assert (Hf : List.filter
                (λ e : entry, Rt.field_is e "status" Settings.STATUS_RUN_GPT)
                [Samples.neet; Samples.neet_approved] = [Samples.neet_approved]).
      { cbn [List.filter].
        replace (Rt.field_is Samples.neet "status" Settings.STATUS_RUN_GPT)
          with false by (vm_compute; reflexivity).
        replace (Rt.field_is Samples.neet_approved "status"
                   Settings.STATUS_RUN_GPT)
          with true by (vm_compute; reflexivity).
        reflexivity. }
      rewrite Hf in Hrun. cbn [Content.generate_all] in Hrun.
      unfold mbind, M_bind in Hrun.
      rewrite (generate_content_eligible Samples.sample_loads
                 Samples.service_blog_down Samples.noon Samples.neet_approved
                 _ Samples.start neet_approved_eligible neet_approved_keyword)
        in Hrun.
      discriminate Hrun.
  - apply (content_requests_are_counted Samples.sample_loads
             Samples.service_blog_down Samples.noon [Samples.neet]
             Samples.start).
    apply Forall_cons. split; [vm_compute; reflexivity | apply Forall_nil_2].
  - apply (content_requests_are_counted Samples.sample_loads
             Samples.service_blog_down Samples.noon
             [<["status" := JStr "Run GPT"]> ∅] Samples.start).
    apply Exists_cons_hd. split; vm_compute; reflexivity.
Defined.

(** ** More on the merge of the generated content *)

Section MergeMore.

Import Content.

Context (loads : string → option json) (service : nat → reply) (now : string).

Implicit Types (keys : list json) (data generated updated : list entry)
  (e : entry).

(** The merge writes six columns at most. *)
Lemma link_entry_other_columns keys e e' (col : string) :
  link_entry now keys e = Normal e' →
  col ∉ ["status"; "content_generated_at"; "instagram_link"; "blog_link";
         "youtube_reel_link"; "youtube_thumbnail_link"] →
  e' !! col = e !! col.
Proof.
  intros Hlink Hcol. rewrite !not_elem_of_cons in Hcol.
  destruct Hcol as (? & ? & ? & ? & ? & ? & _).
  unfold link_entry in Hlink.
  destruct (e !! "keyword") as [key|]; [|done].
  destruct (negb (hashable key)); [done|].
  destruct (existsb (Rt.eq_cell key) keys); [|by injection Hlink as <-].
  destruct key; try done. injection Hlink as <-.
  rewrite !lookup_insert_ne by done.
  destruct (Rt.field_is e "category" Settings.CATEGORY_NOT_RELEVANT);
    by rewrite lookup_insert_ne.
Qed.

Lemma existsb_eq_cell_absent keys (k : string) :
  JStr k ∉ keys → existsb (Rt.eq_cell (JStr k)) keys = false.
Proof.
  intros Hnot. destruct (existsb _ keys) eqn:Hex; [|done].
  by apply existsb_eq_cell_text in Hex.
Qed.

(** X11: the merge returns one entry per input entry, in order; it
    writes the status, the time stamp and the four links and no other
    column; an entry whose keyword has no generated content is handed on
    exactly as it was; and with no generated content at all the batch
    comes back unchanged. *)
Theorem merge_keeps_rows data generated updated
    (Hrun : update_original_data_with_content_links now data generated
              = Normal updated) :
  length updated = length data
  ∧ (∀ i e e', data !! i = Some e → updated !! i = Some e' →
       (∀ col, col ∉ ["status"; "content_generated_at"; "instagram_link";
                      "blog_link"; "youtube_reel_link";
                      "youtube_thumbnail_link"] →
          e' !! col = e !! col)
       ∧ (∀ k, e !! "keyword" = Some (JStr k) →
            (∀ gc, gc ∈ generated → gc !! "keyword" ≠ Some (JStr k)) →
            e' = e))
  ∧ (generated = [] → updated = data).
Proof.
  unfold update_original_data_with_content_links in Hrun.
  destruct (content_map_keys generated) as [keys|] eqn:Hkeys; [|done].
  simpl in Hrun.
  split; [by eapply link_entries_length|]. split.
  - intros i e e' Hi Hi'.
    destruct (link_entries_lookup now _ _ _ _ _ Hrun Hi) as (e1 & He1 & Hlink).
    rewrite Hi' in He1. injection He1 as <-. split.
    + intros col Hcol. by eapply link_entry_other_columns.
    + intros k Hk Hnone. eapply link_entry_miss; [exact Hk | | exact Hlink].
      apply existsb_eq_cell_absent. intros Hin.
      destruct (content_map_keys_inv _ _ _ Hkeys Hin) as (gc & Hgc & Hgk).
      by apply (Hnone gc).
  - intros ->. injection Hkeys as <-.
    apply list_eq. intros i.
    destruct (data !! i) as [e|] eqn:Hi.
    + destruct (link_entries_lookup now _ _ _ _ _ Hrun Hi) as (e1 & He1 & Hlink).
      rewrite He1. f_equal. unfold link_entry in Hlink.
      destruct (e !! "keyword") as [key|]; [|done].
      destruct (negb (hashable key)); [done|]. simpl in Hlink.
      by injection Hlink as <-.
    + apply lookup_ge_None. apply lookup_ge_None in Hi.
      by rewrite (link_entries_length now _ _ _ Hrun).
Qed.

Lemma prefix_space (s : string) :
  String.prefix " " s = true → ∃ r, s = String " " r.
Proof.
  destruct s as [|c r]; [done|]. cbn [String.prefix].
  destruct (ascii_dec " " c) as [<-|]; [eauto | done].
Qed.

(** A slug has no space. *)
Lemma slug_has_no_space (k : string) :
  Py.contains (Py.replace_char " " "_" k) " " = false.
Proof.
  induction k as [|c k IH]; [done|].
  cbn [Py.replace_char Py.contains]. rewrite IH, orb_false_r.
  destruct (String.prefix " " (String (if Ascii.eqb c " " then "_"%char else c)
                                 (Py.replace_char " " "_" k))) eqn:Hp; [|done].
  apply prefix_space in Hp as [r [= Hc _]].
  destruct (Ascii.eqb_spec c " "); [discriminate | congruence].
Qed.

Lemma slug_length (k : string) :
  String.length (Py.replace_char " " "_" k) = String.length k.
Proof. induction k as [|c k IH]; simpl; [done | by rewrite IH]. Qed.

(** X12: the four links the merge writes are made of the fixed base
    address, the kind of artifact and the keyword with every space
    replaced by an underscore; the slug has the length of the keyword and
    no space, and the entry gets the time of the merge as
    'content_generated_at'. *)
Theorem links_are_derived_from_keyword keys e (k : string)
    (Hkey : e !! "keyword" = Some (JStr k))
    (Hhit : existsb (Rt.eq_cell (JStr k)) keys = true) :
  let slug := Py.replace_char " " "_" k in
  Py.contains slug " " = false
  ∧ String.length slug = String.length k
  ∧ ∃ e', link_entry now keys e = Normal e'
      ∧ e' !! "instagram_link"
          = Some (JStr (base_url ++ "/instagram_" ++ slug ++ ".txt")%string)
      ∧ e' !! "blog_link"
          = Some (JStr (base_url ++ "/blog_" ++ slug ++ ".html")%string)
      ∧ e' !! "youtube_reel_link"
          = Some (JStr (base_url ++ "/reel_" ++ slug ++ ".txt")%string)
      ∧ e' !! "youtube_thumbnail_link"
          = Some (JStr (base_url ++ "/thumbnail_" ++ slug ++ ".png")%string)
      ∧ e' !! "content_generated_at" = Some (JStr now).
Proof.
  cbv zeta. split; [apply slug_has_no_space|]. split; [apply slug_length|].
  unfold link_entry. rewrite Hkey. cbn [hashable negb]. rewrite Hhit.
  eexists. split; [reflexivity|].
  split. { rewrite !lookup_insert_ne by done. apply lookup_insert_eq. }
  split. { rewrite !lookup_insert_ne by done. apply lookup_insert_eq. }
  split. { rewrite !lookup_insert_ne by done. apply lookup_insert_eq. }
  split. { apply lookup_insert_eq. }
  rewrite !lookup_insert_ne by done. apply lookup_insert_eq.
Qed.

End MergeMore.

Lemma merge_keeps_rows_witness :
  ∃ gc e',
    Content.update_original_data_with_content_links Samples.noon
      [Samples.neet_approved] [gc] = Normal [e']
    ∧ e' !! "keyword" = Some (JStr "neet result 2024")
    ∧ e' !! "category" = Some (JStr "Result").
Proof.
  destruct (process_approved_single Samples.sample_loads
              Samples.service_blog_down Samples.noon Samples.neet_approved _
              Samples.start neet_approved_eligible neet_approved_keyword)
    as (gc & _ & Hgk & _).
  destruct (update_single Samples.noon Samples.neet_approved gc
              "neet result 2024" neet_approved_keyword Hgk) as (e' & Hupd & _).
  destruct (merge_keeps_rows Samples.noon _ _ _ Hupd) as (_ & Hrows & _).
  destruct (Hrows 0 Samples.neet_approved e' eq_refl eq_refl) as [Hcols _].
  exists gc, e'. split; [exact Hupd|]. split.
  - rewrite Hcols; [exact neet_approved_keyword|].
    intros H. repeat (apply elem_of_cons in H as [H|H]; [discriminate|]).
    by apply elem_of_nil in H.
  - rewrite Hcols; [vm_compute; reflexivity|].
    intros H. repeat (apply elem_of_cons in H as [H|H]; [discriminate|]).
    by apply elem_of_nil in H.
Defined.

Lemma links_are_derived_from_keyword_witness :
  ∃ e',
    Content.link_entry Samples.noon [JStr "neet result 2024"]
      Samples.neet_approved = Normal e'
    ∧ e' !! "blog_link"
        = Some (JStr "https://your-public-host.com/ai-content/blog_neet_result_2024.html").
Proof.
  destruct (links_are_derived_from_keyword Samples.noon
              [JStr "neet result 2024"] Samples.neet_approved
              "neet result 2024" neet_approved_keyword eq_refl)
    as (_ & _ & e' & Hlink & _ & Hblog & _).
  exists e'. split; [exact Hlink | exact Hblog].
Defined.

(** ** The run of phase 3 *)

Section ContentRun.

Import Content.

Context (loads : string → option json) (service : nat → reply) (now : string).

(** X13: phase 3 never raises.  It reports failure, writes no file and
    sends no request when the approved file is missing or has no entry
    at 'Run GPT'.  When it reports success it has generated content for
    at least one entry, with four requests each, and it has saved an
    updated table with one row per row of the approved file; the updated
    table is written in no other case. *)
Theorem content_run_outcomes (file : option (list entry)) (w : world) :
  ∃ r w',
    run loads service now file w = (Normal r, w')
    ∧ (file = None
       ∨ (∃ data, file = Some data
            ∧ Forall (λ e : entry, Rt.field_is e "status" "Run GPT" = false) data)
       → r = RunResult false None None None ∧ w' = w)
    ∧ (success r = true →
         ∃ data generated updated,
           file = Some data
           ∧ generated_content_json r = Some generated
           ∧ generated ≠ []
           ∧ length generated = length (List.filter eligible data)
           ∧ calls w' = calls w + 4 * length generated
           ∧ updated_trends_data_csv r = Some updated
           ∧ length updated = length data)
    ∧ (success r = false → updated_trends_data_csv r = None).
Proof.
  unfold run. destruct file as [data|].
  2:{ eexists _, _. split; [reflexivity|]. split; [done|]. by split. }
  destruct (content_requests_are_counted_aux loads service now data w)
    as (Hcount & Hnone).
  destruct (process_approved_entries loads service now data w)
    as [[generated|x] w'] eqn:Hgen.
  - destruct generated as [|g generated].
    { eexists _, _. split; [reflexivity|].
      split; [|by split].
      intros [? | (d & [= <-] & Hall)]; [done|].
      specialize (Hnone Hall). by injection Hnone as <-. }
    destruct (summarize_all (g :: generated)) as [summary|y].
    2:{ eexists _, _. split; [reflexivity|]. split; [|by split].
        intros [? | (d & [= <-] & Hall)]; [done|].
        specialize (Hnone Hall). discriminate Hnone. }
    destruct (update_original_data_with_content_links now data (g :: generated))
      as [updated|y] eqn:Hupd.
    2:{ eexists _, _. split; [reflexivity|]. split; [|by split].
        intros [? | (d & [= <-] & Hall)]; [done|].
        specialize (Hnone Hall). discriminate Hnone. }
    eexists _, _. split; [reflexivity|]. split; [|split; [|done]].
    + intros [? | (d & [= <-] & Hall)]; [done|].
      specialize (Hnone Hall). discriminate Hnone.
    + intros _. destruct (Hcount _ _ eq_refl) as (Hlen & Hcalls & _).
      exists data, (g :: generated), updated.
      repeat (split; [done|]).
      unfold update_original_data_with_content_links in Hupd.
      destruct (content_map_keys (g :: generated)) as [keys|]; [|done].
      by eapply link_entries_length.
  - eexists _, _. split; [reflexivity|]. split; [|by split].
    intros [? | (d & [= <-] & Hall)]; [done|].
    specialize (Hnone Hall). discriminate Hnone.
Qed.

End ContentRun.

Section ContentRunSample.

Import Content.

Context (loads : string → option json) (service : nat → reply) (now : string).

(** The fixed fields and the slots of the content map of one eligible
    entry. *)
Lemma process_approved_single_fields (e : entry) (keyword : json) (w : world) :
  eligible e = true → e !! "keyword" = Some keyword →
  ∃ gc,
    process_approved_entries loads service now [e] w =
      (Normal [gc],
       World (calls w + 4) (trace w ++ slots_trace loads service (calls w) 4)
         (sheet w))
    ∧ gc !! "keyword" = Some keyword
    ∧ gc !! "category" = Some (default JNull (e !! "category"))
    ∧ gc !! "generated_at" = Some (JStr now)
    ∧ ∀ i t, content_types !! i = Some t →
        gc !! t = Some (slot_value loads (service (calls w + i))).
Proof.
  intros Hel Hk. eexists. split; [|split; [|split; [|split]]].
  - unfold process_approved_entries. cbn [List.filter].
    rewrite (eligible_has_status e Hel).
    cbn [generate_all]. unfold mbind, M_bind.
    by rewrite (generate_content_eligible loads service now e keyword w Hel Hk).
  - rewrite fill_slots_other.
    + do 3 (rewrite lookup_insert_ne by done). apply lookup_insert_eq.
    + unfold content_types. intros H.
      repeat (apply elem_of_cons in H as [H|H]; [discriminate|]).
      by apply elem_of_nil in H.
  - rewrite fill_slots_other.
    + do 2 (rewrite lookup_insert_ne by done). apply lookup_insert_eq.
    + unfold content_types. intros H.
      repeat (apply elem_of_cons in H as [H|H]; [discriminate|]).
      by apply elem_of_nil in H.
  - rewrite fill_slots_other.
    + apply lookup_insert_eq.
    + unfold content_types. intros H.
      repeat (apply elem_of_cons in H as [H|H]; [discriminate|]).
      by apply elem_of_nil in H.
  - intros i t Ht. by apply fill_slots_lookup; [apply content_types_NoDup|].
Qed.

End ContentRunSample.

Lemma content_run_outcomes_witness :
  Content.run Samples.sample_loads Samples.service_blog_down Samples.noon
    (Some [Samples.neet]) Samples.start
    = (Normal (Content.RunResult false None None None), Samples.start)
  ∧ ∃ r w' updated,
      Content.run Samples.sample_loads Samples.service_blog_down Samples.noon
        (Some [Samples.neet_approved]) Samples.start = (Normal r, w')
      ∧ Content.success r = true
      ∧ calls w' = 4
      ∧ Content.updated_trends_data_csv r = Some updated
      ∧ length updated = 1.
Proof.
  split.
  - destruct (content_run_outcomes Samples.sample_loads
                Samples.service_blog_down Samples.noon (Some [Samples.neet])
                Samples.start) as (r & w' & Hrun & Hnone & _).
    destruct Hnone as [-> ->]; [|exact Hrun].
    right. exists [Samples.neet]. split; [done|].
    apply Forall_cons. split; [vm_compute; reflexivity | apply Forall_nil_2].
  - destruct (content_run_outcomes Samples.sample_loads
                Samples.service_blog_down Samples.noon
                (Some [Samples.neet_approved]) Samples.start)
      as (r & w' & Hrun & _ & Hok & _).
    assert (Hs : Content.success r = true).
    { destruct (process_approved_single_fields Samples.sample_loads
                  Samples.service_blog_down Samples.noon Samples.neet_approved
                  _ Samples.start neet_approved_eligible neet_approved_keyword)
        as (gc & Hgen & Hgk & Hgcat & Hgat & Hslots).
      destruct (update_single Samples.noon Samples.neet_approved gc
                  "neet result 2024" neet_approved_keyword Hgk)
        as (e' & Hupd & _).
      unfold Content.run in Hrun. rewrite Hgen in Hrun.
      cbn [Content.summarize_all] in Hrun. unfold Content.summarize in Hrun.
      unfold Content.item in Hrun.
      rewrite Hgk, Hgcat, Hgat,
        (Hslots 0 "instagram_post" eq_refl),
        (Hslots 1 "blog_article" eq_refl) in Hrun.
      vm_compute Rt.bind_o in Hrun. rewrite Hupd in Hrun.
      by injection Hrun as <- _. }
    destruct (Hok Hs) as (data & generated & updated & [= <-] & Hg & Hne
                          & Hlen & Hcalls & Hu & Hlu).
    exists r, w', updated. split; [exact Hrun|]. split; [exact Hs|].
    assert (length generated = 1) as Hone
      by (rewrite Hlen; vm_compute; reflexivity).
    split; [rewrite Hcalls, Hone; reflexivity|].
    split; [exact Hu | exact Hlu].
Defined.

(** ** More on the publish stage *)

Section PublishMore.

Import Publish Trace.

Implicit Types (row : entry) (rows : list entry) (w : world).

Lemma text_items_no_link row :
  (∀ link, row !! "Blog Link" ≠ Some (JStr link)) →
  text_items [row !! "Blog Link"]
    = Raised (TypeError "sequence item: expected str instance").
Proof.
  intros Hno. destruct (row !! "Blog Link") as [[| | |link| |]|]; try done.
  by destruct (Hno link).
Qed.

(** The loop up to the first row to publish whose 'Blog Link' cell holds
    no text. *)
Lemma publish_rows_stops (pre post before : list entry) row w :
  sheet w = before ++ pre ++ row :: post →
  Forall (λ row, due row = true → has_blog_link row) pre →
  due row = true →
  (∀ link, row !! "Blog Link" ≠ Some (JStr link)) →
  publish_rows (2 + length before) (pre ++ row :: post) w =
    (Raised (TypeError "sequence item: expected str instance"),
     World (calls w)
       (trace w ++ flat_map publish_events (List.filter due pre)
          ++ [MockInstagram (preview "Sample caption with #hashtag")
                (row !! "Instagram Link")])
       (before
          ++ map (λ row, if due row then mark_published row else row) pre
          ++ row :: post)).
Proof.
  intros Hsheet Hlinks Hdue Hno.
  revert before w Hsheet. induction pre as [|r pre IH]; intros before w Hsheet.
  - cbn [app publish_rows List.filter flat_map map].
    apply due_spec in Hdue as (Ha & Hp & Hn). rewrite Ha, Hn, Hp. cbn [negb orb].
    unfold mock_publish_instagram, mock_publish_blog, Rt.emit, Rt.lift.
    rewrite (text_items_no_link row Hno).
    unfold mbind, M_bind. cbn [calls trace sheet]. by rewrite Hsheet.
  - apply Forall_cons in Hlinks as [Hlink Hlinks].
    cbn [app publish_rows List.filter map].
    destruct (due r) eqn:Hdr.
    + apply due_spec in Hdr as Hd. destruct Hd as (Ha & Hp & Hn).
      rewrite Ha, Hn, Hp. cbn [negb orb].
      destruct (Hlink eq_refl) as [link Hl].
      unfold mock_publish_instagram, mock_publish_blog,
        mock_publish_youtube, update_status, Rt.emit, Rt.lift.
      cbn [text_items]. rewrite Hl. cbn [Rt.bind_o].
      unfold mbind, M_bind. cbn [calls trace sheet].
      replace (2 + length before - 2) with (length before + 0) by lia.
      rewrite Hsheet, alter_app_r. cbn [app alter list_alter].
      replace (S (2 + length before))
        with (2 + length (before ++ [mark_published r]))
        by (rewrite length_app; simpl; lia).
      rewrite (IH Hlinks); [| cbn [sheet]; by rewrite <- app_assoc].
      cbn [calls trace sheet flat_map]. unfold publish_events at 2. rewrite Hl.
      f_equal. f_equal.
      * by rewrite <- !app_assoc.
      * by rewrite <- app_assoc.
    + assert (Hnext : publish_rows (S (2 + length before)) (pre ++ row :: post) w =
        (Raised (TypeError "sequence item: expected str instance"),
         World (calls w)
           (trace w ++ flat_map publish_events (List.filter due pre)
              ++ [MockInstagram (preview "Sample caption with #hashtag")
                    (row !! "Instagram Link")])
           (before ++ r ::
              map (λ row, if due row then mark_published row else row) pre
              ++ row :: post))).
      { replace (S (2 + length before)) with (2 + length (before ++ [r]))
          by (rewrite length_app; simpl; lia).
        rewrite (IH Hlinks); [| by rewrite <- app_assoc].
        by rewrite <- app_assoc. }
      unfold due in Hdr.
      destruct (Rt.field_is r "Approval" "Approved"),
        (Rt.field_is r "Status" "Not Relevant"),
        (Rt.field_is r "Status" "Published");
        simpl in Hdr; try discriminate; exact Hnext.
Qed.

(** X14: when a row to publish has no text in its 'Blog Link' cell, the
    run stops there with a TypeError, after the Instagram line of that
    row has been printed: the rows above have been published and marked,
    the row itself and the rows below keep their status. *)
Theorem publish_stops_at_missing_link (pre post : list entry) row w
    (Hsheet : sheet w = pre ++ row :: post)
    (Hlinks : Forall (λ row, due row = true → has_blog_link row) pre)
    (Hdue : due row = true)
    (Hno : ∀ link, row !! "Blog Link" ≠ Some (JStr link)) :
  run w =
    (Raised (TypeError "sequence item: expected str instance"),
     World (calls w)
       (trace w ++ flat_map publish_events (List.filter due pre)
          ++ [MockInstagram (preview "Sample caption with #hashtag")
                (row !! "Instagram Link")])
       (map (λ row, if due row then <["Status" := JStr "Published"]> row
                    else row) pre
          ++ row :: post)).
Proof.
  unfold run, mbind, M_bind. rewrite Hsheet.
  pose proof (publish_rows_stops pre post [] row w Hsheet Hlinks Hdue Hno) as Hrun.
  cbn [length Nat.add app] in Hrun. by rewrite Hrun.
Qed.

Lemma publish_events_quiet row :
  requests (publish_events row) = 0 ∧ waits (publish_events row) = [].
Proof.
  unfold publish_events. by destruct (row !! "Blog Link") as [[]|].
Qed.

Lemma publish_trace_quiet rows :
  requests (flat_map publish_events rows) = 0
  ∧ waits (flat_map publish_events rows) = [].
Proof.
  induction rows as [|row rows [IHr IHw]]; [done|].
  destruct (publish_events_quiet row) as [Hr Hw].
  cbn [flat_map]. rewrite requests_app, waits_app, Hr, Hw, IHr, IHw. done.
Qed.

Lemma publish_trace_length rows :
  Forall (λ row, due row = true → has_blog_link row) rows →
  length (flat_map publish_events (List.filter due rows))
    = 3 * length (List.filter due rows).
Proof.
  induction 1 as [|row rows Hlink _ IH]; [done|].
  cbn [List.filter]. destruct (due row) eqn:Hd; [|exact IH].
  destruct (Hlink eq_refl) as [link Hl].
  cbn [flat_map]. rewrite length_app, IH. unfold publish_events. rewrite Hl.
  simpl. lia.
Qed.

(** X15: a run of the publish stage sends no request to the language
    model and never sleeps; it prints three lines per published row; it
    keeps the number and the order of the rows and changes no cell
    outside the Status column. *)
Theorem publish_touches_status_only w
    (Hlinks : Forall (λ row, due row = true → has_blog_link row) (sheet w)) :
  ∃ w1 new,
    run w = (Normal true, w1)
    ∧ calls w1 = calls w
    ∧ trace w1 = trace w ++ new
    ∧ requests new = 0 ∧ waits new = []
    ∧ length new = 3 * length (List.filter due (sheet w))
    ∧ length (sheet w1) = length (sheet w)
    ∧ delete "Status" <$> sheet w1 = delete "Status" <$> sheet w.
Proof.
  eexists _, _. split; [by apply run_once|]. cbn [calls trace sheet].
  split; [done|]. split; [done|].
  destruct (publish_trace_quiet (List.filter due (sheet w))) as [Hr Hw].
  split; [exact Hr|]. split; [exact Hw|].
  split; [by apply publish_trace_length|].
  split; [apply length_map|].
  change (map ?f (sheet w)) with (f <$> sheet w).
  rewrite <- list_fmap_compose. apply list_fmap_ext. intros i row _. simpl.
  destruct (due row); [|done]. apply delete_insert_eq.
Qed.

End PublishMore.

Lemma publish_stops_at_missing_link_witness :
  ∃ w1,
    Publish.run Samples.broken_world
      = (Raised (TypeError "sequence item: expected str instance"), w1)
    ∧ map (λ row : entry, Status.text_of (row !! "Status")) (sheet w1)
        = [Some "Published"; Some "Content Generated"; Some "Content Generated"]
    ∧ length (trace w1) = 4.
Proof.
  eexists. split.
  - apply (publish_stops_at_missing_link
             [Samples.sheet_row "neet result 2024" "Content Generated" "Approved"]
             [Samples.sheet_row "ssc result" "Content Generated" "Approved"]
             Samples.linkless_row Samples.broken_world eq_refl).
    + apply Forall_cons. split; [|apply Forall_nil_2].
      intros _. eexists. vm_compute. reflexivity.
    + vm_compute. reflexivity.
    + intros link H. vm_compute in H. discriminate H.
  - cbn [sheet trace]. split; vm_compute; reflexivity.
Defined.

Lemma publish_touches_status_only_witness :
  ∃ w1,
    Publish.run Samples.sheet_world = (Normal true, w1)
    ∧ calls w1 = 0
    ∧ length (trace w1) = 3
    ∧ length (sheet w1) = 4.
Proof.
  destruct (publish_touches_status_only Samples.sheet_world sample_sheet_links)
    as (w1 & new & Hrun & Hcalls & Htrace & _ & _ & Hlen & Hrows & _).
  exists w1. split; [exact Hrun|]. split; [exact Hcalls|].
  split; [|exact Hrows].
  rewrite Htrace, length_app, Hlen. vm_compute. reflexivity.
Defined.

(** ** More on the trend records *)

Section TrendsMore.

Import Trends.

Implicit Types (k : string) (seen : gset string) (rows : list trend_entry).

Lemma drop_duplicates_sublist seen rows :
  drop_duplicates_first seen rows `sublist_of` rows.
Proof.
  revert seen. induction rows as [|r rows IH]; intros seen; simpl; [done|].
  case_bool_decide.
  - by apply sublist_cons.
  - by apply sublist_skip.
Qed.

(** The keywords that survive: those of the input not seen before. *)
Lemma drop_duplicates_keywords seen rows k :
  k ∈ (keyword <$> drop_duplicates_first seen rows)
  ↔ ((k ∉ seen) ∧ k ∈ (keyword <$> rows)).
Proof.
  revert seen. induction rows as [|r rows IH]; intros seen;
    cbn [drop_duplicates_first].
  - rewrite fmap_nil, elem_of_nil. tauto.
  - rewrite (fmap_cons keyword r rows), (elem_of_cons _ k (keyword r)).
    case_bool_decide as Hr.
    + rewrite IH. split; [tauto|].
      intros [Hk [-> | Hin]]; [done | tauto].
    + rewrite fmap_cons, elem_of_cons, IH.
      rewrite not_elem_of_union, not_elem_of_singleton.
      split.
      * intros [-> | [[Hne Hk] Hin]]; [by split; [|left] | tauto].
      * intros [Hk [-> | Hin]]; [by left|].
        destruct (decide (k = keyword r)) as [->|Hne]; [by left | right; tauto].
Qed.

Lemma drop_duplicates_NoDup seen rows :
  NoDup (keyword <$> drop_duplicates_first seen rows).
Proof.
  revert seen. induction rows as [|r rows IH]; intros seen;
    cbn [drop_duplicates_first].
  - apply NoDup_nil_2.
  - case_bool_decide; [apply IH|].
    rewrite fmap_cons. apply NoDup_cons. split; [|apply IH].
    rewrite drop_duplicates_keywords. intros [Hnot _]. apply Hnot.
    apply elem_of_union. left. by apply elem_of_singleton.
Qed.

(** Rows with distinct, unseen keywords are all kept. *)
Lemma drop_duplicates_distinct seen rows :
  NoDup (keyword <$> rows) →
  (∀ k, k ∈ (keyword <$> rows) → k ∉ seen) →
  drop_duplicates_first seen rows = rows.
Proof.
  revert seen. induction rows as [|r rows IH]; intros seen Hnd Hfresh;
    cbn [drop_duplicates_first]; [done|].
  rewrite fmap_cons in Hnd. apply NoDup_cons in Hnd as [Hr Hnd].
  rewrite bool_decide_eq_false_2.
  2:{ apply Hfresh. rewrite fmap_cons. apply elem_of_cons. by left. }
  f_equal. apply IH; [done|].
  intros k Hk. rewrite not_elem_of_union, not_elem_of_singleton. split.
  - intros ->. done.
  - apply Hfresh. rewrite fmap_cons. apply elem_of_cons. by right.
Qed.

(** X16: [save_to_csv] refuses an empty list and writes nothing then.
    Otherwise the rows it writes have pairwise distinct keywords, are
    taken from the input without reordering, cover every keyword of the
    input, and are left as they are by a second save; rows whose
    keywords are already distinct are all written. *)
Theorem save_to_csv_deduplicates (data : list trend_entry) :
  match save_to_csv data with
  | (true, Some saved) =>
      data ≠ []
      ∧ NoDup (keyword <$> saved)
      ∧ saved `sublist_of` data
      ∧ (∀ k, k ∈ (keyword <$> saved) ↔ k ∈ (keyword <$> data))
      ∧ save_to_csv saved = (true, Some saved)
      ∧ (NoDup (keyword <$> data) → saved = data)
  | (false, None) => data = []
  | _ => False
  end.
Proof.
  destruct data as [|r data]; [done|].
  cbn [save_to_csv]. set (rows := r :: data).
  split; [done|]. split; [apply drop_duplicates_NoDup|].
  split; [apply drop_duplicates_sublist|]. split; [|split].
  - intros k. rewrite drop_duplicates_keywords. split; [tauto|].
    intros Hin. split; [apply not_elem_of_empty | done].
  - assert (Hfix : drop_duplicates_first ∅ (drop_duplicates_first ∅ rows)
                   = drop_duplicates_first ∅ rows).
    { apply drop_duplicates_distinct; [apply drop_duplicates_NoDup|].
      intros k _. apply not_elem_of_empty. }
    unfold save_to_csv. rewrite Hfix.
    subst rows. simpl. rewrite bool_decide_eq_false_2 by apply not_elem_of_empty.
    done.
  - intros Hnd. apply drop_duplicates_distinct; [done|].
    intros k _. apply not_elem_of_empty.
Qed.

Lemma job_keywords_NoDup : NoDup job_keywords.
Proof.
  apply (bool_decide_unpack (NoDup job_keywords)). vm_compute. exact I.
Qed.

Lemma extraction_keywords (draw : nat → Z) (clock : nat → string) :
  keyword <$> extraction draw clock = job_keywords.
Proof.
  unfold extraction. apply list_eq. intros i.
  rewrite list_lookup_fmap, list_lookup_imap.
  by destruct (job_keywords !! i).
Qed.

(** X17: an extraction in which no keyword fails yields one record per
    configured keyword, in the order of the list, each for India and with
    the score drawn for it; the thirty keywords are distinct, so the save
    that follows writes every record and removes nothing. *)
Theorem extraction_is_saved_whole (draw : nat → Z) (clock : nat → string) :
  let data := extraction draw clock in
  length data = 30
  ∧ keyword <$> data = job_keywords
  ∧ (∀ i r, data !! i = Some r →
       geo r = "IN" ∧ interest r = draw i ∧ timestamp r = clock i
       ∧ category r = categorize_keyword (keyword r)
       ∧ related_topics r = generate_related_topics (keyword r))
  ∧ save_to_csv data = (true, Some data).
Proof.
  cbv zeta. split; [|split; [|split]].
  - unfold extraction. by rewrite length_imap.
  - apply extraction_keywords.
  - intros i r Hi. unfold extraction in Hi.
    rewrite list_lookup_imap in Hi.
    destruct (job_keywords !! i) as [kw|]; [|done].
    by injection Hi as <-.
  - assert (Hne : extraction draw clock ≠ []).
    { intros Hnil. apply (f_equal length) in Hnil.
      unfold extraction in Hnil. by rewrite length_imap in Hnil. }
    assert (Hfix : drop_duplicates_first ∅ (extraction draw clock)
                   = extraction draw clock).
    { apply drop_duplicates_distinct.
      - rewrite extraction_keywords. apply job_keywords_NoDup.
      - intros k _. apply not_elem_of_empty. }
    unfold save_to_csv.
    destruct (extraction draw clock) as [|r rows]; [done|]. by rewrite Hfix.
Qed.

End TrendsMore.

Lemma save_to_csv_deduplicates_witness :
  Trends.save_to_csv [Samples.ssc_first] = (true, Some [Samples.ssc_first]).
Proof.
  pose proof (save_to_csv_deduplicates [Samples.ssc_first]) as H.
  destruct (Trends.save_to_csv [Samples.ssc_first]) as [[] [saved|]];
    try done.
  destruct H as (_ & _ & _ & _ & _ & Hsame).
  rewrite Hsame; [done|]. apply NoDup_singleton.
Defined.

Lemma extraction_is_saved_whole_witness :
  ∃ r, Trends.extraction (λ i, 50 + Z.of_nat i)%Z (λ _, Samples.noon) !! 11
         = Some r
    ∧ Trends.keyword r = "ssc result" ∧ Trends.interest r = 61%Z
    ∧ Trends.category r = "Result".
Proof.
  destruct (Trends.extraction (λ i, 50 + Z.of_nat i)%Z (λ _, Samples.noon) !! 11)
    as [r|] eqn:Hr; [|by vm_compute in Hr].
  destruct (extraction_is_saved_whole (λ i, 50 + Z.of_nat i)%Z
              (λ _, Samples.noon)) as (_ & Hkeys & Hrows & _).
  destruct (Hrows 11 r Hr) as (_ & Hi & _ & Hc & _).
  assert (Hk : Trends.keyword r = "ssc result").
  { apply (f_equal (λ l, l !! 11)) in Hkeys.
    rewrite list_lookup_fmap, Hr in Hkeys. simpl in Hkeys.
    by injection Hkeys. }
  exists r. split; [done|]. split; [exact Hk|]. split; [exact Hi|].
  rewrite Hc, Hk. vm_compute. reflexivity.
Defined.

(** ** The upload to the sheet *)

Section Upload.

Import Sheets.

Context (str : json → string) (Hstr : ∀ s, str (JStr s) = s).
Context (accepts : list (list string) → bool) (now : string).

(** The cell under the i-th header. *)
Lemma upload_row_lookup (e : entry) (i : nat) (header : string) :
  Settings.SHEET_HEADERS !! i = Some header →
  upload_row str e !! i
    = Some (str (default (JStr "") (e !! header_key header))).
Proof.
  intros Hh. unfold upload_row.
  change (map ?f Settings.SHEET_HEADERS) with (f <$> Settings.SHEET_HEADERS).
  by rewrite list_lookup_fmap, Hh.
Qed.

(** X18: the upload reports success exactly when the table exists, is
    not empty and the worksheet takes the rows, and writes nothing
    otherwise; what it writes is one row per entry, in order, each of
    seventeen cells in the order of the header, and a column the entry
    does not have becomes an empty cell.  The status and the four links
    that the merge of phase 3 has written arrive in columns D and I to L,
    the keyword in column A; column D is the one the publish stage
    updates. *)
Theorem upload_carries_the_merge (keys : list json) (e e' : entry) (k : string)
    (Hkey : e !! "keyword" = Some (JStr k))
    (Hhit : existsb (Rt.eq_cell (JStr k)) keys = true)
    (Hlink : Content.link_entry now keys e = Normal e') :
  (∀ file,
     (upload_data_to_sheet str accepts file).1 = true
     ↔ ∃ data, file = Some data ∧ data ≠ []
               ∧ accepts (upload_row str <$> data) = true)
  ∧ (∀ file rows,
       (upload_data_to_sheet str accepts file).2 = Some rows →
       (upload_data_to_sheet str accepts file).1 = true
       ∧ ∃ data, file = Some data ∧ rows = upload_row str <$> data
                 ∧ length rows = length data)
  ∧ (∀ e0 : entry, length (upload_row str e0) = 17)
  ∧ (∀ (e0 : entry) i header,
       Settings.SHEET_HEADERS !! i = Some header →
       e0 !! header_key header = None →
       upload_row str e0 !! i = Some (str (JStr "")))
  ∧ Settings.SHEET_HEADERS !! 3 = Some "Status"
  ∧ upload_row str e' !! 0 = Some k
  ∧ upload_row str e' !! 3
      = Some (if Rt.field_is e "category" "Not Relevant"
              then "Not Relevant" else "Content Generated")
  ∧ upload_row str e' !! 8
      = Some (Content.base_url ++ "/instagram_"
                ++ Py.replace_char " " "_" k ++ ".txt")%string
  ∧ upload_row str e' !! 9
      = Some (Content.base_url ++ "/blog_"
                ++ Py.replace_char " " "_" k ++ ".html")%string
  ∧ upload_row str e' !! 10
      = Some (Content.base_url ++ "/reel_"
                ++ Py.replace_char " " "_" k ++ ".txt")%string
  ∧ upload_row str e' !! 11
      = Some (Content.base_url ++ "/thumbnail_"
                ++ Py.replace_char " " "_" k ++ ".png")%string.
Proof.
  split.
  { intros [[|e0 data]|]; cbn [upload_data_to_sheet].
    - split; [done|]. by intros (data & [= <-] & Hne & _).
    - change (map ?f (e0 :: data)) with (f <$> e0 :: data).
      destruct (accepts (upload_row str <$> e0 :: data)) eqn:Hacc.
      + split; [|done]. intros _. by exists (e0 :: data).
      + split; [done|]. intros (data' & [= <-] & _ & Hacc').
        by rewrite Hacc in Hacc'.
    - split; [done|]. by intros (data & [=] & _). }
  split.
  { intros [[|e0 data]|] rows; cbn [upload_data_to_sheet]; [done| |done].
    change (map ?f (e0 :: data)) with (f <$> e0 :: data).
    destruct (accepts (upload_row str <$> e0 :: data)); [|done].
    intros [= <-]. split; [done|]. exists (e0 :: data).
    split; [reflexivity|]. split; [reflexivity|].
    apply (length_fmap (upload_row str) (e0 :: data)). }
  split. { intros e0. unfold upload_row. by rewrite length_map. }
  split.
  { intros e0 i header Hh Hnone.
    by rewrite (upload_row_lookup e0 i header Hh), Hnone. }
  split; [done|].
  unfold Content.link_entry in Hlink. rewrite Hkey in Hlink.
  cbn [Content.hashable negb] in Hlink. rewrite Hhit in Hlink.
  injection Hlink as <-.
  assert (Hk : header_key "Keyword" = "keyword") by (vm_compute; reflexivity).
  assert (Hs : header_key "Status" = "status") by (vm_compute; reflexivity).
  assert (Hi : header_key "Instagram Link" = "instagram_link")
    by (vm_compute; reflexivity).
  assert (Hb : header_key "Blog Link" = "blog_link") by (vm_compute; reflexivity).
  assert (Hr : header_key "YouTube Reel Link" = "youtube_reel_link")
    by (vm_compute; reflexivity).
  assert (Ht : header_key "YouTube Thumbnail Link" = "youtube_thumbnail_link")
    by (vm_compute; reflexivity).
  split; [|split; [|split; [|split; [|split]]]].
  - rewrite (upload_row_lookup _ 0 "Keyword" eq_refl), Hk.
    rewrite !lookup_insert_ne by done.
    destruct (Rt.field_is e "category" Settings.CATEGORY_NOT_RELEVANT);
      rewrite lookup_insert_ne by done; rewrite Hkey; simpl; by rewrite Hstr.
  - rewrite (upload_row_lookup _ 3 "Status" eq_refl), Hs.
    rewrite !lookup_insert_ne by done.
    change Settings.CATEGORY_NOT_RELEVANT with "Not Relevant".
    destruct (Rt.field_is e "category" "Not Relevant");
      rewrite lookup_insert_eq; simpl; by rewrite Hstr.
  - rewrite (upload_row_lookup _ 8 "Instagram Link" eq_refl), Hi.
    rewrite !lookup_insert_ne by done. rewrite lookup_insert_eq. simpl.
    by rewrite Hstr.
  - rewrite (upload_row_lookup _ 9 "Blog Link" eq_refl), Hb.
    rewrite !lookup_insert_ne by done. rewrite lookup_insert_eq. simpl.
    by rewrite Hstr.
  - rewrite (upload_row_lookup _ 10 "YouTube Reel Link" eq_refl), Hr.
    rewrite !lookup_insert_ne by done. rewrite lookup_insert_eq. simpl.
    by rewrite Hstr.
  - rewrite (upload_row_lookup _ 11 "YouTube Thumbnail Link" eq_refl), Ht.
    rewrite lookup_insert_eq. simpl. by rewrite Hstr.
Qed.

End Upload.

Lemma upload_carries_the_merge_witness :
  ∃ e' : entry,
    Content.link_entry Samples.noon [JStr "neet result 2024"]
      Samples.neet_approved = Normal e'
    ∧ Sheets.upload_row Samples.str_cell e' !! 3 = Some "Content Generated"
    ∧ Sheets.upload_row Samples.str_cell e' !! 0 = Some "neet result 2024"
    ∧ Sheets.upload_row Samples.str_cell e' !! 4 = Some "".
Proof.
  destruct (link_entry_hit Samples.noon [JStr "neet result 2024"]
              Samples.neet_approved "neet result 2024" neet_approved_keyword
              eq_refl) as (e' & Hlink & _).
  destruct (upload_carries_the_merge Samples.str_cell (λ s, eq_refl)
              (λ _, true) Samples.noon [JStr "neet result 2024"] Samples.neet_approved e'
              "neet result 2024" neet_approved_keyword eq_refl Hlink)
    as (_ & _ & _ & Hempty & _ & Hk & Hs & _).
  exists e'. split; [exact Hlink|].
  split. { rewrite Hs. vm_compute. reflexivity. }
  split; [exact Hk|].
  apply (Hempty e' 4 "Approval" eq_refl).
  change (Sheets.header_key "Approval") with "approval".
  rewrite (link_entry_other_columns Samples.noon _ _ _ "approval" Hlink).
  - vm_compute. reflexivity.
  - intros H. repeat (apply elem_of_cons in H as [H|H]; [discriminate|]).
    by apply elem_of_nil in H.
Defined.

(** ** The orchestrator *)

Section Orchestration.

Import Orchestrator.

Context {S : Type}.
Context (check_prerequisites run_phase1 run_phase2 run_phase3 run_phase4
         create_sample_data_if_needed : S → bool * S).

(** X19: a full run is reported successful exactly when the
    prerequisites hold, phase 2 succeeds and at least one of the phases
    1, 3 and 4 succeeds as well.  When the prerequisites fail no phase
    runs; when phase 1 fails the sample data is created and the run goes
    on; when phase 2 fails the run ends there and phases 3 and 4 do not
    run. *)
Theorem run_all_phases_verdict (s : S) :
  let run := run_all_phases check_prerequisites run_phase1 run_phase2
               run_phase3 run_phase4 create_sample_data_if_needed in
  let r0 := check_prerequisites s in
  if r0.1 then
    let r1 := run_phase1 r0.2 in
    let s1 := if r1.1 then r1.2 else (create_sample_data_if_needed r1.2).2 in
    let r2 := run_phase2 s1 in
    if r2.1 then
      let r3 := run_phase3 r2.2 in
      let r4 := run_phase4 r3.2 in
      run s = (r1.1 || r3.1 || r4.1, r4.2)
    else run s = (false, r2.2)
  else run s = (false, r0.2).
Proof.
  cbv zeta. unfold run_all_phases.
  destruct (check_prerequisites s) as [[] s0]; cbn [fst snd negb]; [|done].
  destruct (run_phase1 s0) as [[] s1]; cbn [fst snd].
  - destruct (run_phase2 s1) as [[] s2]; cbn [fst snd negb]; [|done].
    destruct (run_phase3 s2) as [[] s3]; cbn [fst snd];
      destruct (run_phase4 s3) as [[] s4]; done.
  - destruct (run_phase2 (create_sample_data_if_needed s1).2) as [[] s2];
      cbn [fst snd negb]; [|done].
    destruct (run_phase3 s2) as [[] s3]; cbn [fst snd];
      destruct (run_phase4 s3) as [[] s4]; done.
Qed.

(** The run as a composition of the phases. *)
Lemma run_all_phases_unfold (s : S) :
  run_all_phases check_prerequisites run_phase1 run_phase2 run_phase3
    run_phase4 create_sample_data_if_needed s
  = let r0 := check_prerequisites s in
    if r0.1 then
      let r1 := run_phase1 r0.2 in
      let s1 := if r1.1 then r1.2 else (create_sample_data_if_needed r1.2).2 in
      let r2 := run_phase2 s1 in
      if r2.1 then
        let r3 := run_phase3 r2.2 in
        let r4 := run_phase4 r3.2 in
        (r1.1 || r3.1 || r4.1, r4.2)
      else (false, r2.2)
    else (false, r0.2).
Proof.
  cbv zeta. unfold run_all_phases.
  destruct (check_prerequisites s) as [[] s0]; cbn [fst snd negb]; [|done].
  destruct (run_phase1 s0) as [[] s1]; cbn [fst snd].
  - destruct (run_phase2 s1) as [[] s2]; cbn [fst snd negb]; [|done].
    destruct (run_phase3 s2) as [[] s3]; cbn [fst snd];
      destruct (run_phase4 s3) as [[] s4]; done.
  - destruct (run_phase2 (create_sample_data_if_needed s1).2) as [[] s2];
      cbn [fst snd negb]; [|done].
    destruct (run_phase3 s2) as [[] s3]; cbn [fst snd];
      destruct (run_phase4 s3) as [[] s4]; done.
Qed.

(** What no phase changes, a run does not change. *)
Lemma run_all_phases_preserves {A} (g : S → A) :
  (∀ s, g (check_prerequisites s).2 = g s) →
  (∀ s, g (run_phase1 s).2 = g s) →
  (∀ s, g (run_phase2 s).2 = g s) →
  (∀ s, g (run_phase3 s).2 = g s) →
  (∀ s, g (run_phase4 s).2 = g s) →
  (∀ s, g (create_sample_data_if_needed s).2 = g s) →
  ∀ s, g (run_all_phases check_prerequisites run_phase1 run_phase2
            run_phase3 run_phase4 create_sample_data_if_needed s).2 = g s.
Proof.
  intros H0 H1 H2 H3 H4 Hs s. rewrite run_all_phases_unfold. cbv zeta.
  destruct (check_prerequisites s).1 eqn:E0; cbn [snd]; [|apply H0].
  destruct (run_phase2 _).1 eqn:E2; cbn [snd].
  - rewrite H4, H3, H2.
    destruct (run_phase1 _).1; [|rewrite Hs]; by rewrite H1, H0.
  - rewrite H2.
    destruct (run_phase1 _).1; [|rewrite Hs]; by rewrite H1, H0.
Qed.

End Orchestration.

(** ** The files of a full run *)

Section PipelineMore.

Import Pipeline.

Context (loads : string → option json) (service : nat → reply) (now : string).
Context (reload : list entry → list entry)
  (Hlength : ∀ rows, length (reload rows) = length rows)
  (Hcolumns : ∀ rows col,
     Forall (λ e : entry, is_Some (e !! col)) rows →
     Forall (λ e : entry, is_Some (e !! col)) (reload rows)).
Context (configured : bool) (extracted : option (list Trends.trend_entry))
  (clock : nat → string) (str : json → string)
  (accepts : list (list string) → bool) (connected : bool).

Lemma run_phase1_fails (st : state) :
  extracted = None ∨ extracted = Some [] →
  run_phase1 extracted st = (false, st).
Proof. by intros [-> | ->]. Qed.

Lemma run_phase1_saves (st : state) data :
  extracted = Some data → data ≠ [] →
  ∃ saved,
    saved ≠ []
    ∧ run_phase1 extracted st
      = (true,
         (Files (Some (csv_row <$> saved)) (sample_trends_data st.1)
            (phase2_categorized_data st.1) (phase2_approved st.1)
            (generated_content st.1) (content_summary st.1)
            (updated_trends_data st.1), st.2)).
Proof.
  intros -> Hne. destruct data as [|r data]; [done|].
  exists (Trends.drop_duplicates_first ∅ (r :: data)). split; [|done].
  cbn [Trends.drop_duplicates_first].
  by rewrite bool_decide_eq_false_2 by set_solver.
Qed.

Lemma csv_rows_have_keywords (saved : list Trends.trend_entry) :
  Forall (λ e : entry, is_Some (e !! "keyword")) (csv_row <$> saved).
Proof.
  apply Forall_fmap, Forall_forall. intros r _. unfold csv_row. simpl.
  rewrite lookup_insert_eq. by eexists.
Qed.

Lemma run_phase2_after_phase1 (st : state) saved :
  phase1_trends_data st.1 = Some (csv_row <$> saved) → saved ≠ [] →
  ∃ out w,
    out ≠ []
    ∧ run_phase2 loads service now reload st
      = (true,
         (Files (phase1_trends_data st.1) (sample_trends_data st.1)
            (Some out) (phase2_approved st.1)
            (generated_content st.1) (content_summary st.1)
            (updated_trends_data st.1), w)).
Proof.
  intros Hfile Hne. unfold run_phase2. cbv zeta. rewrite Hfile.
  cbn [fmap option_fmap option_map].
  destruct (categorization_run_cases loads service now
              (Some (reload (csv_row <$> saved))) st.2)
    as (flag & saved' & w & Hrun & Hiff & Hsaved & _).
  assert (flag = true) as ->.
  { apply Hiff. eexists. split; [reflexivity|]. split.
    - intros Hnil. apply (f_equal length) in Hnil.
      rewrite Hlength, length_fmap in Hnil. by destruct saved.
    - apply Hcolumns, csv_rows_have_keywords. }
  destruct (Hsaved eq_refl) as (data & out & [= <-] & -> & Hlen).
  rewrite Hrun. exists out, w. split; [|done].
  intros ->. rewrite Hlength, length_fmap in Hlen. by destruct saved.
Qed.

(** Phase 2 writes the categorized table and no other file. *)
Lemma run_phase2_files (st : state) :
  let f := (run_phase2 loads service now reload st).2.1 in
  phase1_trends_data f = phase1_trends_data st.1
  ∧ sample_trends_data f = sample_trends_data st.1
  ∧ phase2_approved f = phase2_approved st.1
  ∧ generated_content f = generated_content st.1
  ∧ content_summary f = content_summary st.1
  ∧ updated_trends_data f = updated_trends_data st.1.
Proof.
  unfold run_phase2. cbv zeta.
  destruct (Categorize.run _ _ _ _ _) as [[[flag [out|]]|x] w]; done.
Qed.

Lemma run_phase3_no_approved (st : state) :
  phase2_approved st.1 = None →
  run_phase3 loads service now reload st = (false, st).
Proof.
  destruct st as [[] w]. cbn [fst snd phase2_approved]. intros ->. reflexivity.
Qed.

Lemma run_phase4_no_table (st : state) :
  updated_trends_data st.1 = None →
  run_phase4 reload str accepts connected st = (false, st).
Proof.
  intros H. unfold run_phase4. rewrite H. by destruct connected.
Qed.

Lemma run_unconfigured (st : state) :
  configured = false →
  run_all_phases loads service now reload configured extracted clock str
    accepts connected st = (false, st).
Proof.
  intros Hconf. unfold run_all_phases. rewrite run_all_phases_unfold.
  cbv zeta. unfold check_prerequisites. cbn [fst snd]. by rewrite Hconf.
Qed.

(** Phases 2 to 4 where no approved table and no updated table exist. *)
Lemma run_from_phase2 (ok1 : bool) (st1 : state) :
  phase2_approved st1.1 = None →
  updated_trends_data st1.1 = None →
  (if (run_phase2 loads service now reload st1).1 then
     (ok1
      || (run_phase3 loads service now reload
            (run_phase2 loads service now reload st1).2).1
      || (run_phase4 reload str accepts connected
            (run_phase3 loads service now reload
               (run_phase2 loads service now reload st1).2).2).1,
      (run_phase4 reload str accepts connected
         (run_phase3 loads service now reload
            (run_phase2 loads service now reload st1).2).2).2)
   else (false, (run_phase2 loads service now reload st1).2))
  = ((run_phase2 loads service now reload st1).1 && ok1,
     (run_phase2 loads service now reload st1).2).
Proof.
  intros Ha Hu.
  destruct (run_phase2_files st1) as (_ & _ & Ha2 & _ & _ & Hu2).
  rewrite Ha in Ha2. rewrite Hu in Hu2.
  destruct (run_phase2 loads service now reload st1) as [[] st2];
    cbn [fst snd andb] in *; [|done].
  rewrite (run_phase3_no_approved st2 Ha2). cbn [fst snd].
  rewrite (run_phase4_no_table st2 Hu2). cbn [fst snd].
  by destruct ok1.
Qed.

Lemma run_after_failed_phase1 (st : state) :
  configured = true →
  extracted = None ∨ extracted = Some [] →
  phase2_approved st.1 = None →
  updated_trends_data st.1 = None →
  ∃ st',
    run_all_phases loads service now reload configured extracted clock str
      accepts connected st = (false, st')
    ∧ generated_content st'.1 = generated_content st.1
    ∧ content_summary st'.1 = content_summary st.1
    ∧ updated_trends_data st'.1 = None.
Proof.
  intros Hconf Hfail Ha Hu. unfold run_all_phases.
  rewrite run_all_phases_unfold. cbv zeta.
  unfold check_prerequisites. cbn [fst snd]. rewrite Hconf.
  rewrite (run_phase1_fails _ Hfail). cbn [fst snd].
  set (st1 := (create_sample_data_if_needed clock st).2).
  rewrite (run_from_phase2 false st1 Ha Hu).
  rewrite andb_false_r. eexists. split; [reflexivity|]. cbn [snd].
  destruct (run_phase2_files st1) as (_ & _ & _ & Hg & Hc & Hu2).
  rewrite Hg, Hc, Hu2. by repeat split.
Qed.

Lemma run_after_phase1 (st : state) data :
  configured = true →
  extracted = Some data → data ≠ [] →
  phase2_approved st.1 = None →
  updated_trends_data st.1 = None →
  ∃ st' out,
    run_all_phases loads service now reload configured extracted clock str
      accepts connected st = (true, st')
    ∧ phase2_categorized_data st'.1 = Some out
    ∧ out ≠ []
    ∧ generated_content st'.1 = generated_content st.1
    ∧ content_summary st'.1 = content_summary st.1
    ∧ updated_trends_data st'.1 = None.
Proof.
  intros Hconf Hdata Hne Ha Hu. unfold run_all_phases.
  rewrite run_all_phases_unfold. cbv zeta.
  unfold check_prerequisites. cbn [fst snd]. rewrite Hconf.
  destruct (run_phase1_saves st data Hdata Hne) as (saved & Hsne & ->).
  cbn [fst snd].
  match goal with
  | |- context [run_phase2 _ _ _ _ ?s] => set (st1 := s)
  end.
  rewrite (run_from_phase2 true st1 Ha Hu).
  destruct (run_phase2_after_phase1 st1 saved eq_refl Hsne)
    as (out & w & Hout & ->).
  cbn [fst snd andb]. eexists _, out. split; [reflexivity|].
  cbn [fst snd phase2_categorized_data generated_content content_summary
       updated_trends_data]. by repeat split.
Qed.

(** X20: a full run started where no approved table and no updated table
    exist.  Phases 3 and 4 then fail and write nothing, so the run is
    reported successful exactly when the configuration is complete and
    the extraction of phase 1 yields at least one record: phase 2 then
    always goes through and leaves a categorized table that is not
    empty.  The sample data written when phase 1 fails goes to a file no
    phase reads, so it never turns the verdict.  In no state at all does
    a full run create or change the approved table. *)
Theorem run_without_approval (st : state)
    (Happroved : phase2_approved st.1 = None)
    (Hupdated : updated_trends_data st.1 = None) :
  let run := run_all_phases loads service now reload configured extracted
               clock str accepts connected in
  ((run st).1 = true
   ↔ configured = true ∧ ∃ data, extracted = Some data ∧ data ≠ [])
  ∧ ((run st).1 = true →
       ∃ rows, phase2_categorized_data (run st).2.1 = Some rows ∧ rows ≠ [])
  ∧ generated_content (run st).2.1 = generated_content st.1
  ∧ content_summary (run st).2.1 = content_summary st.1
  ∧ updated_trends_data (run st).2.1 = None
  ∧ (∀ st0, phase2_approved (run st0).2.1 = phase2_approved st0.1).
Proof.
  cbv zeta.
  assert (Hkeep : ∀ st0,
    phase2_approved
      (run_all_phases loads service now reload configured extracted clock
         str accepts connected st0).2.1 = phase2_approved st0.1).
  { unfold run_all_phases.
    apply (run_all_phases_preserves _ _ _ _ _ _ (λ s : state, phase2_approved s.1)).
    - done.
    - intros s. unfold run_phase1.
      destruct extracted as [data|]; [|done].
      by destruct (Trends.save_to_csv data) as [ok [saved|]].
    - intros s. apply run_phase2_files.
    - intros s. unfold run_phase3. cbv zeta.
      by destruct (Content.run _ _ _ _ _) as [[r|x] w].
    - intros s. unfold run_phase4. by destruct connected.
    - done. }
  destruct (Bool.bool_dec configured true) as [Hconf|Hconf].
  2:{ apply not_true_is_false in Hconf.
      rewrite (run_unconfigured st Hconf). cbn [fst snd].
      split; [split; [done | intros [Hc _]; congruence]|]. by repeat split. }
  assert (Hcases : (extracted = None ∨ extracted = Some [])
                   ∨ ∃ data, extracted = Some data ∧ data ≠ []).
  { destruct extracted as [[|r data]|];
      [left; by right | right; by eexists | left; by left]. }
  destruct Hcases as [Hfail | (data & Hdata & Hne)].
  - destruct (run_after_failed_phase1 st Hconf Hfail Happroved Hupdated)
      as (st' & -> & Hg & Hc & Hu). cbn [fst snd].
    split; [|by repeat split].
    split; [done|]. intros (_ & d & Hd & Hdne).
    destruct Hfail as [Hf|Hf]; rewrite Hf in Hd; congruence.
  - destruct (run_after_phase1 st data Hconf Hdata Hne Happroved Hupdated)
      as (st' & out & -> & Hout & Hone & Hg & Hc & Hu). cbn [fst snd].
    split; [split; [intros _; split; [done | by exists data] | done]|].
    split; [intros _; by exists out|]. by repeat split.
Qed.

End PipelineMore.

Lemma run_without_approval_witness :
  (Pipeline.run_all_phases Samples.sample_loads Samples.service_banana
     Samples.noon (λ rows, rows) true (Some [Samples.ssc_first])
     (λ _, Samples.noon) Samples.str_cell (λ _, true) true
     (Samples.no_files, Samples.start)).1 = true.
Proof.
  destruct (run_without_approval Samples.sample_loads Samples.service_banana
              Samples.noon (λ rows, rows) (λ rows, eq_refl)
              (λ rows col H, H) true (Some [Samples.ssc_first])
              (λ _, Samples.noon) Samples.str_cell (λ _, true) true
              (Samples.no_files, Samples.start) eq_refl eq_refl)
    as (Hiff & _).
  apply Hiff. split; [reflexivity|]. by eexists.
Defined.

(** ** From the phases to the sheet and on to the publisher *)

Section SheetColumns.

Import Sheets.

Context (str : json → string) (now : string).



End SheetColumns.

Section SheetToPublisher.

Import Sheets Publish.

Context (str : json → string) (Hstr : ∀ s, str (JStr s) = s).
Context (numericise : string → json)
  (Htext : ∀ s v, numericise s = JStr v → v = s).

Lemma zip_with_image {A B} (f : A → B) (l : list A) :
  zip l (f <$> l) = (λ x, (x, f x)) <$> l.
Proof. induction l as [|x l IH]; [done|]. cbn. by rewrite IH. Qed.

(** The record of an uploaded row holds the cell of every header. *)
Lemma record_of_upload (e : entry) (i : nat) (header : string) :
  Settings.SHEET_HEADERS !! i = Some header →
  record_of numericise (upload_row str e) !! header
  = Some (numericise (str (default (JStr "") (e !! header_key header)))).
Proof.
  intros Hh. unfold record_of, upload_row.
  change (map ?f Settings.SHEET_HEADERS) with (f <$> Settings.SHEET_HEADERS).
  rewrite <- list_fmap_compose, zip_with_image.
  apply elem_of_list_to_map_1.
  - rewrite <- list_fmap_compose.
    rewrite (list_fmap_ext _ id Settings.SHEET_HEADERS) by done.
    rewrite list_fmap_id. unfold Settings.SHEET_HEADERS.
    repeat (apply NoDup_cons; split;
      [intros H; repeat (apply elem_of_cons in H as [H|H]; [discriminate|]);
       by apply elem_of_nil in H|]).
    apply NoDup_nil_2.
  - apply list_elem_of_fmap. exists header. split; [done|].
    by apply list_elem_of_lookup_2 with i.
Qed.

(** No record has a key outside the header. *)
Lemma record_of_key (cells : list string) (key : string) :
  key ∉ Settings.SHEET_HEADERS →
  record_of numericise cells !! key = None.
Proof.
  intros Hnot. unfold record_of. apply not_elem_of_list_to_map_1.
  intros Hin. apply Hnot.
  apply list_elem_of_fmap in Hin as ([h c] & -> & Hin).
  by apply elem_of_zip_l in Hin.
Qed.

(** X22: the publisher reads the sheet through the header, so the
    thumbnail it hands on is always missing: it asks for 'Youtube
    Thumbnail Link' and the header has 'YouTube Thumbnail Link'.  An
    uploaded row is published only if its entry carried an 'approval'
    reading 'Approved'; the rows of a table without that column are all
    skipped, and the run on the freshly uploaded sheet prints nothing
    and changes nothing. *)
Theorem upload_is_not_published (data : list entry) (w : world)
    (Hnone : Forall (λ e : entry, e !! "approval" = None) data)
    (Hsheet : sheet w = get_all_records numericise (upload_row str <$> data)) :
  (∀ cells, record_of numericise cells !! "Youtube Thumbnail Link" = None)
  ∧ (∀ e : entry,
       due (record_of numericise (upload_row str e)) = true →
       ∃ v, e !! "approval" = Some v ∧ str v = "Approved")
  ∧ run w = (Normal true, w).
Proof.
  assert (Hdue : ∀ e : entry,
    due (record_of numericise (upload_row str e)) = true →
    ∃ v, e !! "approval" = Some v ∧ str v = "Approved").
  { intros e Hd. apply due_spec in Hd as (Ha & _).
    unfold Rt.field_is in Ha.
    rewrite (record_of_upload e 4 "Approval" eq_refl) in Ha.
    change (header_key "Approval") with "approval" in Ha.
    destruct (numericise (str (default (JStr "") (e !! "approval"))))
      as [| | |t| |] eqn:Hn; try discriminate.
    cbn [Rt.eq_str] in Ha. apply String.eqb_eq in Ha as ->.
    apply Htext in Hn.
    destruct (e !! "approval") as [v|]; [by exists v|].
    cbn [default] in Hn. by rewrite Hstr in Hn. }
  split; [|split; [exact Hdue|]].
  - intros cells. apply record_of_key. unfold Settings.SHEET_HEADERS.
    intros H. repeat (apply elem_of_cons in H as [H|H]; [discriminate|]).
    by apply elem_of_nil in H.
  - assert (Hquiet : Forall (λ row, due row = false) (sheet w)).
    { rewrite Hsheet. unfold get_all_records. rewrite <- list_fmap_compose.
      apply Forall_fmap. apply (Forall_impl _ _ _ Hnone). intros e He.
      cbn [compose]. destruct (due _) eqn:Hd; [|done].
      destruct (Hdue e Hd) as (v & Hv & _). congruence. }
    rewrite run_once.
    2:{ apply (Forall_impl _ _ _ Hquiet). intros row ->. discriminate. }
    clear Hsheet. destruct w as [c t sh]. cbn [calls trace sheet] in *.
    f_equal. f_equal.
    + induction sh as [|row sh IH]; [by rewrite app_nil_r|].
      apply Forall_cons in Hquiet as [Hr Hq]. cbn [List.filter].
      rewrite Hr. by apply IH.
    + induction sh as [|row sh IH]; [done|].
      apply Forall_cons in Hquiet as [Hr Hq]. cbn [map].
      rewrite Hr. f_equal. by apply IH.
Qed.

End SheetToPublisher.


Lemma numericise_keeps_text (s v : string) :
  Samples.numericise s = JStr v → v = s.
Proof.
  unfold Samples.numericise. destruct s as [|c s]; [congruence|].
  destruct (Samples.whole_number 0 (String c s)); congruence.
Qed.

Lemma upload_is_not_published_witness :
  Publish.run
    (World 0 []
       (Sheets.get_all_records Samples.numericise
          (Sheets.upload_row Samples.str_cell <$> [Samples.neet_approved])))
  = (Normal true,
     World 0 []
       (Sheets.get_all_records Samples.numericise
          (Sheets.upload_row Samples.str_cell <$> [Samples.neet_approved]))).
Proof.
  destruct (upload_is_not_published Samples.str_cell (λ s, eq_refl)
              Samples.numericise numericise_keeps_text
              [Samples.neet_approved]
              (World 0 []
                 (Sheets.get_all_records Samples.numericise
                    (Sheets.upload_row Samples.str_cell
                       <$> [Samples.neet_approved]))))
    as (_ & _ & Hrun).
  - apply Forall_cons. split; [vm_compute; reflexivity | apply Forall_nil_2].
  - reflexivity.
  - exact Hrun.
Defined.
